(** * pymatviz.utils.plotting: a shallow embedding and its specification

    The module under study is [pymatviz/utils/plotting.py]: the adapter
    layer that lets one logical operation (annotate, read the axis range,
    pick a contrast colour, prettify a label) work on matplotlib and on
    plotly figures.

    Python values are embedded as the inductive [pyval]; Python floats are
    IEEE binary64 numbers, here the kernel's primitive [float]; exceptions
    are an explicit [result]; figure objects live in a store ([World]) and
    are passed around by reference, since the code mutates them in place.
    What matplotlib, plotly and the builtins decide (which colours and
    keywords they accept, what a rendering gives, when a power
    overflows) is a parameter of the functions that call them. *)

From Stdlib Require Import ZArith List Ascii String Floats Bool Lia.
From stdpp Require Import base option list gmap strings fin_maps.
Import ListNotations.

Set Warnings "-inexact-float,-register-all".

Local Open Scope string_scope.
Local Open Scope Z_scope.

(** ** Exceptions and results *)

Inductive exn : Type :=
  | TypeError
  | ValueError
  | ValueErrorSubclass (name : string)  (* an exception of a class derived from
                                           ValueError, UnicodeDecodeError say *)
  | IndexError
  | KeyError
  | OverflowError
  | StaleHandle                 (* a reference that is not in the store *)
  | HostError (name : string).  (* any other exception, by the name of its
                                   class; none of these derives from
                                   ValueError *)

Inductive result (A : Type) : Type :=
  | Ok (a : A)
  | Raise (e : exn).
Arguments Ok {A} a.
Arguments Raise {A} e.

(** What [except ValueError] catches: the class and the classes derived
    from it. *)
Definition is_ValueError (e : exn) : bool :=
  match e with ValueError | ValueErrorSubclass _ => true | _ => false end.

(** ** Python values *)

Definition ref := nat.

Inductive pyval : Type :=
  | VNone
  | VBool (b : bool)
  | VInt (z : Z)
  | VFloat (f : float)
  | VStr (s : string)
  | VList (l : list pyval)
  | VTuple (l : list pyval)
  | VDict (d : list (string * pyval))
  | VAxes (r : ref)        (* a matplotlib Axes object *)
  | VFigure (r : ref)      (* a matplotlib Figure object *)
  | VGoFigure (r : ref)    (* a plotly graph_objects Figure *)
  | VFigureWidget (r : ref) (* a plotly FigureWidget: not an instance of
                               go.Figure, yet with the same data, layout
                               and methods *)
  | VObject (tyname : string). (* an object of any other class, one that has
                                  none of the attributes of a figure *)

(** [isinstance(v, str)] *)
Definition isinstance_str (v : pyval) : bool :=
  match v with VStr _ => true | _ => false end.

(** [isinstance(v, plt.Axes)] *)
Definition isinstance_Axes (v : pyval) : bool :=
  match v with VAxes _ => true | _ => false end.

(** [isinstance(v, plt.Figure | plt.Axes)] *)
Definition isinstance_mpl (v : pyval) : bool :=
  match v with VAxes _ | VFigure _ => true | _ => false end.

(** [isinstance(v, go.Figure)] *)
Definition isinstance_go (v : pyval) : bool :=
  match v with VGoFigure _ => true | _ => false end.

Definition is_None (v : pyval) : bool :=
  match v with VNone => true | _ => false end.

(** Truth value of a Python object, as [not v] and [if v] test it. *)
Definition truthy (v : pyval) : bool :=
  match v with
  | VNone => false
  | VBool b => b
  | VInt z => negb (z =? 0)
  | VFloat f => negb (PrimFloat.eqb f 0%float)
  | VStr s => negb (String.eqb s "")
  | VList l | VTuple l => negb (Nat.eqb (length l) 0)
  | VDict d => negb (Nat.eqb (length d) 0)
  | VAxes _ | VFigure _ | VGoFigure _ | VFigureWidget _ | VObject _ => true
  end.

(** Indexing a sequence with a Python integer: negative indices count from
    the end, anything out of range is an [IndexError]. *)
Definition py_index {A} (l : list A) (i : Z) : result A :=
  let n := Z.of_nat (length l) in
  let j := if i <? 0 then i + n else i in
  if (j <? 0) || (n <=? j) then Raise IndexError
  else match nth_error l (Z.to_nat j) with
       | Some x => Ok x
       | None => Raise IndexError
       end.

(** [v[idx]] for the values of the model. *)
Definition py_getitem (v : pyval) (idx : Z) : result pyval :=
  match v with
  | VList l | VTuple l => py_index l idx
  | VStr s =>
      match py_index (list_ascii_of_string s) idx with
      | Ok c => Ok (VStr (String c EmptyString))
      | Raise e => Raise e
      end
  | VDict _ => Raise KeyError
  | _ => Raise TypeError
  end.

(** ** Strings: the builtins the module calls *)

Definition mem_ascii (c : ascii) (cs : list ascii) : bool :=
  existsb (Ascii.eqb c) cs.

Fixpoint lstrip_chars (cs : list ascii) (l : list ascii) : list ascii :=
  match l with
  | [] => []
  | c :: l' => if mem_ascii c cs then lstrip_chars cs l' else l
  end.

Definition strip_chars (cs l : list ascii) : list ascii :=
  rev (lstrip_chars cs (rev (lstrip_chars cs l))).

(** [s.strip(chars)]: drops from both ends every character that occurs in
    [chars]. *)
Definition py_strip (chars s : string) : string :=
  string_of_list_ascii
    (strip_chars (list_ascii_of_string chars) (list_ascii_of_string s)).

(** [s.split(sep)] for a one-character separator; the pieces are returned
    as character lists by [split_on]. *)
Fixpoint split_on (sep : ascii) (l : list ascii) : list (list ascii) :=
  match l with
  | [] => [[]]
  | c :: l' =>
      if Ascii.eqb c sep then [] :: split_on sep l'
      else match split_on sep l' with
           | p :: ps => (c :: p) :: ps
           | [] => [[c]]
           end
  end.

Definition py_split (sep : ascii) (s : string) : list string :=
  map string_of_list_ascii (split_on sep (list_ascii_of_string s)).

(** [s.startswith(p)] *)
Definition py_startswith (p s : string) : bool := String.prefix p s.

(** [sep.join(pieces)] *)
Fixpoint py_join (sep : string) (ps : list string) : string :=
  match ps with
  | [] => ""
  | [p] => p
  | p :: ps' => p ++ sep ++ py_join sep ps'
  end.

(** ** Decimal literals to binary64

    A reference implementation of [float(str)] on plain decimal literals
    (surrounding blanks, a sign, digits, a fraction, an exponent), rounding
    to nearest-even as CPython does.  The functions of the module take the
    builtin as a parameter; this implementation instantiates it wherever a
    concrete value is computed. *)

Definition digit_of_ascii (c : ascii) : option Z :=
  let n := Z.of_nat (nat_of_ascii c) in
  if (48 <=? n) && (n <=? 57) then Some (n - 48) else None.

(** Reads a run of digits: the number read so far, how many digits were
    consumed, and the rest of the input. *)
Fixpoint read_digits (acc : Z) (cnt : Z) (l : list ascii) : Z * Z * list ascii :=
  match l with
  | [] => (acc, cnt, [])
  | c :: l' =>
      match digit_of_ascii c with
      | Some d => read_digits (10 * acc + d) (cnt + 1) l'
      | None => (acc, cnt, l)
      end
  end.

Definition read_sign (l : list ascii) : bool * list ascii :=
  match l with
  | "-"%char :: l' => (true, l')
  | "+"%char :: l' => (false, l')
  | _ => (false, l)
  end.

(** The float nearest to [m * 10^e10], for [m >= 0]. *)
Definition round_decimal (m e10 : Z) : float :=
  if m =? 0 then 0%float
  else if 0 <=? e10 then
    SF2Prim (binary_normalize prec emax (m * 10 ^ e10) 0 false)
  else
    let d := 10 ^ (- e10) in
    let s := Z.log2_up d + 70 in
    let q := (m * 2 ^ s) / d in
    let sticky := if (m * 2 ^ s) mod d =? 0 then 0 else 1 in
    SF2Prim (binary_normalize prec emax (2 * q + sticky) (- s - 1) false).

Definition parse_decimal (l : list ascii) : option float :=
  let '(neg, l1) := read_sign l in
  let '(ip, ni, l2) := read_digits 0 0 l1 in
  let '(m, nf, l3) :=
    match l2 with
    | "."%char :: l2' => read_digits ip 0 l2'
    | _ => (ip, 0, l2)
    end in
  if ni + nf =? 0 then None
  else
    let finish (e : Z) :=
      let f := round_decimal m (e - nf) in
      Some (if neg then PrimFloat.opp f else f) in
    match l3 with
    | [] => finish 0
    | c :: l4 =>
        if (Ascii.eqb c "e") || (Ascii.eqb c "E") then
          let '(eneg, l5) := read_sign l4 in
          match read_digits 0 0 l5 with
          | (ev, ne, []) =>
              if ne =? 0 then None else finish (if eneg then - ev else ev)
          | _ => None
          end
        else None
    end.

Definition float_of_decimal_string (s : string) : option float :=
  let blanks := [" "%char; "009"%char; "010"%char; "011"%char; "012"%char; "013"%char] in
  parse_decimal (strip_chars blanks (list_ascii_of_string s)).

(** ** Colours: [luminance] and [pick_max_contrast_color] *)

Section Colors.

(** The builtin [float] applied to a string; [None] stands for the
    [ValueError] it raises on text that is not a number. *)
Variable py_float : string -> option float.

(** [matplotlib.colors.to_rgba]: resolves a colour name, a hex string or
    a tuple to RGBA floats, or raises (a [ValueError] on invalid input). *)
Variable to_rgba : pyval -> result (float * float * float * float).

(** [isinstance(color, str) and color.startswith("rgb(")] *)
Definition is_rgb_string (color : pyval) : bool :=
  match color with
  | VStr s => py_startswith "rgb(" s
  | _ => false
  end.

(** The channels [r, g, b] the function binds before it applies the
    formula: lines 212 to 218 of the module. *)
Definition luminance_channels (color : pyval) : result (float * float * float) :=
  match color with
  | VStr s =>
      if py_startswith "rgb(" s then
        match mapM py_float (py_split "," (py_strip "rgb()" s)) with
        | Some (r :: g :: b :: _a) =>
            if (1 <? r)%float || (1 <? g)%float || (1 <? b)%float
            then Ok ((r / 255)%float, (g / 255)%float, (b / 255)%float)
            else Ok (r, g, b)
        | _ => Raise ValueError
        end
      else
        match to_rgba color with
        | Ok (r, g, b, _a) => Ok (r, g, b)
        | Raise e => Raise e
        end
  | _ =>
      match to_rgba color with
      | Ok (r, g, b, _a) => Ok (r, g, b)
      | Raise e => Raise e
      end
  end.

Definition luminance (color : pyval) : result float :=
  match luminance_channels color with
  | Ok (r, g, b) => Ok (0.2126 * r + 0.7152 * g + 0.0722 * b)%float
  | Raise e => Raise e
  end.

(** The defaults of the two optional parameters. *)
Definition default_luminance_threshold : float := 0.3%float.
Definition default_colors : pyval * pyval := (VStr "white", VStr "black").

(** [pick_max_contrast_color(bg_color, luminance_threshold, colors)];
    an optional parameter left out is [None] here. *)
Definition pick_max_contrast_color (bg_color : pyval)
    (luminance_threshold : option float) (colors : option (pyval * pyval))
    : result pyval :=
  let luminance_threshold := default default_luminance_threshold luminance_threshold in
  let colors := default default_colors colors in
  match luminance bg_color with
  | Ok bg_luminance =>
      Ok (if (luminance_threshold <? bg_luminance)%float
          then snd colors else fst colors)
  | Raise e => Raise e
  end.

End Colors.

(** A fragment of matplotlib's colour resolution, enough to run the
    functions above on concrete colours: RGB and RGBA tuples of floats
    in [0, 1] and the two names the module itself uses. *)
Definition in_unit (f : float) : bool := (0 <=? f)%float && (f <=? 1)%float.

Definition as_float (v : pyval) : option float :=
  match v with
  | VFloat f => Some f
  | VInt z => Some (SF2Prim (binary_normalize prec emax z 0 false))
  | _ => None
  end.

Definition to_rgba_basic (c : pyval) : result (float * float * float * float) :=
  match c with
  | VStr "white" => Ok (1, 1, 1, 1)%float
  | VStr "black" => Ok (0, 0, 0, 1)%float
  | VTuple l =>
      match mapM as_float l with
      | Some [r; g; b] =>
          if in_unit r && in_unit g && in_unit b then Ok (r, g, b, 1%float)
          else Raise ValueError
      | Some [r; g; b; a] =>
          if in_unit r && in_unit g && in_unit b && in_unit a then Ok (r, g, b, a)
          else Raise ValueError
      | _ => Raise ValueError
      end
  | _ => Raise ValueError
  end.

(** ** Labels: [pretty_label] *)

Section Labels.

(** Modelled from the spec: the constants [MATPLOTLIB], [PLOTLY] and
    [BACKENDS] come from [pymatviz.typing], which is not among the
    sources; the spec speaks of two supported backend variants, so the
    two identifiers are parameters and [BACKENDS] lists exactly them. *)
Variables MATPLOTLIB PLOTLY : string.

Definition BACKENDS : list string := [MATPLOTLIB; PLOTLY].

(** [backend in BACKENDS] *)
Definition in_BACKENDS (backend : pyval) : bool :=
  match backend with
  | VStr b => existsb (String.eqb b) BACKENDS
  | _ => false
  end.

(** The dict literal of the function; a later key replaces an equal
    earlier one, as in Python. *)
Definition symbol_mapping : gmap string (gmap string string) :=
  <["R2_adj" := <[PLOTLY := "R<sup>2</sup><sub>adj</sub>"]>
                  (<[MATPLOTLIB := "$R^2_{adj}$"]> ∅)]>
    (<["R2" := <[PLOTLY := "R<sup>2</sup>"]> (<[MATPLOTLIB := "$R^2$"]> ∅)]> ∅).

Definition pretty_label (key : string) (backend : pyval) : result string :=
  if negb (in_BACKENDS backend) then Raise ValueError
  else
    match backend with
    | VStr b => Ok (default key (default ∅ (symbol_mapping !! key) !! b))
    | _ => Ok key
    end.

End Labels.

(** ** Figure objects and the store *)

(** Python [dict]s with string keys, as keyword arguments are. *)
Abbreviation pydict := (gmap string pyval).

(** [a | b] on dicts: the entries of [b] win. *)
Definition dict_or (a b : pydict) : pydict := b ∪ a.

(** An attribute that the class of a host object may lack. *)
Inductive attr (A : Type) : Type :=
  | Missing
  | Attr (v : A).
Arguments Missing {A}.
Arguments Attr {A} v.

(** [obj.name]: an [AttributeError] when the attribute is missing. *)
Definition read_attr {A} (a : attr A) : result A :=
  match a with
  | Attr v => Ok v
  | Missing => Raise (HostError "AttributeError")
  end.

(** [getattr(obj, "name", None)] *)
Definition getattr_or_None {A} (a : attr (option A)) : option A :=
  match a with
  | Attr v => v
  | Missing => None
  end.

(** A matplotlib text box: the text and the keywords it was built from. *)
Definition Artist : Type := pyval * pydict.

(** A matplotlib Axes: its view limits, the colours of its text elements
    and the artists added to it. *)
Record Axes := mkAxes {
  ax_xlim : float * float;
  ax_ylim : float * float;
  ax_xlabel_color : string;
  ax_ylabel_color : string;
  ax_title_color : string;
  ax_xticklabel_colors : list string;
  ax_artists : list Artist
}.

(** A matplotlib Figure: its current axes, if it has any. *)
Record Figure := mkFigure { fig_current_axes : option ref }.

(** plotly: fonts, templates, layout, traces and figures.  A field that
    is unset (or falsy) is [None]. *)
Record Font := mkFont { font_color : option string }.
Record TemplateLayout := mkTemplateLayout { tl_font : option Font }.
Record Template := mkTemplate { tpl_layout : option TemplateLayout }.

Record Layout := mkLayout {
  lay_font : option Font;
  lay_template : option Template;
  lay_xaxis_type : option string;
  lay_yaxis_type : option string;
  lay_annotations : list pydict
}.

(** A trace.  Scatter and bar traces have the three attributes; a pie
    trace has none of them, a 3D scatter trace has [x] and [y] and no
    [xaxis].  An attribute that is there but left unset is [None]; [x]
    and [y] hold floats, and an entry that is missing is [None]. *)
Record Trace := mkTrace {
  tr_xaxis : attr (option string);
  tr_x : attr (option (list (option float)));
  tr_y : attr (option (list (option float)))
}.

(** A plotly figure; a FigureWidget is made of the same. *)
Record GoFigure := mkGoFigure {
  go_data : list Trace;
  go_layout : Layout
}.

(** [pio.templates.default]: [None], the name of a registered template
    (or several names joined by "+"), or a template object. *)
Inductive TemplateDefault : Type :=
  | NoDefault
  | DefaultByName (name : string)
  | DefaultObject (t : Template).

(** The objects in memory and the process-wide settings of the two
    plotting libraries. *)
Record World := mkWorld {
  w_axes : gmap ref Axes;
  w_figs : gmap ref Figure;
  w_gofigs : gmap ref GoFigure;      (* plotly figures and figure widgets *)
  w_gcf : option ref;                (* pyplot's current figure *)
  w_new_axes : Axes;                 (* the Axes a figure makes when it has none *)
  w_rc_text_color : option string;   (* [plt.rcParams.get("text.color")] *)
  w_default_template : TemplateDefault;      (* [pio.templates.default] *)
  w_templates : string -> option Template    (* [pio.templates[name]];
                                                [None] is its [KeyError] *)
}.

Definition set_axes (w : World) (m : gmap ref Axes) : World :=
  mkWorld m (w_figs w) (w_gofigs w) (w_gcf w) (w_new_axes w)
          (w_rc_text_color w) (w_default_template w) (w_templates w).

Definition set_figs (w : World) (m : gmap ref Figure) : World :=
  mkWorld (w_axes w) m (w_gofigs w) (w_gcf w) (w_new_axes w)
          (w_rc_text_color w) (w_default_template w) (w_templates w).

Definition set_gofigs (w : World) (m : gmap ref GoFigure) : World :=
  mkWorld (w_axes w) (w_figs w) m (w_gcf w) (w_new_axes w)
          (w_rc_text_color w) (w_default_template w) (w_templates w).

Definition set_gcf (w : World) (r : option ref) : World :=
  mkWorld (w_axes w) (w_figs w) (w_gofigs w) r (w_new_axes w)
          (w_rc_text_color w) (w_default_template w) (w_templates w).

(** ** Computations: a state and exception monad over the store *)

Definition M (A : Type) : Type := World -> result A * World.

Definition ret {A} (a : A) : M A := fun w => (Ok a, w).

Definition raise {A} (e : exn) : M A := fun w => (Raise e, w).

Definition bind {A B} (m : M A) (k : A -> M B) : M B :=
  fun w =>
    match m w with
    | (Ok a, w') => k a w'
    | (Raise e, w') => (Raise e, w')
    end.

Definition lift {A} (r : result A) : M A := fun w => (r, w).

Declare Scope py_scope.
Delimit Scope py_scope with py.
Notation "x <- m ;; k" := (bind m (fun x => k))
  (at level 100, m at next level, right associativity) : py_scope.
Notation "m ;;; k" := (bind m (fun _ => k))
  (at level 100, right associativity) : py_scope.
Local Open Scope py_scope.

(** [for idx, a in enumerate(l): body], counting from [idx]. *)
Fixpoint for_enumerate {A} (body : Z -> A -> M unit) (idx : Z) (l : list A) : M unit :=
  match l with
  | [] => ret tt
  | a :: l' => body idx a ;;; for_enumerate body (idx + 1) l'
  end.

Definition read_axes (r : ref) : M Axes :=
  fun w => match w_axes w !! r with
           | Some a => (Ok a, w)
           | None => (Raise StaleHandle, w)
           end.

Definition read_gofig (r : ref) : M GoFigure :=
  fun w => match w_gofigs w !! r with
           | Some f => (Ok f, w)
           | None => (Raise StaleHandle, w)
           end.

(** ** The host libraries' operations on the store *)

(** [fig.gca()]: the figure's current axes; a figure without axes makes
    one. *)
Definition Figure_gca (r : ref) : M ref :=
  fun w =>
    match w_figs w !! r with
    | None => (Raise StaleHandle, w)
    | Some f =>
        match fig_current_axes f with
        | Some a => (Ok a, w)
        | None =>
            let a := fresh (dom (w_axes w)) in
            (Ok a, set_figs (set_axes w (<[a := w_new_axes w]> (w_axes w)))
                            (<[r := mkFigure (Some a)]> (w_figs w)))
        end
    end.

(** [plt.gcf()]: the current figure; pyplot makes one when there is none. *)
Definition plt_gcf : M ref :=
  fun w =>
    match w_gcf w with
    | Some r => (Ok r, w)
    | None =>
        let r := fresh (dom (w_figs w)) in
        (Ok r, set_gcf (set_figs w (<[r := mkFigure None]> (w_figs w))) (Some r))
    end.

(** [plt.gca()] *)
Definition plt_gca : M ref := r <- plt_gcf ;; Figure_gca r.

(** [ax.add_artist(text_box)] *)
Definition Axes_add_artist (r : ref) (text_box : Artist) : M unit :=
  fun w =>
    match w_axes w !! r with
    | None => (Raise StaleHandle, w)
    | Some a =>
        let a' := mkAxes (ax_xlim a) (ax_ylim a) (ax_xlabel_color a)
                    (ax_ylabel_color a) (ax_title_color a)
                    (ax_xticklabel_colors a) (ax_artists a ++ [text_box]) in
        (Ok tt, set_axes w (<[r := a']> (w_axes w)))
    end.

(** What plotly does when it accepts the keywords [a] as an annotation
    of the whole figure: it appends them to [fig.layout.annotations]. *)
Definition push_annotation (f : GoFigure) (a : pydict) : GoFigure :=
  let l := go_layout f in
  mkGoFigure (go_data f)
    (mkLayout (lay_font l) (lay_template l) (lay_xaxis_type l)
       (lay_yaxis_type l) (lay_annotations l ++ [a])).

(** ** Font colour *)

(** [font and font.color]: the colour when both are set (and truthy). *)
Definition font_color_of (f : option Font) : option string :=
  match f with
  | Some ft =>
      match font_color ft with
      | Some c => if String.eqb c "" then None else Some c
      | None => None
      end
  | None => None
  end.

(** [t.layout and t.layout.font and t.layout.font.color] *)
Definition template_font_color (t : Template) : option string :=
  match tpl_layout t with
  | Some tl => font_color_of (tl_font tl)
  | None => None
  end.

(** [_get_plotly_font_color(fig)]; the other two arguments are the
    globals the function reads, [pio.templates.default] and the registry
    [pio.templates].  Line 150 reads [template.layout] without a test of
    [template] itself: with no default template that is an
    [AttributeError] on [None]. *)
Definition _get_plotly_font_color (fig : GoFigure)
    (default_template : TemplateDefault) (templates : string -> option Template)
    : result string :=
  match font_color_of (lay_font (go_layout fig)) with
  | Some c => Ok c
  | None =>
      match
        match lay_template (go_layout fig) with
        | Some t => template_font_color t
        | None => None
        end
      with
      | Some c => Ok c
      | None =>
          (* template = pio.templates.default, looked up when it is a str *)
          match
            match default_template with
            | DefaultByName name =>
                match templates name with
                | Some t => Ok (Some t)
                | None => Raise KeyError
                end
            | DefaultObject t => Ok (Some t)
            | NoDefault => Ok None
            end
          with
          | Raise e => Raise e
          | Ok None => Raise (HostError "AttributeError")
          | Ok (Some template) =>
              match template_font_color template with
              | Some c => Ok c
              | None => Ok "black"
              end
          end
      end
  end.

(** The first colour of the list that is not ["auto"]. *)
Fixpoint first_explicit_color (cs : list string) : option string :=
  match cs with
  | [] => None
  | c :: cs' => if String.eqb c "auto" then first_explicit_color cs' else Some c
  end.

Definition _get_matplotlib_font_color (fig : pyval) : M string :=
  ax <- match fig with
        | VAxes r => ret r
        | VFigure r => Figure_gca r
        | _ => raise (HostError "AttributeError")
        end ;;
  a <- read_axes ax ;;
  fun w =>
    (* Check axes text color *)
    match first_explicit_color
            [ax_xlabel_color a; ax_ylabel_color a; ax_title_color a] with
    | Some text_color => (Ok text_color, w)
    | None =>
        (* Check tick label color *)
        let tick_color := head (ax_xticklabel_colors a) in
        match tick_color with
        | Some c =>
            if negb (String.eqb c "auto") then (Ok c, w)
            else (Ok (default "black" (w_rc_text_color w)), w)
        | None => (Ok (default "black" (w_rc_text_color w)), w)
        end
    end.

Definition get_font_color (fig : pyval) : M string :=
  match fig with
  | VGoFigure r =>
      f <- read_gofig r ;;
      fun w => (_get_plotly_font_color f (w_default_template w) (w_templates w), w)
  | _ =>
      if isinstance_mpl fig then _get_matplotlib_font_color fig
      else raise TypeError
  end.

(** ** [annotate] *)

(** [getattr(trace, "xaxis", None) not in (None, "x")] *)
Definition on_secondary_xaxis (trace : Trace) : bool :=
  match getattr_or_None (tr_xaxis trace) with
  | None => false
  | Some a => negb (String.eqb a "x")
  end.

(** The test of line 79: some trace is on an x-axis other than the
    primary one. *)
Definition is_faceted (fig : GoFigure) : bool :=
  existsb on_secondary_xaxis (go_data fig).

(** [s[1:]] *)
Definition py_tail (s : string) : string :=
  match s with
  | EmptyString => EmptyString
  | String _ s' => s'
  end.

(** [trace.xaxis[1:] or ""]: reading [xaxis] off a trace that has no
    such attribute is an [AttributeError], subscripting [None] is a
    [TypeError]. *)
Definition subplot_idx_of (trace : Trace) : result string :=
  match read_attr (tr_xaxis trace) with
  | Raise e => Raise e
  | Ok None => Raise TypeError
  | Ok (Some a) => let t := py_tail a in Ok (if String.eqb t "" then "" else t)
  end.

Definition plotly_text_defaults (color : pyval) : pydict :=
  <["align" := VStr "left"]>
    (<["font" := VDict [("size", VInt 16); ("color", color)]]>
       (<["showarrow" := VBool false]>
          (<["y" := VFloat 0.96]> (<["x" := VFloat 0.02]> ∅)))).

Definition matplotlib_text_defaults (color : pyval) : pydict :=
  <["prop" := VDict [("color", color)]]>
    (<["loc" := VStr "upper left"]> (<["frameon" := VBool false]> ∅)).

(** [dict(xref=xref, yref=yref)] *)
Definition ref_dict (xref yref : string) : pydict :=
  <["yref" := VStr yref]> (<["xref" := VStr xref]> ∅).

Section Annotate.

(** The constructor [AnchoredText] of matplotlib, called with the text
    and the keywords [props]: the exception it raises, if any (an
    [AttributeError] for a keyword it does not know, a [ValueError] for
    a location it does not know). *)
Variable AnchoredText_error : pyval -> pydict -> option exn.

(** The method [fig.add_annotation] of plotly, called with the keywords
    [props]: the figure as the call leaves it, or the exception plotly
    raises (a [ValueError] for a property an annotation does not have);
    the sub-plot selectors [row] and [col] are for plotly to deal with.
    A call that raises leaves the figure as it was. *)
Variable plotly_add_annotation : GoFigure -> pydict -> result GoFigure.

(** [AnchoredText] called with [text] and the keywords [props]. *)
Definition AnchoredText (text : pyval) (props : pydict) : M Artist :=
  match AnchoredText_error text props with
  | Some e => raise e
  | None => ret (text, props)
  end.

(** [fig.add_annotation] with the keywords [props], on the figure at [r]. *)
Definition add_annotation (r : ref) (props : pydict) : M unit :=
  fun w =>
    match w_gofigs w !! r with
    | None => (Raise StaleHandle, w)
    | Some f =>
        match plotly_add_annotation f props with
        | Ok f' => (Ok tt, set_gofigs w (<[r := f']> (w_gofigs w)))
        | Raise e => (Raise e, w)
        end
    end.

(** The body of the loop over the traces of a faceted figure, lines 83
    to 96. [kwargs] is what is left of the keyword arguments once
    ["color"] is popped.  The function's own parameter names [text] and
    [fig] cannot occur in [kwargs], so the call passes [text=sub_text]
    next to the merged dict without a clash. *)
Definition annotate_trace (text : pyval) (r : ref) (text_defaults kwargs : pydict)
    (idx : Z) (trace : Trace) : M unit :=
  sub_text <- (if isinstance_str text then ret text
               else lift (py_getitem text idx)) ;;
  (* skip traces for which no annotations were provided *)
  if negb (truthy sub_text) then ret tt
  else
    subplot_idx <- lift (subplot_idx_of trace) ;;
    let xref := if negb (String.eqb subplot_idx "")
                then "x" ++ subplot_idx ++ " domain" else "x domain" in
    let yref := if negb (String.eqb subplot_idx "")
                then "y" ++ subplot_idx ++ " domain" else "y domain" in
    add_annotation r
      (<["text" := sub_text]>
         (dict_or (dict_or (ref_dict xref yref) text_defaults) kwargs)).

Definition annotate (text : pyval) (fig : pyval) (kwargs : pydict) : M pyval :=
  (* the default of [kwargs.pop] is an argument: it is computed first *)
  font_color <- get_font_color fig ;;
  let color := default (VStr font_color) (kwargs !! "color") in
  let kwargs := delete "color" kwargs in
  if isinstance_mpl fig then
    ax <- match fig with
          | VAxes r => ret r
          | _ => plt_gca
          end ;;
    let text_defaults := matplotlib_text_defaults color in
    text_box <- AnchoredText text (dict_or text_defaults kwargs) ;;
    Axes_add_artist ax text_box ;;;
    ret fig
  else
    match fig with
    | VGoFigure r =>
        let text_defaults := plotly_text_defaults color in
        f <- read_gofig r ;;
        (* Annotate all subplots or main plot if not faceted *)
        if is_faceted f then
          for_enumerate (annotate_trace text r text_defaults kwargs) 0 (go_data f) ;;;
          ret fig
        else
          if negb (isinstance_str text) then raise ValueError
          else
            add_annotation r
              (<["text" := text]>
                 (dict_or (dict_or (ref_dict "paper" "paper") text_defaults) kwargs)) ;;;
            ret fig
    | _ => raise TypeError
    end.

End Annotate.

(** ** [validate_fig] *)

(** A Python function seen from its call site: positional arguments,
    keyword arguments, and a computation. *)
Definition pyfun (R : Type) : Type := list pyval -> pydict -> M R.

(** [isinstance(fig, plt.Axes | plt.Figure | go.Figure)] *)
Definition isinstance_fig (v : pyval) : bool :=
  isinstance_mpl v || isinstance_go v.

Definition validate_fig {R} (func : pyfun R) : pyfun R :=
  fun args kwargs =>
    let fig := default VNone (kwargs !! "fig") in   (* [kwargs.get("fig")] *)
    if negb (is_None fig) && negb (isinstance_fig fig) then raise TypeError
    else func args kwargs.

(** ** [get_fig_xy_range] *)

(** A sequence of numbers together with its Python type: the function
    hands back tuples on some paths and lists on others. *)
Inductive pyseq : Type :=
  | PyTuple (l : list float)
  | PyList (l : list float).

Definition seq_items (s : pyseq) : list float :=
  match s with PyTuple l | PyList l => l end.

(** What the function reads off the figure that plotly renders:
    [dev_fig.layout.xaxis.type], [dev_fig.layout.xaxis.range] and the
    same for y.  The figure has cartesian axes: a rendered axis carries
    its range. *)
Record DevLayout := mkDevLayout {
  dev_xaxis_type : option string;
  dev_yaxis_type : option string;
  dev_xaxis_range : pyseq;
  dev_yaxis_range : pyseq
}.

(** [axis_type == "log"] *)
Definition is_log (axis_type : option string) : bool :=
  match axis_type with
  | Some t => String.eqb t "log"
  | None => false
  end.

(** A value is missing for [dropna] when it is [None] or NaN. *)
Definition is_missing (v : option float) : bool :=
  match v with
  | None => true
  | Some f => PrimFloat.is_nan f
  end.

(** [pd.DataFrame({"x": trace.x, "y": trace.y})]: the rows of the frame.
    Columns of unequal length are a [ValueError]; a column that is [None]
    is filled with missing values; two such columns are a [ValueError]. *)
Definition DataFrame_xy (x y : option (list (option float)))
    : result (list (option float * option float)) :=
  match x, y with
  | Some xs, Some ys =>
      if Nat.eqb (length xs) (length ys) then Ok (combine xs ys)
      else Raise ValueError
  | Some xs, None => Ok (map (fun v => (v, None)) xs)
  | None, Some ys => Ok (map (fun v => (None, v)) ys)
  | None, None => Raise ValueError
  end.

(** [.dropna()]: the rows without a missing value. *)
Fixpoint dropna (rows : list (option float * option float)) : list (float * float) :=
  match rows with
  | [] => []
  | (Some a, Some b) :: rows' =>
      if PrimFloat.is_nan a || PrimFloat.is_nan b then dropna rows'
      else (a, b) :: dropna rows'
  | _ :: rows' => dropna rows'
  end.

(** The builtins [min] and [max] on a sequence of floats. *)
Definition py_min (l : list float) : result float :=
  match l with
  | [] => Raise ValueError
  | a :: l' => Ok (fold_left (fun m v => if (v <? m)%float then v else m) l' a)
  end.

Definition py_max (l : list float) : result float :=
  match l with
  | [] => Raise ValueError
  | a :: l' => Ok (fold_left (fun m v => if (m <? v)%float then v else m) l' a)
  end.

(** A trace index as [fig.data[trace_idx]] needs it: an integer. *)
Definition as_index (v : pyval) : result Z :=
  match v with
  | VInt z => Ok z
  | VBool b => Ok (if b then 1 else 0)
  | _ => Raise TypeError
  end.

Section Ranges.

(** [10**val] on a float [val]: the power, or [None] for the
    [OverflowError] Python raises when the power is too large for a
    float. *)
Variable pow10 : float -> option float.

(** [fig.full_figure_for_development(warn=False)]: the rendered figure,
    or the exception plotly raises; without the kaleido package that is
    a [ValueError]. *)
Variable full_figure_for_development : GoFigure -> result DevLayout.

(** [[10**val for val in vals]], the items computed from left to right. *)
Fixpoint pow10_each (vals : list float) : result (list float) :=
  match vals with
  | [] => Ok []
  | val :: vals' =>
      match pow10 val with
      | None => Raise OverflowError
      | Some p =>
          match pow10_each vals' with
          | Ok ps => Ok (p :: ps)
          | Raise e => Raise e
          end
      end
  end.

(** Lines 313 to 323: the ranges of the rendered figure. *)
Definition rendered_ranges (dev_fig : DevLayout) : result (pyseq * pyseq) :=
  let x_axis_type := dev_xaxis_type dev_fig in
  let y_axis_type := dev_yaxis_type dev_fig in
  let x_range := dev_xaxis_range dev_fig in
  let y_range := dev_yaxis_range dev_fig in
  (* Convert log range to linear if necessary *)
  match
    if is_log x_axis_type then
      match pow10_each (seq_items x_range) with
      | Ok l => Ok (PyList l)
      | Raise e => Raise e
      end
    else Ok x_range
  with
  | Raise e => Raise e
  | Ok x_range =>
      match
        if is_log y_axis_type then
          match pow10_each (seq_items y_range) with
          | Ok l => Ok (PyList l)
          | Raise e => Raise e
          end
        else Ok y_range
      with
      | Raise e => Raise e
      | Ok y_range => Ok (x_range, y_range)
      end
  end.

(** One axis of the handler, lines 330 to 338: [min] and [max] are the
    items of a tuple, built before the powers are taken. *)
Definition data_range (axis_type : option string) (col : list float)
    : result pyseq :=
  match py_min col with
  | Raise e => Raise e
  | Ok lo =>
      match py_max col with
      | Raise e => Raise e
      | Ok hi =>
          if is_log axis_type then
            match pow10_each [lo; hi] with
            | Ok l => Ok (PyList l)
            | Raise e => Raise e
            end
          else Ok (PyList [lo; hi])
      end
  end.

(** The [except ValueError] handler, lines 326 to 338. *)
Definition manual_ranges (fig : GoFigure) (trace_idx : pyval)
    : result (pyseq * pyseq) :=
  match as_index trace_idx with
  | Raise e => Raise e
  | Ok i =>
      match py_index (go_data fig) i with
      | Raise e => Raise e
      | Ok trace =>
          match read_attr (tr_x trace) with
          | Raise e => Raise e
          | Ok x =>
              match read_attr (tr_y trace) with
              | Raise e => Raise e
              | Ok y =>
                  match DataFrame_xy x y with
                  | Raise e => Raise e
                  | Ok rows =>
                      let df_xy := dropna rows in
                      match data_range (lay_xaxis_type (go_layout fig))
                              (map fst df_xy) with
                      | Raise e => Raise e
                      | Ok x_range =>
                          match data_range (lay_yaxis_type (go_layout fig))
                                  (map snd df_xy) with
                          | Raise e => Raise e
                          | Ok y_range => Ok (x_range, y_range)
                          end
                      end
                  end
              end
          end
      end
  end.

(** Lines 310 to 338: the [try] block, whose [ValueError]s (of the
    rendering or of what follows it) the handler takes over. *)
Definition try_rendered_ranges (fig : GoFigure) (trace_idx : pyval)
    : result (pyseq * pyseq) :=
  match
    match full_figure_for_development fig with
    | Ok dev_fig => rendered_ranges dev_fig
    | Raise e => Raise e
    end
  with
  | Ok ranges => Ok ranges
  | Raise e => if is_ValueError e then manual_ranges fig trace_idx else Raise e
  end.

(** The function as written, once its two parameters are bound.  The
    body tests for matplotlib only: whatever else it is given it treats
    as a plotly figure, so a figure widget is read like a figure, and a
    value without the attributes of one fails with an
    [AttributeError]. *)
Definition get_fig_xy_range_body (fig : pyval) (trace_idx : pyval)
    : M (pyseq * pyseq) :=
  fig <- (if is_None fig then r <- plt_gcf ;; ret (VFigure r) else ret fig) ;;
  if isinstance_mpl fig then
    (* handle matplotlib *)
    ax <- match fig with
          | VAxes r => ret r
          | VFigure r => Figure_gca r
          | _ => raise (HostError "AttributeError")
          end ;;
    a <- read_axes ax ;;
    ret (PyTuple [fst (ax_xlim a); snd (ax_xlim a)],
         PyTuple [fst (ax_ylim a); snd (ax_ylim a)])
  else
    match fig with
    | VGoFigure r | VFigureWidget r =>
        f <- read_gofig r ;;
        lift (try_rendered_ranges f trace_idx)
    | _ => raise (HostError "AttributeError")
    end.

(** Python's binding of a call's arguments to the parameters
    [(fig, trace_idx=0)]: too many positional arguments, a parameter
    given twice, an unknown keyword or no [fig] at all are [TypeError]s. *)
Definition bind_fig_trace_idx (args : list pyval) (kwargs : pydict)
    : result (pyval * pyval) :=
  let unknown := delete "trace_idx" (delete "fig" kwargs) in
  if negb (bool_decide (unknown = ∅)) then Raise TypeError
  else
    match args, kwargs !! "fig", kwargs !! "trace_idx" with
    | [], Some fig, Some idx => Ok (fig, idx)
    | [], Some fig, None => Ok (fig, VInt 0)
    | [fig], None, Some idx => Ok (fig, idx)
    | [fig], None, None => Ok (fig, VInt 0)
    | [fig; idx], None, None => Ok (fig, idx)
    | _, _, _ => Raise TypeError
    end.

(** [get_fig_xy_range] as the module exports it: the decorated
    function. *)
Definition get_fig_xy_range : pyfun (pyseq * pyseq) :=
  validate_fig (fun args kwargs =>
    p <- lift (bind_fig_trace_idx args kwargs) ;;
    get_fig_xy_range_body (fst p) (snd p)).

End Ranges.

(** ** Concrete figures and stores

    The inputs on which the functions are run in the examples below. *)

(** The pieces that carry no comma. *)
Definition comma_free (s : string) : bool :=
  forallb (fun c => negb (Ascii.eqb c ",")) (list_ascii_of_string s).

(** An Axes with the limits [(0, 10)] and [(0, 5)]. *)
Definition axes_0_10 : Axes :=
  mkAxes (0, 10)%float (0, 5)%float "black" "black" "auto" [] [].

(** The Axes matplotlib makes by default: both limits [(0, 1)]. *)
Definition axes_fresh : Axes :=
  mkAxes (0, 1)%float (0, 1)%float "black" "black" "auto" [] [].

Definition layout_plain : Layout := mkLayout None None None None [].

(** A scatter trace: [go.Scatter(x=..., y=..., xaxis=...)]. *)
Definition Scatter (xaxis : option string) (x y : option (list (option float)))
    : Trace :=
  mkTrace (Attr xaxis) (Attr x) (Attr y).

(** A pie trace: it has no [xaxis], no [x] and no [y]. *)
Definition Pie : Trace := mkTrace Missing Missing Missing.

(** One scatter trace on the primary axes, [x = [0, 10]], [y = [0, 5]]:
    [go.Figure(go.Scatter(x=[0, 10], y=[0, 5]))]. *)
Definition trace_0_10 : Trace :=
  Scatter None (Some [Some 0; Some 10]%float) (Some [Some 0; Some 5]%float).

Definition fig_single : GoFigure := mkGoFigure [trace_0_10] layout_plain.

(** Two sub-plots built with plotly's low-level interface: the first
    trace leaves [xaxis] unset, the second one is put on ["x2"]:
    [go.Figure([go.Scatter(x=[0, 10], y=[0, 5]),
                go.Scatter(x=[1, 2], y=[3, 4], xaxis="x2", yaxis="y2")])]. *)
Definition fig_low_level : GoFigure :=
  mkGoFigure
    [trace_0_10;
     Scatter (Some "x2") (Some [Some 1; Some 2]%float) (Some [Some 3; Some 4]%float)]
    layout_plain.

(** Two sub-plots as [make_subplots] lays them out: every trace names
    its axis. *)
Definition fig_subplots : GoFigure :=
  mkGoFigure
    [Scatter (Some "x") (Some [Some 0; Some 10]%float) (Some [Some 0; Some 5]%float);
     Scatter (Some "x2") (Some [Some 1; Some 2]%float) (Some [Some 3; Some 4]%float)]
    layout_plain.

(** A trace with gaps, on a logarithmic x-axis: the second row lacks
    its x value and the third has a NaN for y, so the rows (1, 2) and
    (2, 0) are the ones [dropna] keeps. *)
Definition fig_log : GoFigure :=
  mkGoFigure
    [Scatter None (Some [Some 1; None; Some 3; Some 2]%float)
                  (Some [Some 2; Some 5; Some nan; Some 0]%float)]
    (mkLayout None None (Some "log") None []).

Definition font_of (c : string) : option Font := Some (mkFont (Some c)).

Definition template_of (c : string) : Template :=
  mkTemplate (Some (mkTemplateLayout (font_of c))).

(** The registry of templates as plotly ships it, as far as it matters
    here: the template "plotly" asks for the font colour "#2a3f5f"; a
    name that is not registered is a [KeyError]. *)
Definition templates_stock (name : string) : option Template :=
  if String.eqb name "plotly" then Some (template_of "#2a3f5f") else None.

(** A store with no figure at all. *)
Definition world_empty : World :=
  mkWorld ∅ ∅ ∅ None axes_fresh None (DefaultByName "plotly") templates_stock.

(** A store with one matplotlib figure (reference 0, the current one)
    whose axes (reference 0) have the limits above. *)
Definition world_mpl : World :=
  mkWorld {[ 0%nat := axes_0_10 ]} {[ 0%nat := mkFigure (Some 0%nat) ]} ∅
          (Some 0%nat) axes_fresh None (DefaultByName "plotly") templates_stock.

(** A pie chart next to a scatter trace on a second pair of axes. *)
Definition fig_pie : GoFigure :=
  mkGoFigure
    [Pie;
     Scatter (Some "x2") (Some [Some 1; Some 2]%float) (Some [Some 3; Some 4]%float)]
    layout_plain.

(** Five plotly figures, at the references 0 to 4. *)
Definition plotly_figures : gmap ref GoFigure :=
  <[4%nat := fig_pie]>
    (<[3%nat := fig_log]>
       (<[2%nat := fig_subplots]>
          (<[1%nat := fig_low_level]> (<[0%nat := fig_single]> ∅)))).

(** A store with these figures and plotly's settings as they come. *)
Definition world_plotly : World :=
  mkWorld ∅ ∅ plotly_figures None axes_fresh None
          (DefaultByName "plotly") templates_stock.

(** The same store after [pio.templates.default = None]. *)
Definition world_no_default : World :=
  mkWorld ∅ ∅ plotly_figures None axes_fresh None NoDefault templates_stock.

(** Hosts for [full_figure_for_development]: one without kaleido, one
    that renders with the padded ranges autorange gives a scatter trace. *)
Definition host_no_kaleido (f : GoFigure) : result DevLayout := Raise ValueError.

Definition host_padded (f : GoFigure) : result DevLayout :=
  Ok (mkDevLayout (Some "linear") (Some "linear")
        (PyTuple [-0.6; 10.6]%float) (PyTuple [-0.4; 5.4]%float)).

(** The keyword [k] is one of [names]. *)
Definition known_keyword (names : list string) (k : string) : bool :=
  existsb (String.eqb k) names.

(** A stand-in for matplotlib's check of the keywords of [AnchoredText]:
    the parameters of the constructor and a few artist properties pass,
    any other keyword is an [AttributeError]. *)
Definition AnchoredText_basic (text : pyval) (props : pydict) : option exn :=
  if forallb (known_keyword ["loc"; "pad"; "borderpad"; "prop"; "frameon";
                             "bbox_to_anchor"; "bbox_transform"; "alpha";
                             "visible"; "zorder"])
             (map fst (map_to_list props))
  then None else Some (HostError "AttributeError").

(** A stand-in for plotly's [add_annotation]: keywords that are all
    properties of an annotation are appended to the annotations of the
    figure, anything else (the sub-plot selectors [row] and [col]
    included, which need a grid of sub-plots) is a [ValueError]. *)
Definition add_annotation_basic (f : GoFigure) (props : pydict) : result GoFigure :=
  if forallb (known_keyword ["align"; "arrowcolor"; "arrowhead"; "ax"; "ay";
                             "bgcolor"; "bordercolor"; "font"; "opacity";
                             "showarrow"; "text"; "textangle"; "x"; "xanchor";
                             "xref"; "y"; "yanchor"; "yref"])
             (map fst (map_to_list props))
  then Ok (push_annotation f props) else Raise ValueError.

(** plotly takes the keywords [props] for an annotation of the figure
    as a whole, whatever the figure: it appends them to its
    annotations. *)
Definition appends_annotation
    (plotly_add_annotation : GoFigure -> pydict -> result GoFigure)
    (props : pydict) : Prop :=
  forall f, plotly_add_annotation f props = Ok (push_annotation f props).

(** The annotation the loop over the traces attaches for a trace on the
    axis [xaxis] and the text [sub_text]: the reference axes carry the
    suffix of [xaxis] after its first character. *)
Definition facet_annotation (text_defaults kwargs : pydict) (xaxis : string)
    (sub_text : pyval) : pydict :=
  <["text" := sub_text]>
    (dict_or
       (dict_or (ref_dict ("x" ++ py_tail xaxis ++ " domain")
                          ("y" ++ py_tail xaxis ++ " domain"))
                text_defaults)
       kwargs).

(** One annotation per trace whose text is not empty, in trace order. *)
Definition facet_annotations (text_defaults kwargs : pydict)
    (axes : list string) (sub_texts : list pyval) : list pydict :=
  map (fun p => facet_annotation text_defaults kwargs (fst p) (snd p))
      (List.filter (fun p => truthy (snd p)) (combine axes sub_texts)).

(** The annotation of a figure that is not faceted. *)
Definition paper_annotation (text_defaults kwargs : pydict) (text : pyval) : pydict :=
  <["text" := text]>
    (dict_or (dict_or (ref_dict "paper" "paper") text_defaults) kwargs).

(** The colour [annotate] writes into an annotation or a text box: the
    caller's, or else the font colour of the figure. *)
Definition annotation_color (font_color : string) (kwargs : pydict) : pyval :=
  default (VStr font_color) (kwargs !! "color").

(** The font colour of the plotly figure [f] in the store [w], or the
    exception its lookup ends in. *)
Definition plotly_font_color (f : GoFigure) (w : World) : result string :=
  _get_plotly_font_color f (w_default_template w) (w_templates w).

(** The colour the figure itself asks for, in its font or else in its
    template. *)
Definition own_font_color (f : GoFigure) : option string :=
  match font_color_of (lay_font (go_layout f)) with
  | Some c => Some c
  | None =>
      match lay_template (go_layout f) with
      | Some t => template_font_color t
      | None => None
      end
  end.

(** The text and the reference axes of the annotations of a figure in
    the store, in the order they were attached. *)
Definition annotation_refs (w : World) (r : ref)
    : list (option pyval * option pyval * option pyval) :=
  match w_gofigs w !! r with
  | Some f =>
      map (fun a : pydict => (a !! "text", a !! "xref", a !! "yref"))
          (lay_annotations (go_layout f))
  | None => []
  end.



(** The first trace of [f] holds complete data (no missing value)
    that spans [xlo, xhi] on x and [ylo, yhi] on y. *)
Definition plots_span (f : GoFigure) (xlo xhi ylo yhi : float) : Prop :=
  exists trace xs ys,
    py_index (go_data f) 0 = Ok trace
    /\ tr_x trace = Attr (Some (map Some xs))
    /\ tr_y trace = Attr (Some (map Some ys))
    /\ length xs = length ys
    /\ forallb (fun v => negb (PrimFloat.is_nan v)) (xs ++ ys) = true
    /\ py_min xs = Ok xlo /\ py_max xs = Ok xhi
    /\ py_min ys = Ok ylo /\ py_max ys = Ok yhi.

(** Both axes of [f] are on a linear scale. *)
Definition linear_axes (f : GoFigure) : bool :=
  negb (is_log (lay_xaxis_type (go_layout f)))
  && negb (is_log (lay_yaxis_type (go_layout f))).

(** The range of an axis as the function hands it back: untouched on a
    linear axis; on a logarithmic one the list of the powers of ten of
    its items, or the [OverflowError] of a power that is too large. *)
Definition to_linear (pow10 : float -> option float) (axis_type : option string)
    (range : pyseq) : result pyseq :=
  if is_log axis_type then
    match mapM pow10 (seq_items range) with
    | Some l => Ok (PyList l)
    | None => Raise OverflowError
    end
  else Ok range.

(** The pair of two results, the first failure winning. *)
Definition both {A B} (a : result A) (b : result B) : result (A * B) :=
  match a, b with
  | Ok x, Ok y => Ok (x, y)
  | Raise e, _ => Raise e
  | Ok _, Raise e => Raise e
  end.

(** A Python function with a variadic signature: it takes whatever it
    is given and returns how many arguments that was. *)
Definition accepts_anything : pyfun nat :=
  fun args kwargs => ret (length args + size kwargs)%nat.





(** The whole number a float stands for, if it does. *)
Definition whole_of_float (v : float) : option Z :=
  match Prim2SF v with
  | S754_zero _ => Some 0
  | S754_finite s m e =>
      let z := if 0 <=? e then Some (Z.pos m * 2 ^ e)
               else if (Z.pos m) mod (2 ^ (- e)) =? 0
                    then Some (Z.pos m / 2 ^ (- e)) else None in
      match z with
      | Some n => Some (if s then - n else n)
      | None => None
      end
  | _ => None
  end.

(** A stand-in for [10**val] on whole exponents: the float nearest to
    the power, and the [OverflowError] from the 309th power on.  Other
    exponents are outside the stand-in, which answers NaN for them. *)
Definition pow10_small (v : float) : option float :=
  match whole_of_float v with
  | Some k =>
      if 308 <? k then None
      else if k <? -400 then Some 0%float
      else Some (round_decimal 1 k)
  | None => Some nan
  end.

(** ** More figures and stores *)

(** A plotly figure without traces whose own font colour is the empty
    string and whose template asks for white text. *)
Definition fig_dark : GoFigure :=
  mkGoFigure [] (mkLayout (font_of "") (Some (template_of "white")) None None []).

(** A store whose default template is a template object that asks for
    navy text, with [fig_dark] at reference 0 and the plain single-trace
    figure at reference 1. *)
Definition world_styled : World :=
  mkWorld ∅ ∅ (<[1%nat := fig_single]> (<[0%nat := fig_dark]> ∅))
          None axes_fresh None (DefaultObject (template_of "navy")) templates_stock.

(** The same figures when the default template is a name that is no
    longer registered. *)
Definition world_unregistered : World :=
  mkWorld ∅ ∅ (<[1%nat := fig_single]> (<[0%nat := fig_dark]> ∅))
          None axes_fresh None (DefaultByName "gone") templates_stock.

(** Axes whose labels and title leave their colour to the style, with a
    red second tick label; and axes with a red title. *)
Definition axes_auto : Axes :=
  mkAxes (0, 1)%float (0, 1)%float "auto" "auto" "auto" ["auto"; "red"] [].

Definition axes_red_title : Axes :=
  mkAxes (0, 1)%float (0, 1)%float "auto" "auto" "red" [] [].

(** Three matplotlib figures: figure 0 on the axes 0, figure 1 (pyplot's
    current figure) on the axes 1, and figure 2 without axes; the axes 2
    belong to no figure. *)
Definition world_figures : World :=
  mkWorld (<[2%nat := axes_auto]>
             (<[1%nat := axes_red_title]> (<[0%nat := axes_0_10]> ∅)))
          (<[2%nat := mkFigure None]>
             (<[1%nat := mkFigure (Some 1%nat)]>
                (<[0%nat := mkFigure (Some 0%nat)]> ∅)))
          ∅ (Some 1%nat) axes_fresh (Some "grey")
          (DefaultByName "plotly") templates_stock.

(** A scatter trace built from y values alone, then a trace whose x and
    y differ in length, then one whose every row lacks a value, then a
    pie trace; and a store with the figure of the four, at reference 0,
    and the figure without traces, at reference 1. *)
Definition fig_ragged : GoFigure :=
  mkGoFigure
    [Scatter None None (Some [Some 1; Some 2; Some 3]%float);
     Scatter None (Some [Some 1; Some 2]%float) (Some [Some 1]%float);
     Scatter None (Some [Some 1; None]%float) (Some [None; Some nan]%float);
     Pie]
    layout_plain.

Definition world_ragged : World :=
  mkWorld ∅ ∅ (<[1%nat := fig_dark]> (<[0%nat := fig_ragged]> ∅))
          None axes_fresh None (DefaultByName "plotly") templates_stock.

(** * Properties *)

(** ** The string builtins *)

Lemma list_ascii_of_string_app (a b : string) :
  list_ascii_of_string (a ++ b) =
  (list_ascii_of_string a ++ list_ascii_of_string b)%list.
Proof.
  induction a as [|c a IH]; simpl; [reflexivity|].
  now rewrite IH.
Qed.

Lemma lstrip_chars_all (cs l : list ascii) :
  forallb (fun c => mem_ascii c cs) l = true -> lstrip_chars cs l = [].
Proof.
  induction l as [|c l IH]; simpl; [reflexivity|].
  intros H. apply andb_prop in H as [Hc Hl]. rewrite Hc. auto.
Qed.

Lemma lstrip_chars_prefix (cs pre l : list ascii) :
  forallb (fun c => mem_ascii c cs) pre = true ->
  lstrip_chars cs (pre ++ l)%list = lstrip_chars cs l.
Proof.
  induction pre as [|c pre IH]; simpl; [reflexivity|].
  intros H. apply andb_prop in H as [Hc Hl]. rewrite Hc. auto.
Qed.

Lemma lstrip_chars_suffix (cs l post : list ascii) :
  forallb (fun c => mem_ascii c cs) post = true ->
  lstrip_chars cs (l ++ post)%list =
  match lstrip_chars cs l with
  | [] => []
  | c :: t => ((c :: t) ++ post)%list
  end.
Proof.
  intros Hpost. induction l as [|c l IH]; simpl.
  - now apply lstrip_chars_all.
  - destruct (mem_ascii c cs); [exact IH | reflexivity].
Qed.

(** Characters of the stripped set around a text do not change what is
    left of it. *)
Lemma strip_chars_wrap (cs pre l post : list ascii) :
  forallb (fun c => mem_ascii c cs) pre = true ->
  forallb (fun c => mem_ascii c cs) post = true ->
  strip_chars cs (pre ++ l ++ post)%list = strip_chars cs l.
Proof.
  intros Hpre Hpost. unfold strip_chars.
  rewrite lstrip_chars_prefix by assumption.
  rewrite lstrip_chars_suffix by assumption.
  destruct (lstrip_chars cs l) as [|c t] eqn:E; [reflexivity|].
  rewrite rev_app_distr.
  rewrite lstrip_chars_prefix; [reflexivity|].
  rewrite forallb_forall in *. intros x Hx. apply Hpost.
  now apply in_rev.
Qed.

Lemma split_on_no_sep (sep : ascii) (p : list ascii) :
  forallb (fun c => negb (Ascii.eqb c sep)) p = true ->
  split_on sep p = [p].
Proof.
  induction p as [|c p IH]; simpl; [reflexivity|].
  intros H. apply andb_prop in H as [Hc Hp].
  apply negb_true_iff in Hc. rewrite Hc, IH by assumption. reflexivity.
Qed.

Lemma split_on_piece (sep : ascii) (p rest : list ascii) :
  forallb (fun c => negb (Ascii.eqb c sep)) p = true ->
  split_on sep (p ++ sep :: rest)%list = p :: split_on sep rest.
Proof.
  induction p as [|c p IH]; simpl.
  - intros _. now rewrite Ascii.eqb_refl.
  - intros H. apply andb_prop in H as [Hc Hp].
    apply negb_true_iff in Hc. rewrite Hc, IH by assumption. reflexivity.
Qed.

(** Splitting undoes joining, for a non-empty list of comma-free pieces. *)
Lemma py_split_join (cs : list string) :
  cs <> [] ->
  forallb comma_free cs = true ->
  py_split "," (py_join "," cs) = cs.
Proof.
  unfold py_split. induction cs as [|c cs IH]; [congruence|].
  intros _ H. simpl in H. apply andb_prop in H as [Hc Hcs].
  destruct cs as [|c' cs].
  - simpl. rewrite split_on_no_sep by exact Hc. simpl.
    now rewrite string_of_list_ascii_of_string.
  - change (py_join "," (c :: c' :: cs))
      with (c ++ "," ++ py_join "," (c' :: cs)).
    rewrite list_ascii_of_string_app.
    change (list_ascii_of_string ("," ++ py_join "," (c' :: cs)))
      with (","%char :: list_ascii_of_string (py_join "," (c' :: cs))).
    rewrite split_on_piece by exact Hc.
    simpl map. rewrite string_of_list_ascii_of_string.
    f_equal. apply IH; [congruence | exact Hcs].
Qed.

Lemma py_startswith_rgb (rest : string) :
  py_startswith "rgb(" ("rgb(" ++ rest) = true.
Proof. unfold py_startswith. simpl. now destruct rest. Qed.

(** What [strip("rgb()")] leaves of a bracketed text. *)
Lemma py_strip_rgb (body : string) :
  py_strip "rgb()" ("rgb(" ++ body ++ ")") = py_strip "rgb()" body.
Proof.
  unfold py_strip. f_equal.
  rewrite !list_ascii_of_string_app.
  now apply strip_chars_wrap.
Qed.

(** ** Luminance *)

Lemma luminance_of_channels py_float to_rgba (color : pyval) (r g b : float) :
  luminance_channels py_float to_rgba color = Ok (r, g, b) ->
  luminance py_float to_rgba color
  = Ok (0.2126 * r + 0.7152 * g + 0.0722 * b)%float.
Proof. unfold luminance. now intros ->. Qed.

Lemma luminance_channels_other py_float to_rgba (color : pyval) (r g b a : float) :
  is_rgb_string color = false ->
  to_rgba color = Ok (r, g, b, a) ->
  luminance_channels py_float to_rgba color = Ok (r, g, b).
Proof.
  intros Hrgb Hc. unfold luminance_channels.
  destruct color; simpl in Hrgb; try rewrite Hrgb; now rewrite Hc.
Qed.

Lemma luminance_channels_rgb py_float to_rgba (cs : list string)
    (r g b : float) (rest : list float) :
  forallb comma_free cs = true ->
  py_strip "rgb()" (py_join "," cs) = py_join "," cs ->
  mapM py_float cs = Some (r :: g :: b :: rest) ->
  luminance_channels py_float to_rgba (VStr ("rgb(" ++ py_join "," cs ++ ")"))
  = if (1 <? r)%float || (1 <? g)%float || (1 <? b)%float
    then Ok ((r / 255)%float, (g / 255)%float, (b / 255)%float)
    else Ok (r, g, b).
Proof.
  intros Hfree Hstrip Hparse.
  assert (Hne : cs <> []) by (intros ->; discriminate Hparse).
  unfold luminance_channels.
  rewrite py_startswith_rgb, py_strip_rgb, Hstrip, py_split_join, Hparse by assumption.
  reflexivity.
Qed.

(** C1. [luminance] returns 0.2126 R + 0.7152 G + 0.0722 B of the
    channels it normalizes: for a colour that is not an "rgb(" string,
    the channels matplotlib resolves it to; for a string
    "rgb(c1,c2,c3[,...])", the components read as floats, all three
    divided by 255 once one of them exceeds 1.  So white (1,1,1) has
    luminance 1.0, black (0,0,0) has 0.0 and "rgb(255,0,0)" has 0.2126. *)
Theorem luminance_wcag py_float to_rgba :
  (forall color r g b a,
      is_rgb_string color = false ->
      to_rgba color = Ok (r, g, b, a) ->
      luminance py_float to_rgba color
      = Ok (0.2126 * r + 0.7152 * g + 0.0722 * b)%float)
  /\ (forall cs r g b rest,
      forallb comma_free cs = true ->
      py_strip "rgb()" (py_join "," cs) = py_join "," cs ->
      mapM py_float cs = Some (r :: g :: b :: rest) ->
      luminance py_float to_rgba (VStr ("rgb(" ++ py_join "," cs ++ ")"))
      = if (1 <? r)%float || (1 <? g)%float || (1 <? b)%float
        then Ok (0.2126 * (r / 255) + 0.7152 * (g / 255) + 0.0722 * (b / 255))%float
        else Ok (0.2126 * r + 0.7152 * g + 0.0722 * b)%float)
  /\ (to_rgba (VTuple [VInt 1; VInt 1; VInt 1]) = Ok (1, 1, 1, 1)%float ->
      luminance py_float to_rgba (VTuple [VInt 1; VInt 1; VInt 1]) = Ok 1%float)
  /\ (to_rgba (VTuple [VInt 0; VInt 0; VInt 0]) = Ok (0, 0, 0, 1)%float ->
      luminance py_float to_rgba (VTuple [VInt 0; VInt 0; VInt 0]) = Ok 0%float)
  /\ (py_float "255" = Some 255%float -> py_float "0" = Some 0%float ->
      luminance py_float to_rgba (VStr "rgb(255,0,0)") = Ok 0.2126%float).
Proof.
  assert (Hother : forall color r g b a,
      is_rgb_string color = false ->
      to_rgba color = Ok (r, g, b, a) ->
      luminance py_float to_rgba color
      = Ok (0.2126 * r + 0.7152 * g + 0.0722 * b)%float).
  { intros color r g b a Hrgb Hc. apply luminance_of_channels.
    now apply luminance_channels_other with (a := a). }
  assert (Hrgb : forall cs r g b rest,
      forallb comma_free cs = true ->
      py_strip "rgb()" (py_join "," cs) = py_join "," cs ->
      mapM py_float cs = Some (r :: g :: b :: rest) ->
      luminance py_float to_rgba (VStr ("rgb(" ++ py_join "," cs ++ ")"))
      = if (1 <? r)%float || (1 <? g)%float || (1 <? b)%float
        then Ok (0.2126 * (r / 255) + 0.7152 * (g / 255) + 0.0722 * (b / 255))%float
        else Ok (0.2126 * r + 0.7152 * g + 0.0722 * b)%float).
  { intros cs r g b rest Hfree Hstrip Hparse.
    pose proof (luminance_channels_rgb py_float to_rgba cs r g b rest
                  Hfree Hstrip Hparse) as Hch.
    destruct ((1 <? r)%float || (1 <? g)%float || (1 <? b)%float);
      now apply luminance_of_channels. }
  split; [exact Hother|]. split; [exact Hrgb|].
  split; [|split].
  - intros H. rewrite (Hother (VTuple [VInt 1; VInt 1; VInt 1]) _ _ _ _ eq_refl H).
    reflexivity.
  - intros H. rewrite (Hother (VTuple [VInt 0; VInt 0; VInt 0]) _ _ _ _ eq_refl H).
    reflexivity.
  - intros H255 H0.
    change (VStr "rgb(255,0,0)")
      with (VStr ("rgb(" ++ py_join "," ["255"; "0"; "0"] ++ ")")).
    rewrite (Hrgb ["255"; "0"; "0"] 255%float 0%float 0%float []);
      try reflexivity.
    simpl. now rewrite H255, H0.
Qed.

(** The colours and the text of the last theorem, computed with the
    decimal reader for [float] and the basic colour table for [to_rgba]. *)
Lemma luminance_wcag_witness :
  luminance float_of_decimal_string to_rgba_basic (VTuple [VInt 1; VInt 1; VInt 1])
  = Ok 1%float
  /\ luminance float_of_decimal_string to_rgba_basic (VTuple [VInt 0; VInt 0; VInt 0])
     = Ok 0%float
  /\ luminance float_of_decimal_string to_rgba_basic (VStr "rgb(255,0,0)")
     = Ok 0.2126%float
  /\ luminance float_of_decimal_string to_rgba_basic (VStr "rgb(0.5,0.25,1,0.3)")
     = Ok (0.2126 * 0.5 + 0.7152 * 0.25 + 0.0722 * 1)%float
  /\ luminance float_of_decimal_string to_rgba_basic (VStr "black") = Ok 0%float.
Proof.
  destruct (luminance_wcag float_of_decimal_string to_rgba_basic)
    as (Hother & Hrgb & Hwhite & Hblack & Hred).
  split; [apply Hwhite; reflexivity|].
  split; [apply Hblack; reflexivity|].
  split; [apply Hred; reflexivity|].
  split.
  - exact (Hrgb ["0.5"; "0.25"; "1"; "0.3"] 0.5%float 0.25%float 1%float
             [0.3%float] eq_refl eq_refl eq_refl).
  - apply (Hother (VStr "black") 0%float 0%float 0%float 1%float); reflexivity.
Defined.

(** ** Contrast colour *)

(** C2. Given the luminance of the background, [pick_max_contrast_color]
    returns the dark member of the pair (the second; "black" by default)
    exactly when that luminance is strictly above the threshold (0.3 by
    default), and the light member (the first; "white" by default)
    otherwise. *)
Theorem pick_max_contrast_color_threshold py_float to_rgba
    (bg_color : pyval) (luminance_threshold : option float)
    (colors : option (pyval * pyval)) (bg_luminance : float) :
  luminance py_float to_rgba bg_color = Ok bg_luminance ->
  let threshold := default 0.3%float luminance_threshold in
  let light := fst (default (VStr "white", VStr "black") colors) in
  let dark := snd (default (VStr "white", VStr "black") colors) in
  pick_max_contrast_color py_float to_rgba bg_color luminance_threshold colors
  = Ok (if (threshold <? bg_luminance)%float then dark else light).
Proof.
  intros Hlum. unfold pick_max_contrast_color. rewrite Hlum. reflexivity.
Qed.

(** A white background with the defaults gives black; a luminance equal
    to the threshold is not above it. *)
Lemma pick_max_contrast_color_threshold_witness :
  luminance float_of_decimal_string to_rgba_basic (VStr "white") = Ok 1%float
  /\ pick_max_contrast_color float_of_decimal_string to_rgba_basic
       (VStr "white") None None = Ok (VStr "black")
  /\ pick_max_contrast_color float_of_decimal_string to_rgba_basic
       (VStr "black") None None = Ok (VStr "white")
  /\ pick_max_contrast_color float_of_decimal_string to_rgba_basic
       (VStr "white") (Some 1%float) (Some (VStr "yellow", VStr "navy"))
     = Ok (VStr "yellow").
Proof.
  split; [reflexivity|].
  split; [|split].
  - exact (pick_max_contrast_color_threshold float_of_decimal_string
             to_rgba_basic (VStr "white") None None 1%float eq_refl).
  - exact (pick_max_contrast_color_threshold float_of_decimal_string
             to_rgba_basic (VStr "black") None None 0%float eq_refl).
  - exact (pick_max_contrast_color_threshold float_of_decimal_string
             to_rgba_basic (VStr "white") (Some 1%float)
             (Some (VStr "yellow", VStr "navy")) 1%float eq_refl).
Defined.

(** ** Labels *)

Lemma symbol_mapping_other (MATPLOTLIB PLOTLY key : string) :
  key <> "R2" -> key <> "R2_adj" ->
  symbol_mapping MATPLOTLIB PLOTLY !! key = None.
Proof.
  intros H1 H2. unfold symbol_mapping.
  rewrite lookup_insert_ne by congruence.
  rewrite lookup_insert_ne by congruence.
  apply lookup_empty.
Qed.

(** C8. [pretty_label] raises [ValueError] for a backend that is neither
    of the two supported ones; for a supported one it maps "R2" and
    "R2_adj" to the markup of that backend and returns every other key
    unchanged. *)
Theorem pretty_label_spec (MATPLOTLIB PLOTLY : string) :
  MATPLOTLIB <> PLOTLY ->
  (forall key backend,
      backend <> VStr MATPLOTLIB -> backend <> VStr PLOTLY ->
      pretty_label MATPLOTLIB PLOTLY key backend = Raise ValueError)
  /\ pretty_label MATPLOTLIB PLOTLY "R2" (VStr MATPLOTLIB) = Ok "$R^2$"
  /\ pretty_label MATPLOTLIB PLOTLY "R2" (VStr PLOTLY) = Ok "R<sup>2</sup>"
  /\ pretty_label MATPLOTLIB PLOTLY "R2_adj" (VStr MATPLOTLIB) = Ok "$R^2_{adj}$"
  /\ pretty_label MATPLOTLIB PLOTLY "R2_adj" (VStr PLOTLY)
     = Ok "R<sup>2</sup><sub>adj</sub>"
  /\ (forall key backend,
      backend = VStr MATPLOTLIB \/ backend = VStr PLOTLY ->
      key <> "R2" -> key <> "R2_adj" ->
      pretty_label MATPLOTLIB PLOTLY key backend = Ok key).
Proof.
  intros Hne.
  assert (HM : in_BACKENDS MATPLOTLIB PLOTLY (VStr MATPLOTLIB) = true).
  { simpl. now rewrite String.eqb_refl. }
  assert (HP : in_BACKENDS MATPLOTLIB PLOTLY (VStr PLOTLY) = true).
  { simpl. rewrite (String.eqb_refl PLOTLY). now rewrite orb_true_r. }
  repeat split.
  - intros key backend H1 H2. unfold pretty_label.
    destruct backend as [| | | |b| | | | | | | |]; try reflexivity.
    simpl.
    destruct (String.eqb_spec b MATPLOTLIB) as [->|_]; [congruence|].
    destruct (String.eqb_spec b PLOTLY) as [->|_]; [congruence|].
    reflexivity.
  - unfold pretty_label. rewrite HM. simpl. unfold symbol_mapping.
    rewrite lookup_insert_ne by discriminate. rewrite lookup_insert_eq. simpl.
    rewrite lookup_insert_ne by congruence. now rewrite lookup_insert_eq.
  - unfold pretty_label. rewrite HP. simpl. unfold symbol_mapping.
    rewrite lookup_insert_ne by discriminate. rewrite lookup_insert_eq. simpl.
    now rewrite lookup_insert_eq.
  - unfold pretty_label. rewrite HM. simpl. unfold symbol_mapping.
    rewrite lookup_insert_eq. simpl.
    rewrite lookup_insert_ne by congruence. now rewrite lookup_insert_eq.
  - unfold pretty_label. rewrite HP. simpl. unfold symbol_mapping.
    rewrite lookup_insert_eq. simpl. now rewrite lookup_insert_eq.
  - intros key backend Hb H1 H2. unfold pretty_label.
    destruct Hb as [-> | ->]; [rewrite HM | rewrite HP]; simpl;
      now rewrite symbol_mapping_other.
Qed.

(** The theorem at the backend names "matplotlib" and "plotly". *)
Lemma pretty_label_spec_witness :
  "matplotlib" <> "plotly"
  /\ pretty_label "matplotlib" "plotly" "R2" (VStr "matplotlib") = Ok "$R^2$"
  /\ pretty_label "matplotlib" "plotly" "R2" (VStr "plotly") = Ok "R<sup>2</sup>"
  /\ pretty_label "matplotlib" "plotly" "unknown_key" (VStr "plotly")
     = Ok "unknown_key"
  /\ pretty_label "matplotlib" "plotly" "R2" (VStr "bokeh") = Raise ValueError.
Proof.
  assert (Hne : "matplotlib" <> "plotly") by discriminate.
  destruct (pretty_label_spec "matplotlib" "plotly" Hne)
    as (Hbad & HR2m & HR2p & _ & _ & Hother).
  split; [exact Hne|].
  split; [exact HR2m|].
  split; [exact HR2p|].
  split.
  - apply Hother; [now right | discriminate | discriminate].
  - apply Hbad; discriminate.
Defined.

(** ** The validation gate *)

Lemma validate_fig_pass {R} (func : pyfun R) (args : list pyval) (kwargs : pydict) :
  (let fig := default VNone (kwargs !! "fig") in
   is_None fig || isinstance_fig fig = true) ->
  validate_fig func args kwargs = func args kwargs.
Proof.
  cbv zeta. intros H. unfold validate_fig.
  destruct (is_None _), (isinstance_fig _); simpl in *; congruence.
Qed.

Lemma validate_fig_reject {R} (func : pyfun R) (args : list pyval) (kwargs : pydict)
    (fig : pyval) (w : World) :
  kwargs !! "fig" = Some fig ->
  is_None fig = false -> isinstance_fig fig = false ->
  validate_fig func args kwargs w = (Raise TypeError, w).
Proof.
  intros Hk Hn Hi. unfold validate_fig. rewrite Hk. simpl.
  now rewrite Hn, Hi.
Qed.

Lemma bind_fig_keyword (fig : pyval) :
  bind_fig_trace_idx [] {["fig" := fig]} = Ok (fig, VInt 0).
Proof. vm_compute. reflexivity. Qed.

Lemma bind_fig_positional (fig : pyval) :
  bind_fig_trace_idx [fig] ∅ = Ok (fig, VInt 0).
Proof. vm_compute. reflexivity. Qed.

(** The decorated function called as [get_fig_xy_range(fig=v)], for a
    value the gate lets through. *)
Lemma get_fig_xy_range_keyword pow10 host (fig : pyval) :
  is_None fig || isinstance_fig fig = true ->
  get_fig_xy_range pow10 host [] {["fig" := fig]}
  = get_fig_xy_range_body pow10 host fig (VInt 0).
Proof.
  intros H. unfold get_fig_xy_range.
  rewrite validate_fig_pass by (cbv zeta; now rewrite lookup_singleton_eq).
  now rewrite bind_fig_keyword.
Qed.

(** Reading the limits of a matplotlib figure that has axes. *)
Lemma get_fig_xy_range_body_Figure pow10 host (idx : pyval) (w : World)
    (r a : ref) (f : Figure) (ax : Axes) :
  w_figs w !! r = Some f -> fig_current_axes f = Some a ->
  w_axes w !! a = Some ax ->
  get_fig_xy_range_body pow10 host (VFigure r) idx w
  = (Ok (PyTuple [fst (ax_xlim ax); snd (ax_xlim ax)],
         PyTuple [fst (ax_ylim ax); snd (ax_ylim ax)]), w).
Proof.
  intros Hf Ha Hax.
  unfold get_fig_xy_range_body, bind, ret, Figure_gca, read_axes. simpl.
  now rewrite Hf, Ha, Hax.
Qed.

Lemma get_fig_xy_range_body_Axes pow10 host (idx : pyval) (w : World)
    (a : ref) (ax : Axes) :
  w_axes w !! a = Some ax ->
  get_fig_xy_range_body pow10 host (VAxes a) idx w
  = (Ok (PyTuple [fst (ax_xlim ax); snd (ax_xlim ax)],
         PyTuple [fst (ax_ylim ax); snd (ax_ylim ax)]), w).
Proof.
  intros Hax.
  unfold get_fig_xy_range_body, bind, ret, read_axes. simpl.
  now rewrite Hax.
Qed.

Lemma get_fig_xy_range_body_None pow10 host (idx : pyval) (w : World) (r : ref) :
  w_gcf w = Some r ->
  get_fig_xy_range_body pow10 host VNone idx w
  = get_fig_xy_range_body pow10 host (VFigure r) idx w.
Proof.
  intros Hg. unfold get_fig_xy_range_body, bind, ret, plt_gcf. simpl.
  now rewrite Hg.
Qed.

(** With no current figure pyplot makes one, the figure makes its axes,
    and the limits read are those of the new axes. *)
Lemma get_fig_xy_range_body_None_fresh pow10 host (idx : pyval) (w : World) :
  w_gcf w = None ->
  exists w',
    get_fig_xy_range_body pow10 host VNone idx w
    = (Ok (PyTuple [fst (ax_xlim (w_new_axes w)); snd (ax_xlim (w_new_axes w))],
           PyTuple [fst (ax_ylim (w_new_axes w)); snd (ax_ylim (w_new_axes w))]), w')
    /\ w_gcf w' = Some (fresh (dom (w_figs w))).
Proof.
  intros Hg.
  unfold get_fig_xy_range_body, bind, ret, plt_gcf, Figure_gca, read_axes.
  simpl. rewrite Hg. simpl.
  rewrite lookup_insert_eq. simpl. rewrite lookup_insert_eq.
  eexists. split; reflexivity.
Qed.

(** C6. A call of a function decorated with [validate_fig] whose [fig]
    keyword argument is neither [None] nor a matplotlib Axes or Figure nor
    a plotly Figure raises [TypeError], whatever the wrapped function is
    and with the store untouched: the wrapped function has not run.  With
    [fig=None] the wrapper hands the call on; [get_fig_xy_range(fig=None)]
    is then the call on pyplot's current figure and returns the limits of
    its axes, and with no current figure those of a new one. *)
Theorem validate_fig_gate :
  (forall R (func : pyfun R) args kwargs fig w,
      kwargs !! "fig" = Some fig ->
      is_None fig = false -> isinstance_fig fig = false ->
      validate_fig func args kwargs w = (Raise TypeError, w))
  /\ (forall R (func : pyfun R) args kwargs,
      kwargs !! "fig" = Some VNone ->
      validate_fig func args kwargs = func args kwargs)
  /\ (forall pow10 host w r,
      w_gcf w = Some r ->
      get_fig_xy_range pow10 host [] {["fig" := VNone]} w
      = get_fig_xy_range pow10 host [] {["fig" := VFigure r]} w)
  /\ (forall pow10 host w r f a ax,
      w_gcf w = Some r ->
      w_figs w !! r = Some f -> fig_current_axes f = Some a ->
      w_axes w !! a = Some ax ->
      get_fig_xy_range pow10 host [] {["fig" := VNone]} w
      = (Ok (PyTuple [fst (ax_xlim ax); snd (ax_xlim ax)],
             PyTuple [fst (ax_ylim ax); snd (ax_ylim ax)]), w))
  /\ (forall pow10 host w,
      w_gcf w = None ->
      exists w',
        get_fig_xy_range pow10 host [] {["fig" := VNone]} w
        = (Ok (PyTuple [fst (ax_xlim (w_new_axes w)); snd (ax_xlim (w_new_axes w))],
               PyTuple [fst (ax_ylim (w_new_axes w)); snd (ax_ylim (w_new_axes w))]),
           w')).
Proof.
  split; [|split; [|split; [|split]]].
  - intros R func args kwargs fig w. apply validate_fig_reject.
  - intros R func args kwargs Hk. apply validate_fig_pass.
    cbv zeta. now rewrite Hk.
  - intros pow10 host w r Hg.
    rewrite !get_fig_xy_range_keyword by reflexivity.
    now apply get_fig_xy_range_body_None.
  - intros pow10 host w r f a ax Hg Hf Ha Hax.
    rewrite get_fig_xy_range_keyword by reflexivity.
    rewrite (get_fig_xy_range_body_None _ _ _ _ r Hg).
    now apply get_fig_xy_range_body_Figure with (f := f) (a := a).
  - intros pow10 host w Hg.
    rewrite get_fig_xy_range_keyword by reflexivity.
    destruct (get_fig_xy_range_body_None_fresh pow10 host (VInt 0) w Hg)
      as (w' & Hw' & _).
    now exists w'.
Qed.

(** A plain dictionary as [fig] is refused before anything runs; [None]
    reads the current figure of [world_mpl]; in the empty store the call
    still returns the limits of a fresh figure. *)
Lemma validate_fig_gate_witness :
  get_fig_xy_range pow10_small host_no_kaleido [] {["fig" := VDict []]} world_mpl
  = (Raise TypeError, world_mpl)
  /\ get_fig_xy_range pow10_small host_no_kaleido [] {["fig" := VNone]} world_mpl
     = get_fig_xy_range pow10_small host_no_kaleido [] {["fig" := VFigure 0%nat]} world_mpl
  /\ get_fig_xy_range pow10_small host_no_kaleido [] {["fig" := VNone]} world_mpl
     = (Ok (PyTuple [0; 10]%float, PyTuple [0; 5]%float), world_mpl)
  /\ fst (get_fig_xy_range pow10_small host_no_kaleido [] {["fig" := VNone]} world_empty)
     = Ok (PyTuple [0; 1]%float, PyTuple [0; 1]%float).
Proof.
  destruct validate_fig_gate as (Hbad & Hnone & Hgcf & Hlim & Hnew).
  split; [|split; [|split]].
  - apply (Hbad _ _ [] {["fig" := VDict []]} (VDict [])); reflexivity.
  - apply Hgcf. reflexivity.
  - apply (Hlim pow10_small host_no_kaleido world_mpl 0%nat
             (mkFigure (Some 0%nat)) 0%nat axes_0_10); reflexivity.
  - destruct (Hnew pow10_small host_no_kaleido world_empty eq_refl) as (w' & ->).
    reflexivity.
Defined.

(** C9. When no keyword argument is named [fig], whatever is passed
    positionally or under another name, the wrapper checks nothing and
    raises nothing of its own: the call is the call of the wrapped
    function. *)
Theorem validate_fig_keyword_only {R} (func : pyfun R) (args : list pyval)
    (kwargs : pydict) :
  kwargs !! "fig" = None ->
  validate_fig func args kwargs = func args kwargs.
Proof.
  intros Hk. apply validate_fig_pass. cbv zeta. now rewrite Hk.
Qed.

(** A dictionary passed positionally, or as [figure=...], gets past the
    wrapper; in [get_fig_xy_range] the failure that follows is the
    attribute error of the body, not a [TypeError] of the wrapper. *)
Lemma validate_fig_keyword_only_witness :
  validate_fig accepts_anything [VDict []] ∅ world_empty = (Ok 1%nat, world_empty)
  /\ validate_fig accepts_anything [] {["figure" := VDict []]} world_empty
     = (Ok 1%nat, world_empty)
  /\ get_fig_xy_range pow10_small host_no_kaleido [VDict []] ∅ world_empty
     = (Raise (HostError "AttributeError"), world_empty).
Proof.
  split; [|split].
  - rewrite (validate_fig_keyword_only accepts_anything) by reflexivity.
    reflexivity.
  - rewrite (validate_fig_keyword_only accepts_anything) by reflexivity.
    reflexivity.
  - unfold get_fig_xy_range.
    rewrite validate_fig_keyword_only by reflexivity. reflexivity.
Defined.

(** ** Annotations on plotly figures *)

Lemma set_gofigs_id (w : World) (r : ref) (f : GoFigure) :
  w_gofigs w !! r = Some f ->
  set_gofigs w (<[r := f]> (w_gofigs w)) = w.
Proof.
  intros H. rewrite insert_id by exact H. now destruct w.
Qed.

(** The two reference axes computed in the loop are the suffix form of
    [facet_annotation]. *)
Lemma facet_xref (xaxis : string) :
  let subplot_idx := if String.eqb (py_tail xaxis) "" then "" else py_tail xaxis in
  (if negb (String.eqb subplot_idx "")
   then "x" ++ subplot_idx ++ " domain" else "x domain")
  = "x" ++ py_tail xaxis ++ " domain".
Proof.
  cbv zeta. destruct (String.eqb_spec (py_tail xaxis) "") as [E|E].
  - rewrite E. reflexivity.
  - apply String.eqb_neq in E. now rewrite E.
Qed.

Lemma facet_yref (xaxis : string) :
  let subplot_idx := if String.eqb (py_tail xaxis) "" then "" else py_tail xaxis in
  (if negb (String.eqb subplot_idx "")
   then "y" ++ subplot_idx ++ " domain" else "y domain")
  = "y" ++ py_tail xaxis ++ " domain".
Proof.
  cbv zeta. destruct (String.eqb_spec (py_tail xaxis) "") as [E|E].
  - rewrite E. reflexivity.
  - apply String.eqb_neq in E. now rewrite E.
Qed.

Lemma facet_annotations_cons (td kw : pydict) (xaxis : string) (axes : list string)
    (sub : pyval) (subs : list pyval) :
  facet_annotations td kw (xaxis :: axes) (sub :: subs)
  = if truthy sub
    then facet_annotation td kw xaxis sub :: facet_annotations td kw axes subs
    else facet_annotations td kw axes subs.
Proof.
  unfold facet_annotations. cbn [combine List.filter snd fst].
  now destruct (truthy sub).
Qed.

Section AnnotateFacts.

Variable AnchoredText_error : pyval -> pydict -> option exn.
Variable plotly_add_annotation : GoFigure -> pydict -> result GoFigure.

Lemma add_annotation_ok (r : ref) (props : pydict) (w : World) (f f' : GoFigure) :
  w_gofigs w !! r = Some f ->
  plotly_add_annotation f props = Ok f' ->
  add_annotation plotly_add_annotation r props w
  = (Ok tt, set_gofigs w (<[r := f']> (w_gofigs w))).
Proof. intros H H'. unfold add_annotation. now rewrite H, H'. Qed.

Lemma add_annotation_raises (r : ref) (props : pydict) (w : World) (f : GoFigure)
    (e : exn) :
  w_gofigs w !! r = Some f ->
  plotly_add_annotation f props = Raise e ->
  add_annotation plotly_add_annotation r props w = (Raise e, w).
Proof. intros H H'. unfold add_annotation. now rewrite H, H'. Qed.

(** One round of the loop on a trace that names its axis. *)
Lemma annotate_trace_step (text : pyval) (r : ref) (td kw : pydict) (idx : Z)
    (trace : Trace) (xaxis : string) (sub : pyval) (w : World) :
  tr_xaxis trace = Attr (Some xaxis) ->
  (if isinstance_str text then Ok text else py_getitem text idx) = Ok sub ->
  annotate_trace plotly_add_annotation text r td kw idx trace w
  = if truthy sub
    then add_annotation plotly_add_annotation r (facet_annotation td kw xaxis sub) w
    else (Ok tt, w).
Proof.
  intros Hax Hsub. unfold annotate_trace, bind.
  assert (Hs : (if isinstance_str text then ret text else lift (py_getitem text idx)) w
               = (Ok sub, w)).
  { destruct (isinstance_str text); unfold ret, lift; now rewrite <- Hsub. }
  rewrite Hs. destruct (truthy sub); simpl; [|reflexivity].
  unfold lift, subplot_idx_of. rewrite Hax. cbn [read_attr].
  unfold facet_annotation.
  pose proof (facet_xref xaxis) as Hx. pose proof (facet_yref xaxis) as Hy.
  cbv zeta in Hx, Hy. now rewrite Hx, Hy.
Qed.

(** The loop over the traces that all name their axis, when plotly
    takes each of the annotations: the annotations of
    [facet_annotations] are appended, in order. *)
Lemma for_enumerate_annotate (text : pyval) (r : ref) (td kw : pydict) :
  forall (traces : list Trace) (axes : list string) (subs : list pyval)
         (idx : Z) (w : World) (f : GoFigure),
    map tr_xaxis traces = map (fun a => Attr (Some a)) axes ->
    length subs = length traces ->
    (forall i sub, nth_error subs i = Some sub ->
       (if isinstance_str text then Ok text
        else py_getitem text (idx + Z.of_nat i)) = Ok sub) ->
    Forall (appends_annotation plotly_add_annotation)
           (facet_annotations td kw axes subs) ->
    w_gofigs w !! r = Some f ->
    for_enumerate (annotate_trace plotly_add_annotation text r td kw) idx traces w
    = (Ok tt,
       set_gofigs w
         (<[r := fold_left push_annotation (facet_annotations td kw axes subs) f]>
            (w_gofigs w))).
Proof.
  induction traces as [|trace traces IH]; intros axes subs idx w f Hax Hlen Hsub Hacc Hf.
  - destruct axes; [|discriminate]. simpl.
    unfold ret. now rewrite set_gofigs_id.
  - destruct axes as [|xaxis axes]; [discriminate|].
    destruct subs as [|sub subs]; [discriminate|].
    simpl in Hax. injection Hax as Hx Hax. simpl in Hlen. injection Hlen as Hlen.
    assert (H0 : (if isinstance_str text then Ok text else py_getitem text idx)
                 = Ok sub).
    { specialize (Hsub 0%nat sub eq_refl). now rewrite Z.add_0_r in Hsub. }
    assert (HS : forall i s, nth_error subs i = Some s ->
                 (if isinstance_str text then Ok text
                  else py_getitem text (idx + 1 + Z.of_nat i)) = Ok s).
    { intros i s Hi. specialize (Hsub (S i) s Hi).
      now replace (idx + 1 + Z.of_nat i) with (idx + Z.of_nat (S i)) by lia. }
    cbn [for_enumerate]. unfold bind at 1.
    rewrite (annotate_trace_step text r td kw idx trace xaxis sub w Hx H0).
    rewrite facet_annotations_cons in Hacc |- *.
    destruct (truthy sub).
    + apply Forall_cons_iff in Hacc as [Hacc1 Hacc].
      rewrite (add_annotation_ok _ _ _ f _ Hf (Hacc1 f)).
      rewrite (IH axes subs (idx + 1) _ (push_annotation f (facet_annotation td kw xaxis sub))
                 Hax Hlen HS Hacc); [|simpl; apply lookup_insert_eq].
      simpl. unfold set_gofigs at 1. simpl. now rewrite insert_insert_eq.
    + now rewrite (IH axes subs (idx + 1) w f Hax Hlen HS Hacc Hf).
Qed.

(** [annotate] on a plotly figure whose font colour is found: its
    branches laid out. *)
Lemma annotate_plotly (text : pyval) (r : ref) (kwargs : pydict) (w : World)
    (f : GoFigure) (c : string) :
  w_gofigs w !! r = Some f ->
  plotly_font_color f w = Ok c ->
  annotate AnchoredText_error plotly_add_annotation text (VGoFigure r) kwargs w
  = let td := plotly_text_defaults (annotation_color c kwargs) in
    let kw := delete "color" kwargs in
    if is_faceted f then
      match for_enumerate (annotate_trace plotly_add_annotation text r td kw) 0
              (go_data f) w with
      | (Ok _, w') => (Ok (VGoFigure r), w')
      | (Raise e, w') => (Raise e, w')
      end
    else if negb (isinstance_str text) then (Raise ValueError, w)
    else
      match add_annotation plotly_add_annotation r (paper_annotation td kw text) w with
      | (Ok _, w') => (Ok (VGoFigure r), w')
      | (Raise e, w') => (Raise e, w')
      end.
Proof.
  intros Hf Hc. unfold plotly_font_color in Hc.
  unfold annotate, get_font_color, bind, read_gofig, annotation_color.
  rewrite Hf, Hc. cbn [isinstance_mpl]. cbv zeta. rewrite Hf.
  destruct (is_faceted f).
  - reflexivity.
  - destruct (isinstance_str text); cbn [negb]; reflexivity.
Qed.

(** When the font colour of the figure cannot be found, [annotate] ends
    there, before it has looked at the text or at the figure's traces. *)
Lemma annotate_plotly_no_color (text : pyval) (r : ref) (kwargs : pydict)
    (w : World) (f : GoFigure) (e : exn) :
  w_gofigs w !! r = Some f ->
  plotly_font_color f w = Raise e ->
  annotate AnchoredText_error plotly_add_annotation text (VGoFigure r) kwargs w
  = (Raise e, w).
Proof.
  intros Hf Hc. unfold plotly_font_color in Hc.
  unfold annotate, get_font_color, bind, read_gofig.
  now rewrite Hf, Hc.
Qed.

(** On a faceted figure whose traces all name their axis, a list of
    texts aligned to the traces attaches one annotation per trace with a
    non-empty text, each referring to the axes of its trace. *)
Lemma annotate_faceted_sequence (texts : list pyval) (r : ref) (kwargs : pydict)
    (w : World) (f : GoFigure) (axes : list string) (c : string) :
  w_gofigs w !! r = Some f ->
  plotly_font_color f w = Ok c ->
  is_faceted f = true ->
  map tr_xaxis (go_data f) = map (fun a => Attr (Some a)) axes ->
  length texts = length (go_data f) ->
  Forall (appends_annotation plotly_add_annotation)
         (facet_annotations (plotly_text_defaults (annotation_color c kwargs))
            (delete "color" kwargs) axes texts) ->
  annotate AnchoredText_error plotly_add_annotation (VList texts) (VGoFigure r) kwargs w
  = (Ok (VGoFigure r),
     set_gofigs w
       (<[r := fold_left push_annotation
                 (facet_annotations
                    (plotly_text_defaults (annotation_color c kwargs))
                    (delete "color" kwargs) axes texts) f]>
          (w_gofigs w))).
Proof.
  intros Hf Hc Hfac Hax Hlen Hacc. rewrite (annotate_plotly _ _ _ _ f c Hf Hc). cbv zeta.
  rewrite Hfac.
  rewrite (for_enumerate_annotate _ _ _ _ (go_data f) axes texts 0 w f Hax Hlen);
    [reflexivity | | exact Hacc | exact Hf].
  intros i sub Hi. cbn [isinstance_str py_getitem]. unfold py_index.
  assert (Hlt : (i < length texts)%nat) by (apply nth_error_Some; congruence).
  replace (0 + Z.of_nat i <? 0) with false by (symmetry; apply Z.ltb_ge; lia).
  replace ((0 + Z.of_nat i <? 0) || (Z.of_nat (length texts) <=? 0 + Z.of_nat i))
    with false by (symmetry; apply orb_false_intro;
                   [apply Z.ltb_ge | apply Z.leb_gt]; lia).
  replace (Z.to_nat (0 + Z.of_nat i)) with i by lia.
  now rewrite Hi.
Qed.

Lemma facet_annotations_repeat (td kw : pydict) (s : string) (axes : list string) :
  s <> "" ->
  facet_annotations td kw axes (repeat (VStr s) (length axes))
  = map (fun xaxis => facet_annotation td kw xaxis (VStr s)) axes.
Proof.
  intros Hs. apply String.eqb_neq in Hs. unfold facet_annotations.
  induction axes as [|a axes IH]; [reflexivity|].
  cbn [length repeat combine List.filter snd truthy].
  rewrite Hs. cbn [negb map fst snd]. now rewrite IH.
Qed.

(** The same with one non-empty string for [text]: every trace gets it. *)
Lemma annotate_faceted_string (s : string) (r : ref) (kwargs : pydict)
    (w : World) (f : GoFigure) (axes : list string) (c : string) :
  w_gofigs w !! r = Some f ->
  plotly_font_color f w = Ok c ->
  is_faceted f = true ->
  map tr_xaxis (go_data f) = map (fun a => Attr (Some a)) axes ->
  s <> "" ->
  Forall (appends_annotation plotly_add_annotation)
         (map (fun xaxis =>
                 facet_annotation (plotly_text_defaults (annotation_color c kwargs))
                   (delete "color" kwargs) xaxis (VStr s)) axes) ->
  annotate AnchoredText_error plotly_add_annotation (VStr s) (VGoFigure r) kwargs w
  = (Ok (VGoFigure r),
     set_gofigs w
       (<[r := fold_left push_annotation
                 (map (fun xaxis =>
                         facet_annotation
                           (plotly_text_defaults (annotation_color c kwargs))
                           (delete "color" kwargs) xaxis (VStr s)) axes) f]>
          (w_gofigs w))).
Proof.
  intros Hf Hc Hfac Hax Hs Hacc. rewrite (annotate_plotly _ _ _ _ f c Hf Hc). cbv zeta.
  rewrite Hfac.
  assert (Hlen : length axes = length (go_data f)).
  { rewrite <- (length_map (fun a => Attr (Some a)) axes), <- Hax. apply length_map. }
  rewrite (for_enumerate_annotate _ _ _ _ (go_data f) axes
             (repeat (VStr s) (length (go_data f))) 0 w f Hax);
    [ | apply repeat_length | | | exact Hf].
  - rewrite <- Hlen. now rewrite facet_annotations_repeat.
  - intros i sub Hi. cbn [isinstance_str]. f_equal.
    apply nth_error_In, repeat_spec in Hi. now subst.
  - rewrite <- Hlen. now rewrite facet_annotations_repeat.
Qed.

(** Unless the caller overrides them, the reference axes of an
    annotation are those of its trace, and its text is the entry of the
    trace. *)
Lemma facet_annotation_refs (color : pyval) (kw : pydict) (xaxis : string)
    (sub : pyval) :
  kw !! "xref" = None -> kw !! "yref" = None ->
  facet_annotation (plotly_text_defaults color) kw xaxis sub !! "text" = Some sub
  /\ facet_annotation (plotly_text_defaults color) kw xaxis sub !! "xref"
     = Some (VStr ("x" ++ py_tail xaxis ++ " domain"))
  /\ facet_annotation (plotly_text_defaults color) kw xaxis sub !! "yref"
     = Some (VStr ("y" ++ py_tail xaxis ++ " domain")).
Proof.
  intros Hx Hy. unfold facet_annotation, dict_or, plotly_text_defaults, ref_dict.
  split; [apply lookup_insert_eq|].
  split.
  - rewrite lookup_insert_ne by discriminate.
    rewrite lookup_union_r by exact Hx.
    rewrite lookup_union_r
      by (repeat (rewrite lookup_insert_ne by discriminate); apply lookup_empty).
    rewrite lookup_insert_ne by discriminate. apply lookup_insert_eq.
  - rewrite lookup_insert_ne by discriminate.
    rewrite lookup_union_r by exact Hy.
    rewrite lookup_union_r
      by (repeat (rewrite lookup_insert_ne by discriminate); apply lookup_empty).
    apply lookup_insert_eq.
Qed.


(** [annotate] on matplotlib axes whose font colour is [c]: the text box
    is built from the defaults under the caller's keywords and added to
    the axes, unless matplotlib refuses to build it. *)
Lemma annotate_Axes (text : pyval) (a : ref) (kwargs : pydict) (w : World)
    (ax : Axes) (c : string) :
  w_axes w !! a = Some ax ->
  get_font_color (VAxes a) w = (Ok c, w) ->
  annotate AnchoredText_error plotly_add_annotation text (VAxes a) kwargs w
  = let props := dict_or (matplotlib_text_defaults (annotation_color c kwargs))
                         (delete "color" kwargs) in
    match AnchoredText_error text props with
    | Some e => (Raise e, w)
    | None =>
        (Ok (VAxes a),
         set_axes w
           (<[a := mkAxes (ax_xlim ax) (ax_ylim ax) (ax_xlabel_color ax)
                     (ax_ylabel_color ax) (ax_title_color ax)
                     (ax_xticklabel_colors ax)
                     (ax_artists ax ++ [(text, props)])]>
              (w_axes w)))
    end.
Proof.
  intros Hax Hc. unfold annotate, bind. rewrite Hc.
  cbn [isinstance_mpl]. cbv zeta. unfold ret at 1, AnchoredText, annotation_color.
  destruct (AnchoredText_error text _) as [e|]; [reflexivity|].
  unfold ret, Axes_add_artist. now rewrite Hax.
Qed.

(** The font colour of a plotly figure is found unless no colour is set
    in the figure and its template and either there is no default
    template, which ends in the [AttributeError] of line 150, or the
    default is a name that is not registered, a [KeyError]. *)
Lemma plotly_font_color_unset (f : GoFigure) (w : World) :
  font_color_of (lay_font (go_layout f)) = None ->
  (forall t, lay_template (go_layout f) = Some t -> template_font_color t = None) ->
  plotly_font_color f w
  = match w_default_template w with
    | NoDefault => Raise (HostError "AttributeError")
    | DefaultByName name =>
        match w_templates w name with
        | Some t => Ok (default "black" (template_font_color t))
        | None => Raise KeyError
        end
    | DefaultObject t => Ok (default "black" (template_font_color t))
    end.
Proof.
  intros Hfont Htpl. unfold plotly_font_color, _get_plotly_font_color.
  rewrite Hfont.
  assert (E : match lay_template (go_layout f) with
              | Some t => template_font_color t
              | None => None
              end = None).
  { destruct (lay_template (go_layout f)) as [t|]; [now apply Htpl | reflexivity]. }
  rewrite E.
  destruct (w_default_template w) as [|name|t].
  - reflexivity.
  - destruct (w_templates w name) as [t|]; [|reflexivity].
    now destruct (template_font_color t).
  - now destruct (template_font_color t).
Qed.

(** C7. On a plotly figure that is not faceted, a [text] that is not a
    single string (a list of strings, say) makes [annotate] raise
    [ValueError] once the font colour of the figure is found; the store,
    and with it the figure, is left as it was: no annotation is added.
    The font colour is looked up first, though, and when neither the
    figure nor its template sets one and plotly has no default template,
    that lookup ends in an [AttributeError] on [None] instead: the
    [ValueError] is not reached.  In every case the call fails and adds
    nothing. *)
Theorem annotate_non_faceted_needs_str (text : pyval) (r : ref)
    (kwargs : pydict) (w : World) (f : GoFigure) :
  w_gofigs w !! r = Some f ->
  is_faceted f = false ->
  isinstance_str text = false ->
  (forall c, plotly_font_color f w = Ok c ->
     annotate AnchoredText_error plotly_add_annotation text (VGoFigure r) kwargs w
     = (Raise ValueError, w))
  /\ (font_color_of (lay_font (go_layout f)) = None ->
      (forall t, lay_template (go_layout f) = Some t -> template_font_color t = None) ->
      w_default_template w = NoDefault ->
      annotate AnchoredText_error plotly_add_annotation text (VGoFigure r) kwargs w
      = (Raise (HostError "AttributeError"), w))
  /\ (exists e,
        annotate AnchoredText_error plotly_add_annotation text (VGoFigure r) kwargs w
        = (Raise e, w)).
Proof.
  intros Hf Hfac Hstr.
  assert (Hok : forall c, plotly_font_color f w = Ok c ->
     annotate AnchoredText_error plotly_add_annotation text (VGoFigure r) kwargs w
     = (Raise ValueError, w)).
  { intros c Hc. rewrite (annotate_plotly _ _ _ _ f c Hf Hc). cbv zeta.
    now rewrite Hfac, Hstr. }
  split; [exact Hok|]. split.
  - intros Hfont Htpl Hdef.
    apply (annotate_plotly_no_color _ _ _ _ f _ Hf).
    rewrite (plotly_font_color_unset f w Hfont Htpl). now rewrite Hdef.
  - destruct (plotly_font_color f w) as [c|e] eqn:Hc.
    + exists ValueError. now apply (Hok c).
    + exists e. now apply (annotate_plotly_no_color _ _ _ _ f e Hf).
Qed.

End AnnotateFacts.

(** A list of two strings on the single-trace figure, with plotly's
    settings as they come and after [pio.templates.default = None]; a
    single string on the same figure is attached, relative to the whole
    paper. *)
Lemma annotate_non_faceted_needs_str_witness :
  annotate AnchoredText_basic add_annotation_basic
    (VList [VStr "a"; VStr "b"]) (VGoFigure 0%nat) ∅ world_plotly
  = (Raise ValueError, world_plotly)
  /\ annotate AnchoredText_basic add_annotation_basic
       (VList [VStr "a"; VStr "b"]) (VGoFigure 0%nat) ∅ world_no_default
     = (Raise (HostError "AttributeError"), world_no_default)
  /\ annotation_refs world_plotly 0%nat = []
  /\ annotation_refs
       (snd (annotate AnchoredText_basic add_annotation_basic
               (VStr "a") (VGoFigure 0%nat) ∅ world_plotly)) 0%nat
     = [(Some (VStr "a"), Some (VStr "paper"), Some (VStr "paper"))].
Proof.
  split; [|split; [|split]].
  - destruct (annotate_non_faceted_needs_str AnchoredText_basic add_annotation_basic
                (VList [VStr "a"; VStr "b"]) 0%nat ∅ world_plotly fig_single
                eq_refl eq_refl eq_refl) as (H & _).
    apply (H "#2a3f5f"). reflexivity.
  - destruct (annotate_non_faceted_needs_str AnchoredText_basic add_annotation_basic
                (VList [VStr "a"; VStr "b"]) 0%nat ∅ world_no_default fig_single
                eq_refl eq_refl eq_refl) as (_ & H & _).
    apply H; [reflexivity | discriminate | reflexivity].
  - reflexivity.
  - vm_compute. reflexivity.
Defined.

(** C3. On the faceted figure [fig_low_level], whose first trace leaves
    [xaxis] unset (it is on the primary sub-plot) and whose second trace
    is on ["x2"], a list with one text per trace does not attach one
    annotation per trace: subscripting the unset [xaxis] of the first
    trace raises [TypeError] and the figure keeps no annotation.  On
    [fig_subplots], the same two traces with the first axis spelled
    ["x"], the same call attaches the two annotations, referring to
    "x domain"/"y domain" and "x2 domain"/"y2 domain". *)
Theorem annotate_faceted_unset_xaxis :
  is_faceted fig_low_level = true
  /\ (forall AnchoredText_error plotly_add_annotation,
        annotate AnchoredText_error plotly_add_annotation
          (VList [VStr "left"; VStr "right"]) (VGoFigure 1%nat) ∅ world_plotly
        = (Raise TypeError, world_plotly))
  /\ fst (annotate AnchoredText_basic add_annotation_basic
            (VList [VStr "left"; VStr "right"]) (VGoFigure 2%nat) ∅ world_plotly)
     = Ok (VGoFigure 2%nat)
  /\ annotation_refs
       (snd (annotate AnchoredText_basic add_annotation_basic
               (VList [VStr "left"; VStr "right"]) (VGoFigure 2%nat) ∅
               world_plotly)) 2%nat
     = [(Some (VStr "left"), Some (VStr "x domain"), Some (VStr "y domain"));
        (Some (VStr "right"), Some (VStr "x2 domain"), Some (VStr "y2 domain"))]
  /\ annotation_refs
       (snd (annotate AnchoredText_basic add_annotation_basic
               (VList [VStr ""; VStr "right"]) (VGoFigure 2%nat) ∅
               world_plotly)) 2%nat
     = [(Some (VStr "right"), Some (VStr "x2 domain"), Some (VStr "y2 domain"))].
Proof.
  split; [reflexivity|].
  split; [intros AT ADD; vm_compute; reflexivity|].
  split; [vm_compute; reflexivity|].
  split; vm_compute; reflexivity.
Qed.

(** C10. With a single non-empty string for [text], the call on the
    faceted figure [fig_low_level] fails all the same: the first trace
    has no [xaxis] to subscript, [TypeError] is raised and nothing is
    attached.  On [fig_subplots] the string is attached once per trace. *)
Theorem annotate_faceted_string_unset_xaxis :
  is_faceted fig_low_level = true
  /\ (forall AnchoredText_error plotly_add_annotation,
        annotate AnchoredText_error plotly_add_annotation
          (VStr "note") (VGoFigure 1%nat) ∅ world_plotly
        = (Raise TypeError, world_plotly))
  /\ fst (annotate AnchoredText_basic add_annotation_basic
            (VStr "note") (VGoFigure 2%nat) ∅ world_plotly)
     = Ok (VGoFigure 2%nat)
  /\ annotation_refs
       (snd (annotate AnchoredText_basic add_annotation_basic
               (VStr "note") (VGoFigure 2%nat) ∅ world_plotly)) 2%nat
     = [(Some (VStr "note"), Some (VStr "x domain"), Some (VStr "y domain"));
        (Some (VStr "note"), Some (VStr "x2 domain"), Some (VStr "y2 domain"))].
Proof.
  split; [reflexivity|].
  split; [intros AT ADD; vm_compute; reflexivity|].
  split; vm_compute; reflexivity.
Qed.

(** ** Axis ranges *)

Lemma bind_fig_idx_positional (fig idx : pyval) :
  bind_fig_trace_idx [fig; idx] ∅ = Ok (fig, idx).
Proof. vm_compute. reflexivity. Qed.

(** The decorated function called with positional arguments only. *)
Lemma get_fig_xy_range_positional pow10 host (fig : pyval) :
  get_fig_xy_range pow10 host [fig] ∅
  = get_fig_xy_range_body pow10 host fig (VInt 0).
Proof.
  unfold get_fig_xy_range.
  rewrite validate_fig_pass by reflexivity.
  now rewrite bind_fig_positional.
Qed.

Lemma get_fig_xy_range_positional_idx pow10 host (fig idx : pyval) :
  get_fig_xy_range pow10 host [fig; idx] ∅
  = get_fig_xy_range_body pow10 host fig idx.
Proof.
  unfold get_fig_xy_range.
  rewrite validate_fig_pass by reflexivity.
  now rewrite bind_fig_idx_positional.
Qed.

(** The body on a plotly figure: the [try] block and its handler. *)
Lemma get_fig_xy_range_body_plotly pow10 host (r : ref) (idx : pyval)
    (w : World) (f : GoFigure) :
  w_gofigs w !! r = Some f ->
  get_fig_xy_range_body pow10 host (VGoFigure r) idx w
  = (try_rendered_ranges pow10 host f idx, w).
Proof.
  intros Hf. unfold get_fig_xy_range_body, bind, ret, read_gofig, lift. simpl.
  now rewrite Hf.
Qed.

(** The list comprehension over the powers of ten gives all of them or
    the [OverflowError] of one of them. *)
Lemma pow10_each_mapM pow10 (vals : list float) :
  pow10_each pow10 vals
  = match mapM pow10 vals with
    | Some ps => Ok ps
    | None => Raise OverflowError
    end.
Proof.
  induction vals as [|v vals IH]; [reflexivity|].
  cbn [pow10_each]. rewrite IH. simpl.
  destruct (pow10 v); simpl; [|reflexivity].
  now destruct (mapM pow10 vals).
Qed.

Lemma rendered_ranges_to_linear pow10 (dev_fig : DevLayout) :
  rendered_ranges pow10 dev_fig
  = both (to_linear pow10 (dev_xaxis_type dev_fig) (dev_xaxis_range dev_fig))
         (to_linear pow10 (dev_yaxis_type dev_fig) (dev_yaxis_range dev_fig)).
Proof.
  unfold rendered_ranges, to_linear, both. cbv zeta.
  rewrite !pow10_each_mapM.
  destruct (is_log (dev_xaxis_type dev_fig)), (is_log (dev_yaxis_type dev_fig));
    repeat match goal with |- context [mapM ?f ?l] => destruct (mapM f l) end;
    reflexivity.
Qed.

Lemma data_range_to_linear pow10 (axis_type : option string) (col : list float)
    (lo hi : float) :
  py_min col = Ok lo -> py_max col = Ok hi ->
  data_range pow10 axis_type col = to_linear pow10 axis_type (PyList [lo; hi]).
Proof.
  intros Hlo Hhi. unfold data_range, to_linear. rewrite Hlo, Hhi.
  rewrite pow10_each_mapM. cbn [seq_items].
  destruct (is_log axis_type); [|reflexivity].
  now destruct (mapM pow10 [lo; hi]).
Qed.


(** Taking the powers of ten fails with an [OverflowError] only. *)
Lemma to_linear_raises pow10 (axis_type : option string) (range : pyseq) (e : exn) :
  to_linear pow10 axis_type range = Raise e -> e = OverflowError.
Proof.
  unfold to_linear. destruct (is_log axis_type); [|discriminate].
  destruct (mapM pow10 (seq_items range)); [discriminate|]. now intros [= <-].
Qed.

Lemma both_to_linear_raises pow10 (tx ty : option string) (rx ry : pyseq) (e : exn) :
  both (to_linear pow10 tx rx) (to_linear pow10 ty ry) = Raise e -> e = OverflowError.
Proof.
  unfold both.
  destruct (to_linear pow10 tx rx) as [x|e1] eqn:E1.
  - destruct (to_linear pow10 ty ry) as [y|e2] eqn:E2; [discriminate|].
    intros [= <-]. now apply to_linear_raises in E2.
  - intros [= <-]. now apply to_linear_raises in E1.
Qed.

(** *** The order of binary64 numbers

    [<] on floats is a strict order, and total away from NaN; this is
    what makes the folds of [min] and [max] return a least and a
    greatest element of a sequence without NaN. *)













(** The handler on a trace whose frame keeps at least one row. *)
Lemma manual_ranges_ok pow10 (f : GoFigure) (i : Z) (trace : Trace)
    (x y : option (list (option float)))
    (rows : list (option float * option float)) (xlo xhi ylo yhi : float) :
  py_index (go_data f) i = Ok trace ->
  tr_x trace = Attr x -> tr_y trace = Attr y ->
  DataFrame_xy x y = Ok rows ->
  py_min (map fst (dropna rows)) = Ok xlo ->
  py_max (map fst (dropna rows)) = Ok xhi ->
  py_min (map snd (dropna rows)) = Ok ylo ->
  py_max (map snd (dropna rows)) = Ok yhi ->
  manual_ranges pow10 f (VInt i)
  = both (to_linear pow10 (lay_xaxis_type (go_layout f)) (PyList [xlo; xhi]))
         (to_linear pow10 (lay_yaxis_type (go_layout f)) (PyList [ylo; yhi])).
Proof.
  intros Ht Hx Hy Hrows Hxlo Hxhi Hylo Hyhi.
  unfold manual_ranges. simpl.
  rewrite Ht, Hx, Hy. cbn [read_attr]. rewrite Hrows. cbv zeta.
  rewrite (data_range_to_linear pow10 _ _ xlo xhi Hxlo Hxhi).
  rewrite (data_range_to_linear pow10 _ _ ylo yhi Hylo Hyhi).
  unfold both.
  destruct (to_linear pow10 (lay_xaxis_type (go_layout f)) (PyList [xlo; xhi]));
    [|reflexivity].
  now destruct (to_linear pow10 (lay_yaxis_type (go_layout f)) (PyList [ylo; yhi])).
Qed.

(** The decorated function on a plotly figure given positionally. *)
Lemma get_fig_xy_range_plotly pow10 host (r : ref) (idx : pyval)
    (w : World) (f : GoFigure) :
  w_gofigs w !! r = Some f ->
  get_fig_xy_range pow10 host [VGoFigure r; idx] ∅ w
  = (try_rendered_ranges pow10 host f idx, w).
Proof.
  intros Hf. rewrite get_fig_xy_range_positional_idx.
  now apply get_fig_xy_range_body_plotly.
Qed.




(** ** Ranges and data bounds *)

(** ** Ranges and data bounds *)

Lemma dropna_complete (xs ys : list float) :
  length xs = length ys ->
  forallb (fun v => negb (PrimFloat.is_nan v)) (xs ++ ys) = true ->
  map fst (dropna (combine (map Some xs) (map Some ys))) = xs
  /\ map snd (dropna (combine (map Some xs) (map Some ys))) = ys.
Proof.
  revert ys. induction xs as [|x xs IH]; intros [|y ys] Hlen Hnan;
    try discriminate; [now split|].
  simpl in Hlen. injection Hlen as Hlen.
  rewrite forallb_app in Hnan. apply andb_prop in Hnan as [Hx Hy].
  simpl in Hx, Hy. apply andb_prop in Hx as [Hx Hxs].
  apply andb_prop in Hy as [Hy Hys].
  apply negb_true_iff in Hx, Hy.
  destruct (IH ys Hlen) as [IHx IHy]; [rewrite forallb_app; now rewrite Hxs, Hys|].
  simpl. rewrite Hx, Hy. simpl. now rewrite IHx, IHy.
Qed.

Lemma manual_ranges_span pow10 (f : GoFigure) (xlo xhi ylo yhi : float) :
  linear_axes f = true ->
  plots_span f xlo xhi ylo yhi ->
  manual_ranges pow10 f (VInt 0) = Ok (PyList [xlo; xhi], PyList [ylo; yhi]).
Proof.
  intros Hlin (trace & xs & ys & Ht & Hx & Hy & Hlen & Hnan & Hxlo & Hxhi & Hylo & Hyhi).
  unfold linear_axes in Hlin. apply andb_prop in Hlin as [Hlx Hly].
  apply negb_true_iff in Hlx, Hly.
  destruct (dropna_complete xs ys Hlen Hnan) as [Hfst Hsnd].
  rewrite (manual_ranges_ok pow10 f 0 trace _ _ (combine (map Some xs) (map Some ys))
             xlo xhi ylo yhi Ht Hx Hy).
  - unfold to_linear. now rewrite Hlx, Hly.
  - simpl. rewrite !length_map.
    apply Nat.eqb_eq in Hlen. now rewrite Hlen.
  - now rewrite Hfst.
  - now rewrite Hfst.
  - now rewrite Hsnd.
  - now rewrite Hsnd.
Qed.

(** C5. On linear axes [get_fig_xy_range] returns the limits the
    plotting library reports: for matplotlib the limits of the axes (of
    the figure's current axes), for plotly the ranges of the rendered
    figure; so it returns exactly ((0, 10), (0, 5)) when those limits
    are (0, 10) and (0, 5).  Only when the rendering is unavailable does
    it return the bounds of the plotted data, as two lists. *)
Theorem get_fig_xy_range_reads_limits pow10 host (w : World) :
  (forall a ax,
      w_axes w !! a = Some ax ->
      get_fig_xy_range pow10 host [VAxes a] ∅ w
      = (Ok (PyTuple [fst (ax_xlim ax); snd (ax_xlim ax)],
             PyTuple [fst (ax_ylim ax); snd (ax_ylim ax)]), w))
  /\ (forall r f a ax,
      w_figs w !! r = Some f -> fig_current_axes f = Some a ->
      w_axes w !! a = Some ax ->
      get_fig_xy_range pow10 host [VFigure r] ∅ w
      = (Ok (PyTuple [fst (ax_xlim ax); snd (ax_xlim ax)],
             PyTuple [fst (ax_ylim ax); snd (ax_ylim ax)]), w))
  /\ (forall r f dev_fig,
      w_gofigs w !! r = Some f ->
      host f = Ok dev_fig ->
      is_log (dev_xaxis_type dev_fig) = false ->
      is_log (dev_yaxis_type dev_fig) = false ->
      get_fig_xy_range pow10 host [VGoFigure r] ∅ w
      = (Ok (dev_xaxis_range dev_fig, dev_yaxis_range dev_fig), w))
  /\ (forall r f xlo xhi ylo yhi,
      w_gofigs w !! r = Some f ->
      host f = Raise ValueError ->
      linear_axes f = true ->
      plots_span f xlo xhi ylo yhi ->
      get_fig_xy_range pow10 host [VGoFigure r] ∅ w
      = (Ok (PyList [xlo; xhi], PyList [ylo; yhi]), w)).
Proof.
  split; [|split; [|split]].
  - intros a ax Hax. rewrite get_fig_xy_range_positional.
    now apply get_fig_xy_range_body_Axes.
  - intros r f a ax Hf Ha Hax. rewrite get_fig_xy_range_positional.
    now apply get_fig_xy_range_body_Figure with (f := f) (a := a).
  - intros r f dev_fig Hf Hdev Hx Hy. rewrite get_fig_xy_range_positional.
    rewrite (get_fig_xy_range_body_plotly _ _ _ _ _ f Hf).
    unfold try_rendered_ranges. rewrite Hdev.
    unfold rendered_ranges. now rewrite Hx, Hy.
  - intros r f xlo xhi ylo yhi Hf Hhost Hlin Hspan.
    rewrite get_fig_xy_range_positional.
    rewrite (get_fig_xy_range_body_plotly _ _ _ _ _ f Hf).
    unfold try_rendered_ranges. rewrite Hhost. simpl.
    now rewrite (manual_ranges_span pow10 f xlo xhi ylo yhi Hlin Hspan).
Qed.

Lemma plots_span_fig_single : plots_span fig_single 0 10 0 5.
Proof.
  exists trace_0_10, [0; 10]%float, [0; 5]%float.
  repeat split; reflexivity.
Qed.

(** Axes with the limits (0, 10) and (0, 5) give exactly those; the
    single-trace figure gives the padded ranges when plotly renders it
    and the bounds of its data when kaleido is missing. *)
Lemma get_fig_xy_range_reads_limits_witness :
  get_fig_xy_range pow10_small host_no_kaleido [VAxes 0%nat] ∅ world_mpl
  = (Ok (PyTuple [0; 10]%float, PyTuple [0; 5]%float), world_mpl)
  /\ get_fig_xy_range pow10_small host_no_kaleido [VFigure 0%nat] ∅ world_mpl
     = (Ok (PyTuple [0; 10]%float, PyTuple [0; 5]%float), world_mpl)
  /\ get_fig_xy_range pow10_small host_padded [VGoFigure 0%nat] ∅ world_plotly
     = (Ok (PyTuple [-0.6; 10.6]%float, PyTuple [-0.4; 5.4]%float), world_plotly)
  /\ get_fig_xy_range pow10_small host_no_kaleido [VGoFigure 0%nat] ∅ world_plotly
     = (Ok (PyList [0; 10]%float, PyList [0; 5]%float), world_plotly).
Proof.
  split; [|split; [|split]].
  - destruct (get_fig_xy_range_reads_limits pow10_small host_no_kaleido world_mpl)
      as (H & _).
    exact (H 0%nat axes_0_10 eq_refl).
  - destruct (get_fig_xy_range_reads_limits pow10_small host_no_kaleido world_mpl)
      as (_ & H & _).
    exact (H 0%nat (mkFigure (Some 0%nat)) 0%nat axes_0_10 eq_refl eq_refl eq_refl).
  - destruct (get_fig_xy_range_reads_limits pow10_small host_padded world_plotly)
      as (_ & _ & H & _).
    exact (H 0%nat fig_single _ eq_refl eq_refl eq_refl eq_refl).
  - destruct (get_fig_xy_range_reads_limits pow10_small host_no_kaleido world_plotly)
      as (_ & _ & _ & H).
    exact (H 0%nat fig_single 0%float 10%float 0%float 5%float
             eq_refl eq_refl eq_refl plots_span_fig_single).
Defined.

(** C5 does not hold of the data bounds as such: [fig_single] is a new
    figure on linear axes whose data spans [0, 10] and [0, 5], and with
    plotly rendering it the function returns the padded ranges of the
    rendered axes, not ((0, 10), (0, 5)). *)
Lemma get_fig_xy_range_not_data_bounds :
  linear_axes fig_single = true
  /\ plots_span fig_single 0 10 0 5
  /\ lay_annotations (go_layout fig_single) = []
  /\ get_fig_xy_range pow10_small host_padded [VGoFigure 0%nat] ∅ world_plotly
     = (Ok (PyTuple [-0.6; 10.6]%float, PyTuple [-0.4; 5.4]%float), world_plotly)
  /\ fst (get_fig_xy_range pow10_small host_padded [VGoFigure 0%nat] ∅ world_plotly)
     <> Ok (PyTuple [0; 10]%float, PyTuple [0; 5]%float).
Proof.
  split; [reflexivity|].
  split; [exact plots_span_fig_single|].
  split; [reflexivity|].
  split; [vm_compute; reflexivity|].
  intros H.
  apply (f_equal (fun res => match res with
                             | Ok (PyTuple (v :: _), _) => PrimFloat.eqb v 0
                             | _ => true
                             end)) in H.
  vm_compute in H. discriminate H.
Qed.



(** * Further properties of the module *)

(** ** The font colour of a figure *)

Lemma font_color_of_nonempty (f : option Font) (c : string) :
  font_color_of f = Some c -> c <> "".
Proof.
  unfold font_color_of. destruct f as [[[c'|]]|]; simpl; try discriminate.
  destruct (String.eqb_spec c' ""); [discriminate|]. now intros [= <-].
Qed.

Lemma template_font_color_nonempty (t : Template) (c : string) :
  template_font_color t = Some c -> c <> "".
Proof.
  unfold template_font_color. destruct (tpl_layout t); [|discriminate].
  apply font_color_of_nonempty.
Qed.

Lemma default_black_nonempty (t : Template) :
  default "black" (template_font_color t) <> "".
Proof.
  destruct (template_font_color t) eqn:E; simpl;
    [now apply template_font_color_nonempty in E | discriminate].
Qed.

(** The lookup, sorted by what the figure asks for itself. *)
Lemma _get_plotly_font_color_cases (f : GoFigure) (default_template : TemplateDefault)
    (templates : string -> option Template) :
  _get_plotly_font_color f default_template templates
  = match own_font_color f with
    | Some c => Ok c
    | None =>
        match default_template with
        | NoDefault => Raise (HostError "AttributeError")
        | DefaultByName name =>
            match templates name with
            | Some t => Ok (default "black" (template_font_color t))
            | None => Raise KeyError
            end
        | DefaultObject t => Ok (default "black" (template_font_color t))
        end
    end.
Proof.
  unfold _get_plotly_font_color, own_font_color.
  destruct (font_color_of (lay_font (go_layout f))); [reflexivity|].
  destruct (match lay_template (go_layout f) with
            | Some t => template_font_color t
            | None => None
            end); [reflexivity|].
  destruct default_template as [|name|t].
  - reflexivity.
  - destruct (templates name) as [t|]; [|reflexivity].
    now destruct (template_font_color t).
  - now destruct (template_font_color t).
Qed.

Lemma own_font_color_nonempty (f : GoFigure) (c : string) :
  own_font_color f = Some c -> c <> "".
Proof.
  unfold own_font_color.
  destruct (font_color_of (lay_font (go_layout f))) eqn:E1.
  - intros [= <-]. now apply font_color_of_nonempty in E1.
  - destruct (lay_template (go_layout f)) as [t|]; [|discriminate].
    apply template_font_color_nonempty.
Qed.

(** X1. On a plotly figure [get_font_color] never changes the store and
    never answers the empty string: a colour that is set to the empty
    string counts as not set.  It answers a colour whenever the figure
    or its template sets one, and whenever plotly's default template is
    a template object or a registered name.  It fails in two cases only,
    both with no colour set in the figure and its template: with no
    default template at all, in an [AttributeError] on [None]; with a
    default that names no registered template, in a [KeyError]. *)
Theorem get_font_color_plotly_outcomes (r : ref) (w : World) (f : GoFigure) :
  w_gofigs w !! r = Some f ->
  get_font_color (VGoFigure r) w = (plotly_font_color f w, w)
  /\ (forall c, plotly_font_color f w = Ok c -> c <> "")
  /\ (forall c, own_font_color f = Some c -> plotly_font_color f w = Ok c)
  /\ (forall t, w_default_template w = DefaultObject t ->
        exists c, plotly_font_color f w = Ok c)
  /\ (forall name t,
        w_default_template w = DefaultByName name -> w_templates w name = Some t ->
        exists c, plotly_font_color f w = Ok c)
  /\ (forall e, plotly_font_color f w = Raise e ->
        own_font_color f = None
        /\ ((e = HostError "AttributeError" /\ w_default_template w = NoDefault)
            \/ (e = KeyError
                /\ exists name, w_default_template w = DefaultByName name
                                /\ w_templates w name = None))).
Proof.
  intros Hf. unfold plotly_font_color.
  rewrite !_get_plotly_font_color_cases.
  split; [|split; [|split; [|split; [|split]]]].
  - unfold get_font_color, bind, read_gofig. rewrite Hf.
    now rewrite _get_plotly_font_color_cases.
  - intros c. destruct (own_font_color f) as [c'|] eqn:E.
    + intros [= <-]. now apply own_font_color_nonempty in E.
    + destruct (w_default_template w) as [|name|t]; [discriminate| |].
      * destruct (w_templates w name) as [t|]; [|discriminate].
        intros [= <-]. apply default_black_nonempty.
      * intros [= <-]. apply default_black_nonempty.
  - now intros c ->.
  - intros t ->. destruct (own_font_color f); eexists; reflexivity.
  - intros name t -> ->. destruct (own_font_color f); eexists; reflexivity.
  - intros e. destruct (own_font_color f) as [c'|]; [discriminate|].
    intros He. split; [reflexivity|].
    destruct (w_default_template w) as [|name|t].
    + injection He as <-. now left.
    + destruct (w_templates w name) as [t|] eqn:E; [discriminate|].
      injection He as <-. right. split; [reflexivity|]. now exists name.
    + discriminate.
Qed.

(** The figure whose template asks for white, with three settings of
    the default template: a template object, no default at all, and a
    name that is not registered; then the plain figure with each. *)
Lemma get_font_color_plotly_outcomes_witness :
  get_font_color (VGoFigure 0%nat) world_styled = (Ok "white", world_styled)
  /\ get_font_color (VGoFigure 1%nat) world_styled = (Ok "navy", world_styled)
  /\ get_font_color (VGoFigure 0%nat) world_plotly = (Ok "#2a3f5f", world_plotly)
  /\ get_font_color (VGoFigure 0%nat) world_no_default
     = (Raise (HostError "AttributeError"), world_no_default)
  /\ get_font_color (VGoFigure 0%nat) world_unregistered
     = (Ok "white", world_unregistered)
  /\ get_font_color (VGoFigure 1%nat) world_unregistered
     = (Raise KeyError, world_unregistered).
Proof.
  split; [|split; [|split; [|split; [|split]]]].
  - destruct (get_font_color_plotly_outcomes 0%nat world_styled fig_dark eq_refl)
      as (H & _).
    rewrite H. reflexivity.
  - destruct (get_font_color_plotly_outcomes 1%nat world_styled fig_single eq_refl)
      as (H & _).
    rewrite H. reflexivity.
  - destruct (get_font_color_plotly_outcomes 0%nat world_plotly fig_single eq_refl)
      as (H & _).
    rewrite H. reflexivity.
  - destruct (get_font_color_plotly_outcomes 0%nat world_no_default fig_single eq_refl)
      as (H & _).
    rewrite H. reflexivity.
  - destruct (get_font_color_plotly_outcomes 0%nat world_unregistered fig_dark eq_refl)
      as (H & _).
    rewrite H. reflexivity.
  - destruct (get_font_color_plotly_outcomes 1%nat world_unregistered fig_single eq_refl)
      as (H & _).
    rewrite H. reflexivity.
Defined.

(** X2. The order in which a plotly figure's font colour is looked up: the
    colour of the figure's own font if set, else that of the figure's
    template; once either is set, plotly's default template and its
    registry have no say, whatever they are.  Only when neither is set
    is the default template read: its colour if it has one, "black" if
    it has none; and a default that is [None], or a name that is not
    registered, is an error and not "black". *)
Theorem plotly_font_color_precedence (f : GoFigure) (default_template : TemplateDefault)
    (templates : string -> option Template) :
  (forall c, font_color_of (lay_font (go_layout f)) = Some c ->
             _get_plotly_font_color f default_template templates = Ok c)
  /\ (forall t c,
        font_color_of (lay_font (go_layout f)) = None ->
        lay_template (go_layout f) = Some t ->
        template_font_color t = Some c ->
        _get_plotly_font_color f default_template templates = Ok c)
  /\ (forall other other_templates,
        font_color_of (lay_font (go_layout f)) <> None
        \/ (exists t, lay_template (go_layout f) = Some t
                      /\ template_font_color t <> None) ->
        _get_plotly_font_color f default_template templates
        = _get_plotly_font_color f other other_templates)
  /\ (font_color_of (lay_font (go_layout f)) = None ->
      (forall t, lay_template (go_layout f) = Some t ->
                 template_font_color t = None) ->
      _get_plotly_font_color f default_template templates
      = match default_template with
        | NoDefault => Raise (HostError "AttributeError")
        | DefaultByName name =>
            match templates name with
            | Some t => Ok (default "black" (template_font_color t))
            | None => Raise KeyError
            end
        | DefaultObject t => Ok (default "black" (template_font_color t))
        end).
Proof.
  split; [|split; [|split]].
  - intros c H. unfold _get_plotly_font_color. now rewrite H.
  - intros t c H1 H2 H3. unfold _get_plotly_font_color. now rewrite H1, H2, H3.
  - intros other other_templates H. rewrite !_get_plotly_font_color_cases.
    assert (E : own_font_color f <> None).
    { unfold own_font_color. destruct H as [H|(t & Ht & Hc)].
      - now destruct (font_color_of (lay_font (go_layout f))).
      - destruct (font_color_of (lay_font (go_layout f))); [discriminate|].
        now rewrite Ht. }
    destruct (own_font_color f); [reflexivity | congruence].
  - intros H1 H2. rewrite _get_plotly_font_color_cases.
    assert (E : own_font_color f = None).
    { unfold own_font_color. rewrite H1.
      destruct (lay_template (go_layout f)) as [t|]; [now apply H2 | reflexivity]. }
    now rewrite E.
Qed.

Lemma plotly_font_color_precedence_witness :
  _get_plotly_font_color fig_dark (DefaultObject (template_of "navy")) templates_stock
  = Ok "white"
  /\ _get_plotly_font_color fig_dark (DefaultObject (template_of "navy")) templates_stock
     = _get_plotly_font_color fig_dark NoDefault (fun _ => None)
  /\ _get_plotly_font_color fig_single (DefaultObject (template_of "navy"))
       templates_stock = Ok "navy"
  /\ _get_plotly_font_color fig_single (DefaultObject (mkTemplate None))
       templates_stock = Ok "black"
  /\ _get_plotly_font_color fig_single NoDefault templates_stock
     = Raise (HostError "AttributeError").
Proof.
  split; [|split; [|split; [|split]]].
  - destruct (plotly_font_color_precedence fig_dark
                (DefaultObject (template_of "navy")) templates_stock) as (_ & H & _).
    exact (H (template_of "white") "white" eq_refl eq_refl eq_refl).
  - destruct (plotly_font_color_precedence fig_dark
                (DefaultObject (template_of "navy")) templates_stock)
      as (_ & _ & H & _).
    apply H. right. exists (template_of "white"). split; [reflexivity|discriminate].
  - destruct (plotly_font_color_precedence fig_single
                (DefaultObject (template_of "navy")) templates_stock)
      as (_ & _ & _ & H).
    apply H; [reflexivity | discriminate].
  - destruct (plotly_font_color_precedence fig_single
                (DefaultObject (mkTemplate None)) templates_stock)
      as (_ & _ & _ & H).
    apply H; [reflexivity | discriminate].
  - destruct (plotly_font_color_precedence fig_single NoDefault templates_stock)
      as (_ & _ & _ & H).
    apply H; [reflexivity | discriminate].
Defined.

Lemma first_explicit_color_not_auto (cs : list string) (c : string) :
  first_explicit_color cs = Some c -> c <> "auto".
Proof.
  induction cs as [|c' cs IH]; simpl; [discriminate|].
  destruct (String.eqb_spec c' "auto"); [exact IH|]. now intros [= <-].
Qed.

(** X3. On matplotlib axes [get_font_color] leaves the store as it was and
    never answers "auto", the mark of a colour left to the style, as
    long as the style's own text colour is not "auto". *)
Theorem get_font_color_axes_explicit (a : ref) (w : World) (ax : Axes) :
  w_axes w !! a = Some ax ->
  w_rc_text_color w <> Some "auto" ->
  exists c, get_font_color (VAxes a) w = (Ok c, w) /\ c <> "auto".
Proof.
  intros Hax Hrc.
  unfold get_font_color, _get_matplotlib_font_color, bind, ret, read_axes.
  cbn [isinstance_mpl]. rewrite Hax.
  assert (Hdef : default "black" (w_rc_text_color w) <> "auto").
  { destruct (w_rc_text_color w) as [c|]; simpl; [congruence | discriminate]. }
  destruct (first_explicit_color _) as [c|] eqn:E.
  - exists c. split; [reflexivity|]. now apply first_explicit_color_not_auto in E.
  - destruct (head (ax_xticklabel_colors ax)) as [c|]; simpl.
    + destruct (String.eqb_spec c "auto"); simpl; eexists; split;
        try reflexivity; assumption.
    + eexists. split; [reflexivity | assumption].
Qed.

(** Axes with a red title answer "red"; axes whose first tick label is
    "auto" fall back on the style's "grey", whatever the later tick
    labels say. *)
Lemma get_font_color_axes_explicit_witness :
  (exists c, get_font_color (VAxes 2%nat) world_figures = (Ok c, world_figures)
             /\ c <> "auto")
  /\ get_font_color (VAxes 2%nat) world_figures = (Ok "grey", world_figures)
  /\ get_font_color (VAxes 1%nat) world_figures = (Ok "red", world_figures).
Proof.
  split; [|split].
  - apply (get_font_color_axes_explicit 2%nat world_figures axes_auto);
      [reflexivity | discriminate].
  - reflexivity.
  - reflexivity.
Defined.

Lemma fresh_axes_unused (w : World) : w_axes w !! fresh (dom (w_axes w)) = None.
Proof. apply not_elem_of_dom, is_fresh. Qed.

(** On a matplotlib figure the colour is that of the figure's current
    axes; a figure without axes makes them first. *)
Lemma get_font_color_Figure (r : ref) (w : World) (f : Figure) :
  w_figs w !! r = Some f ->
  get_font_color (VFigure r) w
  = match fig_current_axes f with
    | Some a => get_font_color (VAxes a) w
    | None =>
        get_font_color (VAxes (fresh (dom (w_axes w))))
          (set_figs
             (set_axes w (<[fresh (dom (w_axes w)) := w_new_axes w]> (w_axes w)))
             (<[r := mkFigure (Some (fresh (dom (w_axes w))))]> (w_figs w)))
    end.
Proof.
  intros Hf.
  unfold get_font_color, _get_matplotlib_font_color, bind, ret, Figure_gca.
  cbn [isinstance_mpl]. rewrite Hf.
  destruct (fig_current_axes f); reflexivity.
Qed.

(** The colour of given axes depends on the axes and on the style's text
    colour only. *)
Lemma get_font_color_Axes_total (ax : Axes) (rc : option string) :
  exists c, forall a w,
    w_axes w !! a = Some ax -> w_rc_text_color w = rc ->
    get_font_color (VAxes a) w = (Ok c, w).
Proof.
  destruct (first_explicit_color
              [ax_xlabel_color ax; ax_ylabel_color ax; ax_title_color ax])
    as [c|] eqn:E.
  - exists c. intros a w Hax _.
    unfold get_font_color, _get_matplotlib_font_color, bind, ret, read_axes.
    cbn [isinstance_mpl]. now rewrite Hax, E.
  - destruct (head (ax_xticklabel_colors ax)) as [c|] eqn:Eh.
    + destruct (negb (String.eqb c "auto")) eqn:Ec.
      * exists c. intros a w Hax _.
        unfold get_font_color, _get_matplotlib_font_color, bind, ret, read_axes.
        cbn [isinstance_mpl]. now rewrite Hax, E, Eh, Ec.
      * exists (default "black" rc). intros a w Hax <-.
        unfold get_font_color, _get_matplotlib_font_color, bind, ret, read_axes.
        cbn [isinstance_mpl]. now rewrite Hax, E, Eh, Ec.
    + exists (default "black" rc). intros a w Hax <-.
      unfold get_font_color, _get_matplotlib_font_color, bind, ret, read_axes.
      cbn [isinstance_mpl]. now rewrite Hax, E, Eh.
Qed.

(** X4. Asking for the font colour of a matplotlib figure that has no axes
    yet is not a pure read: the figure makes its axes, which thereby
    enter the store; asking again changes nothing more and gives the same
    colour. *)
Theorem get_font_color_makes_axes (r : ref) (w : World) :
  w_figs w !! r = Some (mkFigure None) ->
  exists c w',
    get_font_color (VFigure r) w = (Ok c, w')
    /\ w_axes w !! fresh (dom (w_axes w)) = None
    /\ w_axes w' !! fresh (dom (w_axes w)) = Some (w_new_axes w)
    /\ w_figs w' !! r = Some (mkFigure (Some (fresh (dom (w_axes w)))))
    /\ get_font_color (VFigure r) w' = (Ok c, w').
Proof.
  intros Hf.
  destruct (get_font_color_Axes_total (w_new_axes w) (w_rc_text_color w)) as [c Hc].
  set (a := fresh (dom (w_axes w))).
  set (w' := set_figs (set_axes w (<[a := w_new_axes w]> (w_axes w)))
                      (<[r := mkFigure (Some a)]> (w_figs w))).
  assert (Hax : w_axes w' !! a = Some (w_new_axes w)) by apply lookup_insert_eq.
  assert (Hfig : w_figs w' !! r = Some (mkFigure (Some a))) by apply lookup_insert_eq.
  exists c, w'. split; [|split; [|split; [|split]]].
  - rewrite (get_font_color_Figure r w _ Hf). now apply Hc.
  - apply fresh_axes_unused.
  - exact Hax.
  - exact Hfig.
  - rewrite (get_font_color_Figure r w' _ Hfig). now apply Hc.
Qed.

Lemma get_font_color_makes_axes_witness :
  exists c w',
    get_font_color (VFigure 2%nat) world_figures = (Ok c, w')
    /\ w_axes world_figures !! fresh (dom (w_axes world_figures)) = None
    /\ w_axes w' !! fresh (dom (w_axes world_figures)) = Some axes_fresh
    /\ w_figs w' !! 2%nat
       = Some (mkFigure (Some (fresh (dom (w_axes world_figures)))))
    /\ get_font_color (VFigure 2%nat) w' = (Ok c, w').
Proof.
  exact (get_font_color_makes_axes 2%nat world_figures eq_refl).
Defined.

(** X5. Anything that is not a matplotlib Axes or Figure or a plotly Figure,
    [None] and a plotly figure widget included, is refused with a
    [TypeError] by [get_font_color] and by [annotate], with the store
    untouched; [annotate] refuses it even when the caller supplies the
    colour, since the font colour is looked up before the keyword is
    read, and before matplotlib or plotly are asked anything. *)
Theorem annotate_rejects_non_figures AnchoredText_error plotly_add_annotation
    (text fig : pyval) (kwargs : pydict) (w : World) :
  isinstance_fig fig = false ->
  get_font_color fig w = (Raise TypeError, w)
  /\ annotate AnchoredText_error plotly_add_annotation text fig kwargs w
     = (Raise TypeError, w).
Proof.
  intros H. destruct fig; try discriminate H; split; reflexivity.
Qed.

Lemma annotate_rejects_non_figures_witness :
  get_font_color VNone world_figures = (Raise TypeError, world_figures)
  /\ annotate AnchoredText_basic add_annotation_basic
       (VStr "a") (VDict []) {["color" := VStr "red"]} world_figures
     = (Raise TypeError, world_figures)
  /\ annotate AnchoredText_basic add_annotation_basic
       (VStr "a") (VFigureWidget 0%nat) ∅ world_plotly
     = (Raise TypeError, world_plotly).
Proof.
  split; [|split].
  - apply (annotate_rejects_non_figures AnchoredText_basic add_annotation_basic
             (VStr "a") VNone ∅). reflexivity.
  - apply (annotate_rejects_non_figures AnchoredText_basic add_annotation_basic
             (VStr "a") (VDict [])). reflexivity.
  - apply (annotate_rejects_non_figures AnchoredText_basic add_annotation_basic
             (VStr "a") (VFigureWidget 0%nat)). reflexivity.
Defined.

(** ** Annotating matplotlib axes *)

(** What [annotate] passes to [AnchoredText] besides the text: the
    defaults with the colour in [prop], under the caller's keywords
    without ["color"]. *)
Lemma anchored_text_props (color : pyval) (kwargs : pydict) :
  let props := dict_or (matplotlib_text_defaults color) (delete "color" kwargs) in
  props !! "color" = None
  /\ (forall k v, k <> "color" -> kwargs !! k = Some v -> props !! k = Some v)
  /\ (kwargs !! "frameon" = None -> props !! "frameon" = Some (VBool false))
  /\ (kwargs !! "loc" = None -> props !! "loc" = Some (VStr "upper left"))
  /\ (kwargs !! "prop" = None -> props !! "prop" = Some (VDict [("color", color)])).
Proof.
  cbv zeta. unfold dict_or, matplotlib_text_defaults.
  split; [|split; [|split; [|split]]].
  - apply lookup_union_None. split; [apply lookup_delete_eq|].
    repeat (rewrite lookup_insert_ne by discriminate). apply lookup_empty.
  - intros k v Hk Hv. apply lookup_union_Some_l.
    now rewrite lookup_delete_ne by congruence.
  - intros H. rewrite lookup_union_r
      by (rewrite lookup_delete_ne by discriminate; exact H).
    repeat (rewrite lookup_insert_ne by discriminate). apply lookup_insert_eq.
  - intros H. rewrite lookup_union_r
      by (rewrite lookup_delete_ne by discriminate; exact H).
    rewrite lookup_insert_ne by discriminate. apply lookup_insert_eq.
  - intros H. rewrite lookup_union_r
      by (rewrite lookup_delete_ne by discriminate; exact H).
    apply lookup_insert_eq.
Qed.

(** X6. On matplotlib axes [annotate] builds one text box, from any text:
    its keywords are the defaults (no frame, upper left, the font colour
    of the axes) under the caller's keywords; ["color"] is never passed
    on as a keyword of its own, and a caller's [prop] replaces the
    default one whole, colour included.  When matplotlib builds the box,
    [annotate] returns the handle it was given and adds that one artist
    to those axes: the limits and every other object of the store stay
    as they were.  When matplotlib refuses the keywords, its exception
    is that of [annotate] and the store is as before. *)
Theorem annotate_axes_adds_artist AnchoredText_error plotly_add_annotation
    (text : pyval) (a : ref) (kwargs : pydict) (w : World) (ax : Axes) :
  w_axes w !! a = Some ax ->
  exists c,
    let props := dict_or (matplotlib_text_defaults (annotation_color c kwargs))
                         (delete "color" kwargs) in
    get_font_color (VAxes a) w = (Ok c, w)
    /\ (forall e,
          AnchoredText_error text props = Some e ->
          annotate AnchoredText_error plotly_add_annotation text (VAxes a) kwargs w
          = (Raise e, w))
    /\ (AnchoredText_error text props = None ->
        exists w' ax',
          annotate AnchoredText_error plotly_add_annotation text (VAxes a) kwargs w
          = (Ok (VAxes a), w')
          /\ w_axes w' !! a = Some ax'
          /\ ax_artists ax' = (ax_artists ax ++ [(text, props)])%list
          /\ ax_xlim ax' = ax_xlim ax /\ ax_ylim ax' = ax_ylim ax
          /\ (forall a', a' <> a -> w_axes w' !! a' = w_axes w !! a')
          /\ w_figs w' = w_figs w /\ w_gofigs w' = w_gofigs w /\ w_gcf w' = w_gcf w)
    /\ props !! "color" = None
    /\ (forall k v, k <> "color" -> kwargs !! k = Some v -> props !! k = Some v)
    /\ (kwargs !! "loc" = None -> props !! "loc" = Some (VStr "upper left"))
    /\ (kwargs !! "prop" = None ->
        props !! "prop" = Some (VDict [("color", annotation_color c kwargs)])).
Proof.
  intros Hax.
  destruct (get_font_color_Axes_total ax (w_rc_text_color w)) as [c Hc].
  specialize (Hc a w Hax eq_refl).
  destruct (anchored_text_props (annotation_color c kwargs) kwargs)
    as (P1 & P2 & _ & P4 & P5).
  pose proof (annotate_Axes AnchoredText_error plotly_add_annotation
                text a kwargs w ax c Hax Hc) as Hann.
  cbv zeta in Hann.
  exists c. cbv zeta.
  split; [exact Hc|].
  split; [intros e He; now rewrite Hann, He|].
  split.
  { intros Hnone. rewrite Hnone in Hann. do 2 eexists.
    split; [exact Hann|].
    split; [apply lookup_insert_eq|].
    split; [reflexivity|]. split; [reflexivity|]. split; [reflexivity|].
    split; [intros a' Ha'; simpl; now rewrite lookup_insert_ne by congruence|].
    split; [reflexivity|]. split; reflexivity. }
  split; [exact P1|]. split; [exact P2|]. split; [exact P4 | exact P5].
Qed.

(** A text box in the lower right of the axes with the red title; and a
    keyword matplotlib does not know. *)
Lemma annotate_axes_adds_artist_witness :
  (exists w' ax',
     annotate AnchoredText_basic add_annotation_basic
       (VStr "R2 = 0.9") (VAxes 1%nat) {["loc" := VStr "lower right"]} world_figures
     = (Ok (VAxes 1%nat), w')
     /\ w_axes w' !! 1%nat = Some ax'
     /\ ax_artists ax'
        = [(VStr "R2 = 0.9",
            <["prop" := VDict [("color", VStr "red")]]>
              (<["loc" := VStr "lower right"]> (<["frameon" := VBool false]> ∅)))])
  /\ annotate AnchoredText_basic add_annotation_basic
       (VStr "R2 = 0.9") (VAxes 1%nat) {["bogus" := VInt 1]} world_figures
     = (Raise (HostError "AttributeError"), world_figures).
Proof.
  destruct (annotate_axes_adds_artist AnchoredText_basic add_annotation_basic
              (VStr "R2 = 0.9") 1%nat {["loc" := VStr "lower right"]} world_figures
              axes_red_title eq_refl) as (c & Hc & _ & Hok & _).
  destruct (annotate_axes_adds_artist AnchoredText_basic add_annotation_basic
              (VStr "R2 = 0.9") 1%nat {["bogus" := VInt 1]} world_figures
              axes_red_title eq_refl) as (c' & Hc' & Hbad & _).
  assert (Ec : c = "red") by (vm_compute in Hc; congruence).
  assert (Ec' : c' = "red") by (vm_compute in Hc'; congruence).
  subst c c'. split.
  - destruct (Hok eq_refl) as (w' & ax' & H1 & H2 & H3 & _).
    exists w', ax'. split; [exact H1|]. split; [exact H2|].
    rewrite H3. vm_compute. reflexivity.
  - apply Hbad. reflexivity.
Defined.

(** X7. Given a matplotlib Figure, [annotate] reads the font colour from the
    current axes of that figure but adds the text box to the current
    axes of pyplot's current figure; when the two figures differ, the
    figure passed in is left without the annotation.  When matplotlib
    refuses the keywords, nothing is added anywhere. *)
Theorem annotate_figure_uses_pyplot_axes AnchoredText_error plotly_add_annotation
    (text : pyval) (r r2 a1 a2 : ref)
    (kwargs : pydict) (w : World) (ax1 ax2 : Axes) :
  w_figs w !! r = Some (mkFigure (Some a1)) ->
  w_axes w !! a1 = Some ax1 ->
  w_gcf w = Some r2 ->
  w_figs w !! r2 = Some (mkFigure (Some a2)) ->
  w_axes w !! a2 = Some ax2 ->
  exists c,
    let props := dict_or (matplotlib_text_defaults (annotation_color c kwargs))
                         (delete "color" kwargs) in
    get_font_color (VAxes a1) w = (Ok c, w)
    /\ (forall e,
          AnchoredText_error text props = Some e ->
          annotate AnchoredText_error plotly_add_annotation text (VFigure r) kwargs w
          = (Raise e, w))
    /\ (AnchoredText_error text props = None ->
        exists w' ax2',
          annotate AnchoredText_error plotly_add_annotation text (VFigure r) kwargs w
          = (Ok (VFigure r), w')
          /\ w_axes w' !! a2 = Some ax2'
          /\ ax_artists ax2' = (ax_artists ax2 ++ [(text, props)])%list
          /\ (a1 <> a2 -> w_axes w' !! a1 = Some ax1)).
Proof.
  intros Hf Hax1 Hg Hf2 Hax2.
  destruct (get_font_color_Axes_total ax1 (w_rc_text_color w)) as [c Hc].
  specialize (Hc a1 w Hax1 eq_refl).
  exists c. cbv zeta.
  assert (Hann :
    annotate AnchoredText_error plotly_add_annotation text (VFigure r) kwargs w
    = match AnchoredText_error text
              (dict_or (matplotlib_text_defaults (annotation_color c kwargs))
                       (delete "color" kwargs)) with
      | Some e => (Raise e, w)
      | None =>
          (Ok (VFigure r),
           set_axes w
             (<[a2 := mkAxes (ax_xlim ax2) (ax_ylim ax2) (ax_xlabel_color ax2)
                        (ax_ylabel_color ax2) (ax_title_color ax2)
                        (ax_xticklabel_colors ax2)
                        (ax_artists ax2
                         ++ [(text,
                              dict_or (matplotlib_text_defaults
                                         (annotation_color c kwargs))
                                      (delete "color" kwargs))])]>
                (w_axes w)))
      end).
  { unfold annotate, bind.
    rewrite (get_font_color_Figure r w _ Hf). cbn [fig_current_axes].
    rewrite Hc. cbn [isinstance_mpl]. cbv zeta.
    unfold plt_gca, plt_gcf, bind, Figure_gca.
    rewrite Hg, Hf2. cbn [fig_current_axes].
    unfold AnchoredText, annotation_color.
    destruct (AnchoredText_error text _) as [e|]; [reflexivity|].
    unfold ret, Axes_add_artist. now rewrite Hax2. }
  split; [exact Hc|].
  split; [intros e He; now rewrite Hann, He|].
  intros Hnone. rewrite Hnone in Hann. do 2 eexists.
  split; [exact Hann|].
  split; [apply lookup_insert_eq|].
  split; [reflexivity|].
  intros Hne. simpl. now rewrite lookup_insert_ne by congruence.
Qed.

(** Figure 0 of [world_figures] is annotated while figure 1 is pyplot's
    current figure: the artist lands on the axes of figure 1, in the
    black of the axes of figure 0. *)
Lemma annotate_figure_uses_pyplot_axes_witness :
  exists w' ax2',
    annotate AnchoredText_basic add_annotation_basic
      (VStr "note") (VFigure 0%nat) ∅ world_figures = (Ok (VFigure 0%nat), w')
    /\ w_axes w' !! 1%nat = Some ax2'
    /\ ax_artists ax2'
       = [(VStr "note", matplotlib_text_defaults (VStr "black"))]
    /\ w_axes w' !! 0%nat = Some axes_0_10.
Proof.
  destruct (annotate_figure_uses_pyplot_axes AnchoredText_basic add_annotation_basic
              (VStr "note") 0%nat 1%nat 0%nat 1%nat ∅
              world_figures axes_0_10 axes_red_title
              eq_refl eq_refl eq_refl eq_refl eq_refl) as (c & Hc & _ & Hok).
  assert (Ec : c = "black") by (vm_compute in Hc; congruence).
  subst c.
  destruct (Hok eq_refl) as (w' & ax2' & H1 & H2 & H3 & H4).
  exists w', ax2'. split; [exact H1|]. split; [exact H2|].
  split; [rewrite H3; vm_compute; reflexivity|].
  apply H4. discriminate.
Defined.

(** ** Annotating plotly figures, further *)

Lemma plotly_text_defaults_keys (color : pyval) (k : string) :
  k <> "x" -> k <> "y" -> k <> "showarrow" -> k <> "font" -> k <> "align" ->
  plotly_text_defaults color !! k = None.
Proof.
  intros. unfold plotly_text_defaults.
  repeat (rewrite lookup_insert_ne by congruence). apply lookup_empty.
Qed.

(** The keywords of an annotation: the text, then the caller's keywords
    without ["color"], then the defaults, then the reference axes. *)
Lemma annotation_props (color text : pyval) (kwargs : pydict) (xref yref : string) :
  let a := <["text" := text]>
             (dict_or (dict_or (ref_dict xref yref) (plotly_text_defaults color))
                      (delete "color" kwargs)) in
  a !! "text" = Some text
  /\ a !! "color" = None
  /\ (forall k v, k <> "text" -> k <> "color" -> kwargs !! k = Some v ->
                  a !! k = Some v)
  /\ (kwargs !! "xref" = None -> a !! "xref" = Some (VStr xref))
  /\ (kwargs !! "yref" = None -> a !! "yref" = Some (VStr yref))
  /\ (kwargs !! "font" = None ->
      a !! "font" = Some (VDict [("size", VInt 16); ("color", color)])).
Proof.
  cbv zeta. unfold dict_or, ref_dict.
  split; [apply lookup_insert_eq|].
  split; [|split; [|split; [|split]]].
  - rewrite lookup_insert_ne by discriminate.
    apply lookup_union_None. split; [apply lookup_delete_eq|].
    apply lookup_union_None. split.
    + apply plotly_text_defaults_keys; discriminate.
    + repeat (rewrite lookup_insert_ne by discriminate). apply lookup_empty.
  - intros k v Ht Hc Hv. rewrite lookup_insert_ne by congruence.
    apply lookup_union_Some_l. now rewrite lookup_delete_ne by congruence.
  - intros H. rewrite lookup_insert_ne by discriminate.
    rewrite lookup_union_r
      by (rewrite lookup_delete_ne by discriminate; exact H).
    rewrite lookup_union_r by (apply plotly_text_defaults_keys; discriminate).
    rewrite lookup_insert_ne by discriminate. apply lookup_insert_eq.
  - intros H. rewrite lookup_insert_ne by discriminate.
    rewrite lookup_union_r
      by (rewrite lookup_delete_ne by discriminate; exact H).
    rewrite lookup_union_r by (apply plotly_text_defaults_keys; discriminate).
    apply lookup_insert_eq.
  - intros H. rewrite lookup_insert_ne by discriminate.
    rewrite lookup_union_r
      by (rewrite lookup_delete_ne by discriminate; exact H).
    apply lookup_union_Some_l. unfold plotly_text_defaults.
    rewrite lookup_insert_ne by discriminate. apply lookup_insert_eq.
Qed.

(** X8. On a plotly figure that is not faceted, a figure without traces
    included, a string (the empty one as well) makes exactly one call of
    [fig.add_annotation]: with the text, the reference "paper" for both
    axes unless the caller says otherwise, the caller's keywords over
    the defaults, and ["color"] in the font, never as a keyword of its
    own.  What plotly makes of the figure is what the figure becomes,
    and the handle is returned; what plotly raises, [annotate] raises,
    with the store as before.  When plotly takes the keywords for an
    annotation, the figure has that one annotation more, after those it
    had: the traces and every other figure stay as they were. *)
Theorem annotate_non_faceted_str AnchoredText_error plotly_add_annotation
    (s : string) (r : ref) (kwargs : pydict) (w : World) (f : GoFigure) (c : string) :
  w_gofigs w !! r = Some f ->
  is_faceted f = false ->
  plotly_font_color f w = Ok c ->
  let a := paper_annotation (plotly_text_defaults (annotation_color c kwargs))
             (delete "color" kwargs) (VStr s) in
  (forall f',
      plotly_add_annotation f a = Ok f' ->
      annotate AnchoredText_error plotly_add_annotation (VStr s) (VGoFigure r) kwargs w
      = (Ok (VGoFigure r), set_gofigs w (<[r := f']> (w_gofigs w))))
  /\ (forall e,
      plotly_add_annotation f a = Raise e ->
      annotate AnchoredText_error plotly_add_annotation (VStr s) (VGoFigure r) kwargs w
      = (Raise e, w))
  /\ (appends_annotation plotly_add_annotation a ->
      exists w' f',
        annotate AnchoredText_error plotly_add_annotation (VStr s) (VGoFigure r)
          kwargs w = (Ok (VGoFigure r), w')
        /\ w_gofigs w' !! r = Some f'
        /\ lay_annotations (go_layout f')
           = (lay_annotations (go_layout f) ++ [a])%list
        /\ go_data f' = go_data f
        /\ (forall r', r' <> r -> w_gofigs w' !! r' = w_gofigs w !! r')
        /\ w_axes w' = w_axes w /\ w_figs w' = w_figs w)
  /\ a !! "text" = Some (VStr s)
  /\ a !! "color" = None
  /\ (forall k v, k <> "text" -> k <> "color" -> kwargs !! k = Some v ->
                  a !! k = Some v)
  /\ (kwargs !! "xref" = None -> a !! "xref" = Some (VStr "paper"))
  /\ (kwargs !! "yref" = None -> a !! "yref" = Some (VStr "paper"))
  /\ (kwargs !! "font" = None ->
      a !! "font"
      = Some (VDict [("size", VInt 16); ("color", annotation_color c kwargs)])).
Proof.
  intros Hf Hfac Hc. cbv zeta.
  destruct (annotation_props (annotation_color c kwargs) (VStr s) kwargs
              "paper" "paper") as (P1 & P2 & P3 & P4 & P5 & P6).
  pose proof (annotate_plotly AnchoredText_error plotly_add_annotation
                (VStr s) r kwargs w f c Hf Hc) as Hann.
  cbv zeta in Hann. rewrite Hfac in Hann. cbn [isinstance_str negb] in Hann.
  assert (Hok : forall f',
      plotly_add_annotation f
        (paper_annotation (plotly_text_defaults (annotation_color c kwargs))
           (delete "color" kwargs) (VStr s)) = Ok f' ->
      annotate AnchoredText_error plotly_add_annotation (VStr s) (VGoFigure r) kwargs w
      = (Ok (VGoFigure r), set_gofigs w (<[r := f']> (w_gofigs w)))).
  { intros f' Hf'. rewrite Hann.
    now rewrite (add_annotation_ok plotly_add_annotation _ _ _ f f' Hf Hf'). }
  split; [exact Hok|].
  split.
  { intros e He. rewrite Hann.
    now rewrite (add_annotation_raises plotly_add_annotation _ _ _ f e Hf He). }
  split.
  { intros Hacc. do 2 eexists.
    split; [exact (Hok _ (Hacc f))|].
    split; [apply lookup_insert_eq|].
    split; [reflexivity|]. split; [reflexivity|].
    split; [intros r' Hr'; simpl; now rewrite lookup_insert_ne by congruence|].
    split; reflexivity. }
  split; [exact P1|]. split; [exact P2|]. split; [exact P3|].
  split; [exact P4|]. split; [exact P5 | exact P6].
Qed.

(** The empty string on the figure without traces, with a caller's
    colour and position; and a keyword that is no property of an
    annotation. *)
Lemma annotate_non_faceted_str_witness :
  (exists w' f',
     annotate AnchoredText_basic add_annotation_basic (VStr "") (VGoFigure 0%nat)
       (<["x" := VFloat 0.5]> {["color" := VStr "red"]}) world_styled
     = (Ok (VGoFigure 0%nat), w')
     /\ w_gofigs w' !! 0%nat = Some f'
     /\ lay_annotations (go_layout f')
        = [paper_annotation (plotly_text_defaults (VStr "red"))
             {["x" := VFloat 0.5]} (VStr "")]
     /\ go_data f' = [])
  /\ annotate AnchoredText_basic add_annotation_basic (VStr "note") (VGoFigure 0%nat)
       {["bogus" := VInt 1]} world_styled
     = (Raise ValueError, world_styled).
Proof.
  destruct (annotate_non_faceted_str AnchoredText_basic add_annotation_basic
              "" 0%nat (<["x" := VFloat 0.5]> {["color" := VStr "red"]})
              world_styled fig_dark "white" eq_refl eq_refl eq_refl)
    as (_ & _ & Hok & _).
  destruct (annotate_non_faceted_str AnchoredText_basic add_annotation_basic
              "note" 0%nat {["bogus" := VInt 1]}
              world_styled fig_dark "white" eq_refl eq_refl eq_refl)
    as (_ & Hbad & _).
  split.
  - destruct Hok as (w' & f' & H1 & H2 & H3 & H4 & _).
    { intros g. vm_compute. reflexivity. }
    exists w', f'. split; [exact H1|]. split; [exact H2|].
    split; [rewrite H3; vm_compute; reflexivity | exact H4].
  - apply Hbad. vm_compute. reflexivity.
Defined.

Lemma fold_push_annotation (l : list pydict) : forall f,
  lay_annotations (go_layout (fold_left push_annotation l f))
  = (lay_annotations (go_layout f) ++ l)%list
  /\ go_data (fold_left push_annotation l f) = go_data f.
Proof.
  induction l as [|a l IH]; intros f; simpl.
  - now rewrite app_nil_r.
  - destruct (IH (push_annotation f a)) as [-> ->]. simpl.
    now rewrite <- app_assoc.
Qed.

(** The text and reference axes an annotation of a trace shows. *)
Lemma annotation_refs_after (w : World) (r : ref) (f : GoFigure)
    (color : pyval) (kw : pydict) (new : list (string * pyval)) :
  w_gofigs w !! r = Some f ->
  kw !! "xref" = None -> kw !! "yref" = None ->
  annotation_refs
    (set_gofigs w
       (<[r := fold_left push_annotation
                 (map (fun p => facet_annotation (plotly_text_defaults color) kw
                                  (fst p) (snd p)) new) f]>
          (w_gofigs w))) r
  = (annotation_refs w r
     ++ map (fun p => (Some (snd p),
                       Some (VStr ("x" ++ py_tail (fst p) ++ " domain")),
                       Some (VStr ("y" ++ py_tail (fst p) ++ " domain")))) new)%list.
Proof.
  intros Hf Hx Hy. unfold annotation_refs. simpl.
  rewrite lookup_insert_eq, Hf.
  destruct (fold_push_annotation
              (map (fun p => facet_annotation (plotly_text_defaults color) kw
                               (fst p) (snd p)) new) f) as [-> _].
  rewrite map_app. f_equal. rewrite map_map. apply map_ext.
  intros [xaxis sub]. simpl.
  destruct (facet_annotation_refs color kw xaxis sub Hx Hy) as (-> & -> & ->).
  reflexivity.
Qed.

Lemma delete_color_None (kwargs : pydict) (k : string) :
  kwargs !! k = None -> delete "color" kwargs !! k = None.
Proof.
  intros H. destruct (decide (k = "color")) as [->|Hne].
  - apply lookup_delete_eq.
  - now rewrite lookup_delete_ne by congruence.
Qed.

(** X9. On a faceted figure whose traces all name their x-axis, a list with
    one text per trace, each annotation of which plotly takes, is
    attached as one annotation per trace with a non-empty text, in the
    order of the traces and after the annotations the figure has; each
    refers to the domain of the axes of its trace (the suffix of the
    axis name, none for "x") unless the caller gives [xref] or [yref];
    every other figure stays as it was. *)
Theorem annotate_faceted_list_refs AnchoredText_error plotly_add_annotation
    (texts : list pyval) (r : ref) (kwargs : pydict)
    (w : World) (f : GoFigure) (axes : list string) (c : string) :
  w_gofigs w !! r = Some f ->
  plotly_font_color f w = Ok c ->
  is_faceted f = true ->
  map tr_xaxis (go_data f) = map (fun a => Attr (Some a)) axes ->
  length texts = length (go_data f) ->
  kwargs !! "xref" = None -> kwargs !! "yref" = None ->
  Forall (appends_annotation plotly_add_annotation)
         (facet_annotations (plotly_text_defaults (annotation_color c kwargs))
            (delete "color" kwargs) axes texts) ->
  exists w',
    annotate AnchoredText_error plotly_add_annotation (VList texts) (VGoFigure r)
      kwargs w = (Ok (VGoFigure r), w')
    /\ annotation_refs w' r
       = (annotation_refs w r
          ++ map (fun p => (Some (snd p),
                            Some (VStr ("x" ++ py_tail (fst p) ++ " domain")),
                            Some (VStr ("y" ++ py_tail (fst p) ++ " domain"))))
                 (List.filter (fun p => truthy (snd p)) (combine axes texts)))%list
    /\ (forall r', r' <> r -> w_gofigs w' !! r' = w_gofigs w !! r').
Proof.
  intros Hf Hc Hfac Hax Hlen Hx Hy Hacc. eexists.
  split; [exact (annotate_faceted_sequence AnchoredText_error plotly_add_annotation
                   texts r kwargs w f axes c Hf Hc Hfac Hax Hlen Hacc)|].
  split.
  - unfold facet_annotations.
    apply annotation_refs_after; [exact Hf | |]; now apply delete_color_None.
  - intros r' Hr'. simpl. now rewrite lookup_insert_ne by congruence.
Qed.

Lemma annotate_faceted_list_refs_witness :
  exists w',
    annotate AnchoredText_basic add_annotation_basic
      (VList [VStr ""; VStr "right"]) (VGoFigure 2%nat) ∅ world_plotly
    = (Ok (VGoFigure 2%nat), w')
    /\ annotation_refs w' 2%nat
       = (annotation_refs world_plotly 2%nat
          ++ map (fun p => (Some (snd p),
                            Some (VStr ("x" ++ py_tail (fst p) ++ " domain")),
                            Some (VStr ("y" ++ py_tail (fst p) ++ " domain"))))
                 (List.filter (fun p => truthy (snd p))
                    (combine ["x"; "x2"] [VStr ""; VStr "right"])))%list
    /\ (forall r', r' <> 2%nat -> w_gofigs w' !! r' = w_gofigs world_plotly !! r').
Proof.
  apply (annotate_faceted_list_refs AnchoredText_basic add_annotation_basic
           [VStr ""; VStr "right"] 2%nat ∅ world_plotly
           fig_subplots ["x"; "x2"] "#2a3f5f"); try reflexivity.
  repeat constructor.
Defined.

(** X10. With one non-empty string for [text], a faceted figure whose traces
    all name their x-axis gets that string once per trace, two traces on
    the same axes giving two annotations on them, provided plotly takes
    the annotations. *)
Theorem annotate_faceted_string_refs AnchoredText_error plotly_add_annotation
    (s : string) (r : ref) (kwargs : pydict)
    (w : World) (f : GoFigure) (axes : list string) (c : string) :
  w_gofigs w !! r = Some f ->
  plotly_font_color f w = Ok c ->
  is_faceted f = true ->
  map tr_xaxis (go_data f) = map (fun a => Attr (Some a)) axes ->
  s <> "" ->
  kwargs !! "xref" = None -> kwargs !! "yref" = None ->
  Forall (appends_annotation plotly_add_annotation)
         (map (fun xaxis =>
                 facet_annotation (plotly_text_defaults (annotation_color c kwargs))
                   (delete "color" kwargs) xaxis (VStr s)) axes) ->
  exists w',
    annotate AnchoredText_error plotly_add_annotation (VStr s) (VGoFigure r) kwargs w
    = (Ok (VGoFigure r), w')
    /\ annotation_refs w' r
       = (annotation_refs w r
          ++ map (fun xaxis => (Some (VStr s),
                                Some (VStr ("x" ++ py_tail xaxis ++ " domain")),
                                Some (VStr ("y" ++ py_tail xaxis ++ " domain"))))
                 axes)%list
    /\ length (annotation_refs w' r)
       = (length (annotation_refs w r) + length (go_data f))%nat.
Proof.
  intros Hf Hc Hfac Hax Hs Hx Hy Hacc. eexists.
  split; [exact (annotate_faceted_string AnchoredText_error plotly_add_annotation
                   s r kwargs w f axes c Hf Hc Hfac Hax Hs Hacc)|].
  assert (Hrefs :
    annotation_refs
      (set_gofigs w
         (<[r := fold_left push_annotation
                   (map (fun xaxis =>
                           facet_annotation
                             (plotly_text_defaults (annotation_color c kwargs))
                             (delete "color" kwargs) xaxis (VStr s)) axes) f]>
            (w_gofigs w))) r
    = (annotation_refs w r
       ++ map (fun xaxis => (Some (VStr s),
                             Some (VStr ("x" ++ py_tail xaxis ++ " domain")),
                             Some (VStr ("y" ++ py_tail xaxis ++ " domain"))))
              axes)%list).
  { pose proof (annotation_refs_after w r f (annotation_color c kwargs)
                  (delete "color" kwargs) (map (fun xaxis => (xaxis, VStr s)) axes)
                  Hf (delete_color_None _ _ Hx) (delete_color_None _ _ Hy)) as H.
    rewrite !map_map in H. exact H. }
  split; [exact Hrefs|].
  rewrite Hrefs, length_app, length_map. f_equal.
  rewrite <- (length_map (fun a => Attr (Some a)) axes), <- Hax. apply length_map.
Qed.

Lemma annotate_faceted_string_refs_witness :
  exists w',
    annotate AnchoredText_basic add_annotation_basic
      (VStr "note") (VGoFigure 2%nat) ∅ world_plotly = (Ok (VGoFigure 2%nat), w')
    /\ annotation_refs w' 2%nat
       = (annotation_refs world_plotly 2%nat
          ++ map (fun xaxis => (Some (VStr "note"),
                                Some (VStr ("x" ++ py_tail xaxis ++ " domain")),
                                Some (VStr ("y" ++ py_tail xaxis ++ " domain"))))
                 ["x"; "x2"])%list
    /\ length (annotation_refs w' 2%nat)
       = (length (annotation_refs world_plotly 2%nat) + length (go_data fig_subplots))%nat.
Proof.
  apply (annotate_faceted_string_refs AnchoredText_basic add_annotation_basic
           "note" 2%nat ∅ world_plotly fig_subplots ["x"; "x2"] "#2a3f5f");
    try reflexivity; [discriminate|].
  repeat constructor.
Defined.

(** A round of the loop whose text cannot be fetched stops there. *)
Lemma annotate_trace_no_text plotly_add_annotation (text : pyval) (r : ref)
    (td kw : pydict) (idx : Z) (trace : Trace) (e : exn) (w : World) :
  isinstance_str text = false ->
  py_getitem text idx = Raise e ->
  annotate_trace plotly_add_annotation text r td kw idx trace w = (Raise e, w).
Proof.
  intros Hstr He. unfold annotate_trace, bind, lift. now rewrite Hstr, He.
Qed.

(** A round of the loop on a text that is empty changes nothing,
    whatever the trace. *)
Lemma annotate_trace_skip plotly_add_annotation (text : pyval) (r : ref)
    (td kw : pydict) (idx : Z) (trace : Trace) (sub : pyval) (w : World) :
  (if isinstance_str text then Ok text else py_getitem text idx) = Ok sub ->
  truthy sub = false ->
  annotate_trace plotly_add_annotation text r td kw idx trace w = (Ok tt, w).
Proof.
  intros Hsub Hfalsy. unfold annotate_trace, bind.
  assert (Hs : (if isinstance_str text then ret text else lift (py_getitem text idx)) w
               = (Ok sub, w)).
  { destruct (isinstance_str text); unfold ret, lift; now rewrite <- Hsub. }
  rewrite Hs, Hfalsy. reflexivity.
Qed.

(** The loop over traces that name their axis, with fewer texts than
    traces: the texts there are get attached, then fetching the next one
    fails. *)
Lemma for_enumerate_annotate_short plotly_add_annotation (text : pyval) (r : ref)
    (td kw : pydict) (e : exn) :
  isinstance_str text = false ->
  forall (traces : list Trace) (axes : list string) (subs : list pyval)
         (idx : Z) (w : World) (f : GoFigure),
    map tr_xaxis traces = map (fun a => Attr (Some a)) axes ->
    (length subs < length traces)%nat ->
    (forall i sub, nth_error subs i = Some sub ->
       py_getitem text (idx + Z.of_nat i) = Ok sub) ->
    py_getitem text (idx + Z.of_nat (length subs)) = Raise e ->
    Forall (appends_annotation plotly_add_annotation)
           (facet_annotations td kw axes subs) ->
    w_gofigs w !! r = Some f ->
    for_enumerate (annotate_trace plotly_add_annotation text r td kw) idx traces w
    = (Raise e,
       set_gofigs w
         (<[r := fold_left push_annotation (facet_annotations td kw axes subs) f]>
            (w_gofigs w))).
Proof.
  intros Hstr.
  induction traces as [|trace traces IH];
    intros axes subs idx w f Hax Hlen Hsub Hfail Hacc Hf; [simpl in Hlen; lia|].
  destruct axes as [|xaxis axes]; [discriminate|].
  simpl in Hax. injection Hax as Hx Hax.
  cbn [for_enumerate]. unfold bind at 1.
  destruct subs as [|sub subs].
  - simpl in Hfail. rewrite Z.add_0_r in Hfail.
    rewrite (annotate_trace_no_text _ text r td kw idx trace e w Hstr Hfail).
    unfold facet_annotations. simpl. now rewrite set_gofigs_id.
  - simpl in Hlen.
    assert (H0 : (if isinstance_str text then Ok text else py_getitem text idx)
                 = Ok sub).
    { rewrite Hstr. specialize (Hsub 0%nat sub eq_refl).
      now rewrite Z.add_0_r in Hsub. }
    assert (HS : forall i s, nth_error subs i = Some s ->
                 py_getitem text (idx + 1 + Z.of_nat i) = Ok s).
    { intros i s Hi. specialize (Hsub (S i) s Hi).
      now replace (idx + 1 + Z.of_nat i) with (idx + Z.of_nat (S i)) by lia. }
    assert (HF : py_getitem text (idx + 1 + Z.of_nat (length subs)) = Raise e).
    { now replace (idx + 1 + Z.of_nat (length subs))
        with (idx + Z.of_nat (length (sub :: subs))) by (simpl; lia). }
    rewrite (annotate_trace_step _ text r td kw idx trace xaxis sub w Hx H0).
    rewrite facet_annotations_cons in Hacc |- *.
    destruct (truthy sub).
    + apply Forall_cons_iff in Hacc as [Hacc1 Hacc].
      rewrite (add_annotation_ok _ _ _ _ f _ Hf (Hacc1 f)).
      rewrite (IH axes subs (idx + 1) _
                 (push_annotation f (facet_annotation td kw xaxis sub))
                 Hax ltac:(lia) HS HF Hacc); [|simpl; apply lookup_insert_eq].
      simpl. unfold set_gofigs at 1. simpl. now rewrite insert_insert_eq.
    + now rewrite (IH axes subs (idx + 1) w f Hax ltac:(lia) HS HF Hacc Hf).
Qed.

Lemma py_getitem_list (texts : list pyval) (i : nat) :
  py_getitem (VList texts) (Z.of_nat i)
  = match nth_error texts i with
    | Some sub => Ok sub
    | None => Raise IndexError
    end.
Proof.
  cbn [py_getitem]. unfold py_index. cbv zeta.
  assert (E : (Z.of_nat i <? 0) = false) by (apply Z.ltb_ge; lia).
  rewrite !E. cbn [orb]. rewrite Nat2Z.id.
  destruct (Z.leb_spec (Z.of_nat (length texts)) (Z.of_nat i)) as [H|H].
  - assert (Hn : nth_error texts i = None) by (apply nth_error_None; lia).
    now rewrite Hn.
  - reflexivity.
Qed.

(** X11. A list with fewer texts than the faceted figure has traces (all
    naming their x-axis) makes [annotate] raise [IndexError], but not
    before the texts there are have been attached to the first traces
    (plotly taking them): the figure keeps those annotations. *)
Theorem annotate_faceted_short_list AnchoredText_error plotly_add_annotation
    (texts : list pyval) (r : ref) (kwargs : pydict)
    (w : World) (f : GoFigure) (axes : list string) (c : string) :
  w_gofigs w !! r = Some f ->
  plotly_font_color f w = Ok c ->
  is_faceted f = true ->
  map tr_xaxis (go_data f) = map (fun a => Attr (Some a)) axes ->
  (length texts < length (go_data f))%nat ->
  kwargs !! "xref" = None -> kwargs !! "yref" = None ->
  Forall (appends_annotation plotly_add_annotation)
         (facet_annotations (plotly_text_defaults (annotation_color c kwargs))
            (delete "color" kwargs) axes texts) ->
  exists w',
    annotate AnchoredText_error plotly_add_annotation (VList texts) (VGoFigure r)
      kwargs w = (Raise IndexError, w')
    /\ annotation_refs w' r
       = (annotation_refs w r
          ++ map (fun p => (Some (snd p),
                            Some (VStr ("x" ++ py_tail (fst p) ++ " domain")),
                            Some (VStr ("y" ++ py_tail (fst p) ++ " domain"))))
                 (List.filter (fun p => truthy (snd p)) (combine axes texts)))%list.
Proof.
  intros Hf Hc Hfac Hax Hlen Hx Hy Hacc. eexists. split.
  - rewrite (annotate_plotly _ _ _ _ _ _ f c Hf Hc). cbv zeta. rewrite Hfac.
    rewrite (for_enumerate_annotate_short _ (VList texts) r _ _ IndexError eq_refl
               (go_data f) axes texts 0 w f Hax Hlen); [reflexivity | | | exact Hacc | exact Hf].
    + intros i sub Hi. rewrite Z.add_0_l, py_getitem_list. now rewrite Hi.
    + rewrite Z.add_0_l, py_getitem_list.
      assert (Hn : nth_error texts (length texts) = None)
        by (apply nth_error_None; lia).
      now rewrite Hn.
  - unfold facet_annotations.
    apply annotation_refs_after; [exact Hf | |]; now apply delete_color_None.
Qed.

(** One text for the two traces of [fig_subplots]: the first trace is
    annotated and the call fails on the second. *)
Lemma annotate_faceted_short_list_witness :
  (exists w',
     annotate AnchoredText_basic add_annotation_basic
       (VList [VStr "left"]) (VGoFigure 2%nat) ∅ world_plotly
     = (Raise IndexError, w')
     /\ annotation_refs w' 2%nat
        = (annotation_refs world_plotly 2%nat
           ++ map (fun p => (Some (snd p),
                             Some (VStr ("x" ++ py_tail (fst p) ++ " domain")),
                             Some (VStr ("y" ++ py_tail (fst p) ++ " domain"))))
                  (List.filter (fun p => truthy (snd p))
                     (combine ["x"; "x2"] [VStr "left"])))%list)
  /\ annotation_refs
       (snd (annotate AnchoredText_basic add_annotation_basic
               (VList [VStr "left"]) (VGoFigure 2%nat) ∅ world_plotly)) 2%nat
     = [(Some (VStr "left"), Some (VStr "x domain"), Some (VStr "y domain"))].
Proof.
  split.
  - apply (annotate_faceted_short_list AnchoredText_basic add_annotation_basic
             [VStr "left"] 2%nat ∅ world_plotly
             fig_subplots ["x"; "x2"] "#2a3f5f"); try reflexivity.
    + simpl. lia.
    + repeat constructor.
  - vm_compute. reflexivity.
Defined.

(** The loop attaches nothing when every text it fetches is empty. *)
Lemma for_enumerate_skip plotly_add_annotation (text : pyval) (r : ref)
    (td kw : pydict) :
  forall (traces : list Trace) (idx : Z) (w : World),
    (forall i, (i < length traces)%nat ->
       exists sub,
         (if isinstance_str text then Ok text
          else py_getitem text (idx + Z.of_nat i)) = Ok sub
         /\ truthy sub = false) ->
    for_enumerate (annotate_trace plotly_add_annotation text r td kw) idx traces w
    = (Ok tt, w).
Proof.
  induction traces as [|trace traces IH]; intros idx w H; [reflexivity|].
  cbn [for_enumerate]. unfold bind at 1.
  destruct (H 0%nat ltac:(simpl; lia)) as (sub & Hsub & Hfalsy).
  rewrite Z.add_0_r in Hsub.
  rewrite (annotate_trace_skip _ text r td kw idx trace sub w Hsub Hfalsy).
  apply IH. intros i Hi.
  destruct (H (S i) ltac:(simpl; lia)) as (s & Hs & Hf).
  exists s. split; [|exact Hf].
  now replace (idx + 1 + Z.of_nat i) with (idx + Z.of_nat (S i)) by lia.
Qed.

(** X12. On a faceted figure, the empty string, or a list that holds an
    empty text for every trace, attaches nothing and asks plotly
    nothing: once the font colour of the figure is found the call
    succeeds, the store is as before, and when the font colour is not
    found the call fails as that lookup does.  This holds for every
    faceted figure, also one with a trace that leaves its x-axis unset
    or has none, since a trace without text is skipped before its axis
    is looked at. *)
Theorem annotate_faceted_nothing_to_attach AnchoredText_error plotly_add_annotation
    (text : pyval) (r : ref) (kwargs : pydict) (w : World) (f : GoFigure) :
  w_gofigs w !! r = Some f ->
  is_faceted f = true ->
  text = VStr ""
  \/ (exists texts, text = VList texts
                    /\ (length (go_data f) <= length texts)%nat
                    /\ forallb (fun t => negb (truthy t)) texts = true) ->
  annotate AnchoredText_error plotly_add_annotation text (VGoFigure r) kwargs w
  = (match plotly_font_color f w with
     | Ok _ => Ok (VGoFigure r)
     | Raise e => Raise e
     end, w).
Proof.
  intros Hf Hfac Htext.
  destruct (plotly_font_color f w) as [c|e] eqn:Hc;
    [|now apply (annotate_plotly_no_color _ _ _ _ _ _ f e Hf)].
  rewrite (annotate_plotly _ _ _ _ _ _ f c Hf Hc). cbv zeta. rewrite Hfac.
  rewrite for_enumerate_skip; [reflexivity|].
  intros i Hi. destruct Htext as [-> | (texts & -> & Hlen & Hall)].
  - exists (VStr ""). split; reflexivity.
  - cbn [isinstance_str]. rewrite Z.add_0_l, py_getitem_list.
    destruct (nth_error texts i) as [sub|] eqn:E.
    + exists sub. split; [reflexivity|].
      rewrite forallb_forall in Hall.
      apply negb_true_iff, Hall. now apply nth_error_In in E.
    + apply nth_error_None in E. lia.
Qed.

(** On the figure whose first trace leaves its x-axis unset: no text at
    all, and an empty text for each trace; the same with no default
    template. *)
Lemma annotate_faceted_nothing_to_attach_witness :
  annotate AnchoredText_basic add_annotation_basic
    (VStr "") (VGoFigure 1%nat) ∅ world_plotly
  = (Ok (VGoFigure 1%nat), world_plotly)
  /\ annotate AnchoredText_basic add_annotation_basic
       (VList [VStr ""; VNone; VStr "spare"]) (VGoFigure 1%nat) ∅ world_plotly
     = (Ok (VGoFigure 1%nat), world_plotly)
  /\ annotate AnchoredText_basic add_annotation_basic
       (VStr "") (VGoFigure 1%nat) ∅ world_no_default
     = (Raise (HostError "AttributeError"), world_no_default).
Proof.
  split; [|split].
  - rewrite (annotate_faceted_nothing_to_attach AnchoredText_basic
               add_annotation_basic (VStr "") 1%nat ∅ world_plotly fig_low_level);
      [reflexivity | reflexivity | reflexivity | now left].
  - vm_compute. reflexivity.
  - rewrite (annotate_faceted_nothing_to_attach AnchoredText_basic
               add_annotation_basic (VStr "") 1%nat ∅ world_no_default fig_low_level);
      [reflexivity | reflexivity | reflexivity | now left].
Defined.

(** X22. On a faceted figure the loop reads [xaxis] off every trace that
    has a text.  When the first trace has a non-empty text and leaves
    [xaxis] unset, subscripting [None] is a [TypeError]; when it is of a
    kind that has no [xaxis] at all (a pie trace), reading it is an
    [AttributeError].  Either way plotly is not asked and nothing is
    attached, whatever the other traces are. *)
Theorem annotate_faceted_first_trace_unnamed AnchoredText_error plotly_add_annotation
    (text : pyval) (r : ref) (kwargs : pydict) (w : World) (f : GoFigure)
    (c : string) (trace : Trace) (rest : list Trace) (sub : pyval) :
  w_gofigs w !! r = Some f ->
  plotly_font_color f w = Ok c ->
  is_faceted f = true ->
  go_data f = trace :: rest ->
  (if isinstance_str text then Ok text else py_getitem text 0) = Ok sub ->
  truthy sub = true ->
  (tr_xaxis trace = Attr None ->
   annotate AnchoredText_error plotly_add_annotation text (VGoFigure r) kwargs w
   = (Raise TypeError, w))
  /\ (tr_xaxis trace = Missing ->
      annotate AnchoredText_error plotly_add_annotation text (VGoFigure r) kwargs w
      = (Raise (HostError "AttributeError"), w)).
Proof.
  intros Hf Hc Hfac Hdata Hsub Htruthy.
  assert (Hstep : forall td kw e,
            subplot_idx_of trace = Raise e ->
            annotate_trace plotly_add_annotation text r td kw 0 trace w = (Raise e, w)).
  { intros td kw e He. unfold annotate_trace, bind.
    assert (Hs : (if isinstance_str text then ret text
                  else lift (py_getitem text 0)) w = (Ok sub, w)).
    { destruct (isinstance_str text); unfold ret, lift; now rewrite <- Hsub. }
    rewrite Hs, Htruthy. cbn [negb]. unfold lift. now rewrite He. }
  assert (Hloop : forall e,
            subplot_idx_of trace = Raise e ->
            annotate AnchoredText_error plotly_add_annotation text (VGoFigure r)
              kwargs w = (Raise e, w)).
  { intros e He. rewrite (annotate_plotly _ _ _ _ _ _ f c Hf Hc). cbv zeta.
    rewrite Hfac, Hdata. cbn [for_enumerate]. unfold bind.
    now rewrite (Hstep _ _ e He). }
  split; intros Hx; apply Hloop; unfold subplot_idx_of; now rewrite Hx.
Qed.

(** The figure whose first trace leaves its axis unset, and the figure
    whose first trace is a pie. *)
Lemma annotate_faceted_first_trace_unnamed_witness :
  annotate AnchoredText_basic add_annotation_basic
    (VList [VStr "left"; VStr "right"]) (VGoFigure 1%nat) ∅ world_plotly
  = (Raise TypeError, world_plotly)
  /\ annotate AnchoredText_basic add_annotation_basic
       (VStr "note") (VGoFigure 4%nat) ∅ world_plotly
     = (Raise (HostError "AttributeError"), world_plotly).
Proof.
  split.
  - destruct (annotate_faceted_first_trace_unnamed AnchoredText_basic
                add_annotation_basic (VList [VStr "left"; VStr "right"]) 1%nat ∅
                world_plotly fig_low_level "#2a3f5f" trace_0_10 _ (VStr "left")
                eq_refl eq_refl eq_refl eq_refl eq_refl eq_refl) as (H & _).
    apply H. reflexivity.
  - destruct (annotate_faceted_first_trace_unnamed AnchoredText_basic
                add_annotation_basic (VStr "note") 4%nat ∅
                world_plotly fig_pie "#2a3f5f" Pie _ (VStr "note")
                eq_refl eq_refl eq_refl eq_refl eq_refl eq_refl) as (_ & H).
    apply H. reflexivity.
Defined.

(** ** Luminance and contrast, further *)

Lemma py_strip_rgb_open (body : string) :
  py_strip "rgb()" ("rgb(" ++ body) = py_strip "rgb()" body.
Proof.
  reflexivity.
Qed.

(** X13. The closing parenthesis of an "rgb(" string is optional: its
    components are found by stripping the characters r, g, b and the
    parentheses off both ends, so the string with and without it have the
    same luminance (or fail alike). *)
Theorem luminance_closing_paren_optional py_float to_rgba (body : string) :
  luminance py_float to_rgba (VStr ("rgb(" ++ body))
  = luminance py_float to_rgba (VStr ("rgb(" ++ body ++ ")")).
Proof.
  unfold luminance, luminance_channels.
  rewrite !py_startswith_rgb. now rewrite py_strip_rgb, py_strip_rgb_open.
Qed.

(** X14. A colour that is not an "rgb(" string goes to matplotlib, and what
    matplotlib raises is raised by [luminance] and by
    [pick_max_contrast_color] unchanged.  A string that starts with
    "rgba(" is such a colour: it is never read as numbers, whatever
    [float] would make of its parts. *)
Theorem luminance_delegates_errors py_float to_rgba :
  (forall rest, is_rgb_string (VStr ("rgba(" ++ rest)) = false)
  /\ (forall color e threshold colors,
        is_rgb_string color = false ->
        to_rgba color = Raise e ->
        luminance py_float to_rgba color = Raise e
        /\ pick_max_contrast_color py_float to_rgba color threshold colors = Raise e).
Proof.
  split.
  - intros rest. reflexivity.
  - intros color e threshold colors Hrgb He.
    assert (Hl : luminance py_float to_rgba color = Raise e).
    { unfold luminance, luminance_channels.
      destruct color; simpl in Hrgb; try rewrite Hrgb; now rewrite He. }
    split; [exact Hl|]. unfold pick_max_contrast_color. now rewrite Hl.
Qed.

Lemma luminance_delegates_errors_witness :
  luminance float_of_decimal_string to_rgba_basic (VStr "rgba(255,0,0,0.5)")
  = Raise ValueError
  /\ pick_max_contrast_color float_of_decimal_string to_rgba_basic
       (VStr "rgba(255,0,0,0.5)") None None = Raise ValueError.
Proof.
  destruct (luminance_delegates_errors float_of_decimal_string to_rgba_basic)
    as (_ & H).
  exact (H (VStr "rgba(255,0,0,0.5)") ValueError None None eq_refl eq_refl).
Defined.

(** X15. An "rgb(" string with fewer than three components, or with a
    component that [float] does not accept, raises [ValueError], in
    [luminance] and in [pick_max_contrast_color]; matplotlib is not asked. *)
Theorem luminance_malformed_rgb py_float to_rgba (s : string) :
  py_startswith "rgb(" s = true ->
  (length (py_split "," (py_strip "rgb()" s)) < 3)%nat
  \/ (exists piece, In piece (py_split "," (py_strip "rgb()" s))
                    /\ py_float piece = None) ->
  luminance py_float to_rgba (VStr s) = Raise ValueError
  /\ forall threshold colors,
       pick_max_contrast_color py_float to_rgba (VStr s) threshold colors
       = Raise ValueError.
Proof.
  intros Hs Hbad.
  assert (Hl : luminance py_float to_rgba (VStr s) = Raise ValueError).
  { unfold luminance, luminance_channels. rewrite Hs.
    destruct (mapM py_float (py_split "," (py_strip "rgb()" s))) as [l|] eqn:E;
      [|reflexivity].
    destruct Hbad as [Hlen | (piece & Hin & Hnone)].
    - apply length_mapM in E. rewrite E in Hlen.
      destruct l as [|r [|g [|b l]]]; try reflexivity. simpl in Hlen. lia.
    - assert (Hn : mapM py_float (py_split "," (py_strip "rgb()" s)) = None).
      { apply mapM_None. apply Exists_exists. exists piece.
        split; [now apply list_elem_of_In | exact Hnone]. }
      congruence. }
  split; [exact Hl|]. intros threshold colors.
  unfold pick_max_contrast_color. now rewrite Hl.
Qed.

(** Two components only; a percentage among three. *)
Lemma luminance_malformed_rgb_witness :
  luminance float_of_decimal_string to_rgba_basic (VStr "rgb(255,0)")
  = Raise ValueError
  /\ luminance float_of_decimal_string to_rgba_basic (VStr "rgb(100%,0,0)")
     = Raise ValueError
  /\ luminance float_of_decimal_string to_rgba_basic (VStr "rgb()")
     = Raise ValueError.
Proof.
  split; [|split].
  - apply (luminance_malformed_rgb float_of_decimal_string to_rgba_basic "rgb(255,0)");
      [reflexivity|]. left. vm_compute. lia.
  - apply (luminance_malformed_rgb float_of_decimal_string to_rgba_basic
             "rgb(100%,0,0)"); [reflexivity|].
    right. exists "100%". split; [vm_compute; auto | reflexivity].
  - apply (luminance_malformed_rgb float_of_decimal_string to_rgba_basic "rgb()");
      [reflexivity|]. left. vm_compute. lia.
Defined.

Lemma SFeqb_self_false (x : spec_float) : SFeqb x x = false -> x = S754_nan.
Proof.
  unfold SFeqb. destruct x as [s|s| |s m e]; simpl; try discriminate; auto.
  - now destruct s.
  - rewrite Z.compare_refl.
    change (Pos.compare_cont Eq m m) with (Pos.compare m m).
    rewrite Pos.compare_refl. now destruct s.
Qed.

Lemma Prim2SF_nan (a : float) : PrimFloat.is_nan a = true -> Prim2SF a = S754_nan.
Proof.
  unfold PrimFloat.is_nan. intros H. apply negb_true_iff in H.
  rewrite FloatAxioms.eqb_spec in H. now apply SFeqb_self_false.
Qed.

Lemma ltb_nan (a b : float) :
  PrimFloat.is_nan a = true \/ PrimFloat.is_nan b = true -> (a <? b)%float = false.
Proof.
  rewrite FloatAxioms.ltb_spec. intros [H|H]; apply Prim2SF_nan in H; rewrite H.
  - reflexivity.
  - unfold SFltb, SFcompare. now destruct (Prim2SF a).
Qed.

(** X16. [pick_max_contrast_color] fails exactly when [luminance] fails, and
    with the same exception; when [luminance] answers, it returns one of
    the two colours it was given, never anything else; when the
    threshold or the luminance is NaN, the comparison is false and the
    light colour is returned. *)
Theorem pick_max_contrast_color_total py_float to_rgba (bg_color : pyval)
    (luminance_threshold : option float) (colors : option (pyval * pyval)) :
  let pair := default (VStr "white", VStr "black") colors in
  (forall e,
     pick_max_contrast_color py_float to_rgba bg_color luminance_threshold colors
     = Raise e
     <-> luminance py_float to_rgba bg_color = Raise e)
  /\ (forall l,
        luminance py_float to_rgba bg_color = Ok l ->
        exists c,
          pick_max_contrast_color py_float to_rgba bg_color luminance_threshold colors
          = Ok c
          /\ (c = fst pair \/ c = snd pair))
  /\ (forall c,
        pick_max_contrast_color py_float to_rgba bg_color luminance_threshold colors
        = Ok c ->
        (c = fst pair \/ c = snd pair)
        /\ exists l, luminance py_float to_rgba bg_color = Ok l)
  /\ (forall l,
        luminance py_float to_rgba bg_color = Ok l ->
        PrimFloat.is_nan (default 0.3%float luminance_threshold) = true
        \/ PrimFloat.is_nan l = true ->
        pick_max_contrast_color py_float to_rgba bg_color luminance_threshold colors
        = Ok (fst pair)).
Proof.
  cbv zeta. unfold pick_max_contrast_color, default_colors, default_luminance_threshold.
  split; [|split; [|split]].
  - intros e. destruct (luminance py_float to_rgba bg_color) as [l|e'].
    + split; discriminate.
    + split; intros [= <-]; reflexivity.
  - intros l ->. destruct (_ <? l)%float; eexists; split; try reflexivity; auto.
  - intros c. destruct (luminance py_float to_rgba bg_color) as [l|e]; [|discriminate].
    intros Hc. split; [|now exists l].
    destruct (_ <? l)%float; injection Hc as <-; auto.
  - intros l -> Hnan. now rewrite (ltb_nan _ _ Hnan).
Qed.

Lemma pick_max_contrast_color_total_witness :
  pick_max_contrast_color float_of_decimal_string to_rgba_basic
    (VStr "white") (Some nan) None = Ok (VStr "white")
  /\ pick_max_contrast_color float_of_decimal_string to_rgba_basic
       (VStr "no such colour") None None = Raise ValueError
  /\ luminance float_of_decimal_string to_rgba_basic (VStr "rgb(1,2)")
     = Raise ValueError.
Proof.
  destruct (pick_max_contrast_color_total float_of_decimal_string to_rgba_basic
              (VStr "white") (Some nan) None) as (_ & _ & _ & H).
  destruct (pick_max_contrast_color_total float_of_decimal_string to_rgba_basic
              (VStr "no such colour") None None) as (H' & _).
  destruct (pick_max_contrast_color_total float_of_decimal_string to_rgba_basic
              (VStr "rgb(1,2)") None None) as (H'' & _).
  split; [|split].
  - apply (H 1%float); [reflexivity | now left].
  - apply H'. reflexivity.
  - apply H''. reflexivity.
Defined.

(** ** Axis ranges, further *)

(** X17. [get_fig_xy_range] only reads a plotly figure, matplotlib axes, or a
    matplotlib figure that has axes: whatever the outcome (rendered
    ranges, ranges from the data, or an exception) the store is as
    before. *)
Theorem get_fig_xy_range_read_only pow10 host (w : World) (trace_idx : pyval) :
  (forall r f,
      w_gofigs w !! r = Some f ->
      snd (get_fig_xy_range pow10 host [VGoFigure r; trace_idx] ∅ w) = w)
  /\ (forall a ax,
      w_axes w !! a = Some ax ->
      snd (get_fig_xy_range pow10 host [VAxes a; trace_idx] ∅ w) = w)
  /\ (forall r f a ax,
      w_figs w !! r = Some f -> fig_current_axes f = Some a ->
      w_axes w !! a = Some ax ->
      snd (get_fig_xy_range pow10 host [VFigure r; trace_idx] ∅ w) = w).
Proof.
  split; [|split].
  - intros r f Hf. rewrite get_fig_xy_range_positional_idx.
    now rewrite (get_fig_xy_range_body_plotly _ _ _ _ _ f Hf).
  - intros a ax Hax. rewrite get_fig_xy_range_positional_idx.
    now rewrite (get_fig_xy_range_body_Axes _ _ _ _ _ ax Hax).
  - intros r f a ax Hf Ha Hax. rewrite get_fig_xy_range_positional_idx.
    now rewrite (get_fig_xy_range_body_Figure _ _ _ _ r a f ax Hf Ha Hax).
Qed.

Lemma get_fig_xy_range_read_only_witness :
  snd (get_fig_xy_range pow10_small host_no_kaleido [VGoFigure 3%nat; VInt 7] ∅
         world_plotly) = world_plotly
  /\ snd (get_fig_xy_range pow10_small host_padded [VAxes 2%nat; VInt 0] ∅
            world_figures) = world_figures
  /\ snd (get_fig_xy_range pow10_small host_padded [VFigure 0%nat; VInt 0] ∅
            world_figures) = world_figures.
Proof.
  split; [|split].
  - destruct (get_fig_xy_range_read_only pow10_small host_no_kaleido world_plotly
                (VInt 7)) as (H & _).
    exact (H 3%nat fig_log eq_refl).
  - destruct (get_fig_xy_range_read_only pow10_small host_padded world_figures
                (VInt 0)) as (_ & H & _).
    exact (H 2%nat axes_auto eq_refl).
  - destruct (get_fig_xy_range_read_only pow10_small host_padded world_figures
                (VInt 0)) as (_ & _ & H).
    exact (H 0%nat (mkFigure (Some 0%nat)) 0%nat axes_0_10 eq_refl eq_refl eq_refl).
Defined.

Lemma dropna_no_x (ys : list (option float)) :
  dropna (map (fun v => (None, v)) ys) = [].
Proof. induction ys as [|y ys IH]; [reflexivity | exact IH]. Qed.

Lemma dropna_no_y (xs : list (option float)) :
  dropna (map (fun v => (v, None)) xs) = [].
Proof.
  induction xs as [|x xs IH]; [reflexivity|]. simpl. now destruct x.
Qed.

Lemma manual_ranges_no_rows pow10 (f : GoFigure) (i : Z) (trace : Trace)
    (x y : option (list (option float)))
    (rows : list (option float * option float)) :
  py_index (go_data f) i = Ok trace ->
  tr_x trace = Attr x -> tr_y trace = Attr y ->
  DataFrame_xy x y = Ok rows ->
  dropna rows = [] ->
  manual_ranges pow10 f (VInt i) = Raise ValueError.
Proof.
  intros Ht Hx Hy Hrows Hd. unfold manual_ranges. simpl.
  rewrite Ht, Hx, Hy. cbn [read_attr]. now rewrite Hrows, Hd.
Qed.

(** The call on a plotly figure that plotly cannot render. *)
Lemma get_fig_xy_range_no_kaleido pow10 host (r : ref) (idx : pyval) (w : World)
    (f : GoFigure) :
  w_gofigs w !! r = Some f ->
  host f = Raise ValueError ->
  get_fig_xy_range pow10 host [VGoFigure r; idx] ∅ w
  = (manual_ranges pow10 f idx, w).
Proof.
  intros Hf Hhost. rewrite (get_fig_xy_range_plotly pow10 host r idx w f Hf).
  unfold try_rendered_ranges. now rewrite Hhost.
Qed.

(** X18. When plotly cannot render (kaleido missing), computing the ranges
    from the data fails on a trace that gives no x or no y values (a
    scatter trace built from y alone, say), on x and y of different
    lengths, and on data without a single row in which both are
    present: each is a [ValueError]; a trace of a kind that has no [x]
    or no [y] at all (a pie trace) is an [AttributeError]; a trace
    index outside the figure's traces, as any index is for a figure
    without traces, is an [IndexError], and one that is not an integer
    a [TypeError]. *)
Theorem get_fig_xy_range_fallback_errors pow10 host (r : ref) (w : World)
    (f : GoFigure) :
  w_gofigs w !! r = Some f ->
  host f = Raise ValueError ->
  (forall i trace x y,
      py_index (go_data f) i = Ok trace ->
      tr_x trace = Attr x -> tr_y trace = Attr y ->
      x = None \/ y = None
      \/ (exists xs ys, x = Some xs /\ y = Some ys /\ length xs <> length ys)
      \/ (exists rows, DataFrame_xy x y = Ok rows /\ dropna rows = []) ->
      get_fig_xy_range pow10 host [VGoFigure r; VInt i] ∅ w = (Raise ValueError, w))
  /\ (forall i trace,
      py_index (go_data f) i = Ok trace ->
      tr_x trace = Missing \/ tr_y trace = Missing ->
      get_fig_xy_range pow10 host [VGoFigure r; VInt i] ∅ w
      = (Raise (HostError "AttributeError"), w))
  /\ (forall i,
      i < - Z.of_nat (length (go_data f)) \/ Z.of_nat (length (go_data f)) <= i ->
      get_fig_xy_range pow10 host [VGoFigure r; VInt i] ∅ w = (Raise IndexError, w))
  /\ (forall v,
      as_index v = Raise TypeError ->
      get_fig_xy_range pow10 host [VGoFigure r; v] ∅ w = (Raise TypeError, w)).
Proof.
  intros Hf Hhost. split; [|split; [|split]].
  - intros i trace x y Ht Hx Hy Hbad.
    rewrite (get_fig_xy_range_no_kaleido _ _ _ _ _ f Hf Hhost). f_equal.
    destruct Hbad as [-> | [-> | [(xs & ys & -> & -> & Hlen) | (rows & Hrows & Hd)]]].
    + destruct y as [ys|].
      * apply (manual_ranges_no_rows pow10 f i trace None (Some ys)
                 (map (fun v => (None, v)) ys) Ht Hx Hy);
          [reflexivity | apply dropna_no_x].
      * unfold manual_ranges. simpl. now rewrite Ht, Hx, Hy.
    + destruct x as [xs|].
      * apply (manual_ranges_no_rows pow10 f i trace (Some xs) None
                 (map (fun v => (v, None)) xs) Ht Hx Hy);
          [reflexivity | apply dropna_no_y].
      * unfold manual_ranges. simpl. now rewrite Ht, Hx, Hy.
    + unfold manual_ranges. simpl. rewrite Ht, Hx, Hy. simpl.
      apply Nat.eqb_neq in Hlen. now rewrite Hlen.
    + now apply (manual_ranges_no_rows pow10 f i trace x y rows).
  - intros i trace Ht Hmiss.
    rewrite (get_fig_xy_range_no_kaleido _ _ _ _ _ f Hf Hhost). f_equal.
    unfold manual_ranges. simpl. rewrite Ht.
    destruct Hmiss as [Hx | Hy].
    + now rewrite Hx.
    + rewrite Hy. now destruct (tr_x trace).
  - intros i Hi.
    rewrite (get_fig_xy_range_no_kaleido _ _ _ _ _ f Hf Hhost). f_equal.
    unfold manual_ranges. simpl.
    assert (Hidx : py_index (go_data f) i = Raise IndexError).
    { unfold py_index. cbv zeta.
      destruct (Z.ltb_spec i 0) as [Hneg|Hpos].
      - destruct Hi as [Hi|Hi]; [|lia].
        assert (E : (i + Z.of_nat (length (go_data f)) <? 0) = true)
          by (apply Z.ltb_lt; lia).
        now rewrite E.
      - destruct Hi as [Hi|Hi]; [lia|].
        assert (E : (i <? 0) = false) by (apply Z.ltb_ge; lia).
        assert (E' : (Z.of_nat (length (go_data f)) <=? i) = true)
          by (apply Z.leb_le; lia).
        now rewrite E, E'. }
    now rewrite Hidx.
  - intros v Hv.
    rewrite (get_fig_xy_range_no_kaleido _ _ _ _ _ f Hf Hhost). f_equal.
    unfold manual_ranges. now rewrite Hv.
Qed.

Lemma get_fig_xy_range_fallback_errors_witness :
  get_fig_xy_range pow10_small host_no_kaleido [VGoFigure 0%nat; VInt 0] ∅ world_ragged
  = (Raise ValueError, world_ragged)
  /\ get_fig_xy_range pow10_small host_no_kaleido [VGoFigure 0%nat; VInt 1] ∅ world_ragged
     = (Raise ValueError, world_ragged)
  /\ get_fig_xy_range pow10_small host_no_kaleido [VGoFigure 0%nat; VInt 2] ∅ world_ragged
     = (Raise ValueError, world_ragged)
  /\ get_fig_xy_range pow10_small host_no_kaleido [VGoFigure 0%nat; VInt 3] ∅ world_ragged
     = (Raise (HostError "AttributeError"), world_ragged)
  /\ get_fig_xy_range pow10_small host_no_kaleido [VGoFigure 1%nat; VInt 0] ∅ world_ragged
     = (Raise IndexError, world_ragged)
  /\ get_fig_xy_range pow10_small host_no_kaleido [VGoFigure 0%nat; VStr "0"] ∅
       world_ragged
     = (Raise TypeError, world_ragged).
Proof.
  destruct (get_fig_xy_range_fallback_errors pow10_small host_no_kaleido 0%nat
              world_ragged fig_ragged eq_refl eq_refl) as (Hval & Hattr & _ & Hty).
  destruct (get_fig_xy_range_fallback_errors pow10_small host_no_kaleido 1%nat
              world_ragged fig_dark eq_refl eq_refl) as (_ & _ & Hidx & _).
  split; [|split; [|split; [|split; [|split]]]].
  - apply (Hval 0 (Scatter None None (Some [Some 1; Some 2; Some 3]%float)) _ _
             eq_refl eq_refl eq_refl). now left.
  - apply (Hval 1 (Scatter None (Some [Some 1; Some 2]%float) (Some [Some 1]%float))
             _ _ eq_refl eq_refl eq_refl).
    right. right. left. do 2 eexists. repeat split; try reflexivity. discriminate.
  - apply (Hval 2 (Scatter None (Some [Some 1; None]%float)
                     (Some [None; Some nan]%float)) _ _ eq_refl eq_refl eq_refl).
    right. right. right. eexists. split; reflexivity.
  - apply (Hattr 3 Pie eq_refl). now left.
  - apply Hidx. right. simpl. lia.
  - apply Hty. reflexivity.
Defined.

(** The body of the function on a value that has none of the attributes
    of a figure. *)
Lemma get_fig_xy_range_body_other pow10 host (fig idx : pyval) (w : World) :
  is_None fig = false -> isinstance_fig fig = false ->
  (forall r, fig <> VFigureWidget r) ->
  get_fig_xy_range_body pow10 host fig idx w = (Raise (HostError "AttributeError"), w).
Proof.
  intros Hn Hi Hw.
  destruct fig; try discriminate Hn; try discriminate Hi; try reflexivity.
  now destruct (Hw r).
Qed.

(** X19. For [None] and for the supported figure handles,
    [get_fig_xy_range(fig)] and [get_fig_xy_range(fig=fig)] are the same
    call.  For any other value they part: given by keyword it is refused
    with a [TypeError] before the function runs; given positionally it
    reaches the body, which tests for matplotlib only.  So a plotly
    figure widget, which is no [go.Figure], is then read exactly as the
    figure it is made of, and a value that has none of the attributes of
    a figure fails with an attribute error. *)
Theorem get_fig_xy_range_keyword_or_positional pow10 host (fig : pyval) (w : World) :
  (is_None fig || isinstance_fig fig = true ->
   get_fig_xy_range pow10 host [fig] ∅ w
   = get_fig_xy_range pow10 host [] {["fig" := fig]} w)
  /\ (is_None fig = false -> isinstance_fig fig = false ->
      get_fig_xy_range pow10 host [] {["fig" := fig]} w = (Raise TypeError, w))
  /\ (forall r idx,
      fig = VFigureWidget r ->
      get_fig_xy_range pow10 host [fig; idx] ∅ w
      = get_fig_xy_range pow10 host [VGoFigure r; idx] ∅ w)
  /\ (is_None fig = false -> isinstance_fig fig = false ->
      (forall r, fig <> VFigureWidget r) ->
      get_fig_xy_range pow10 host [fig] ∅ w
      = (Raise (HostError "AttributeError"), w)).
Proof.
  split; [|split; [|split]].
  - intros H. rewrite get_fig_xy_range_positional.
    now rewrite get_fig_xy_range_keyword.
  - intros Hn Hi. unfold get_fig_xy_range.
    apply validate_fig_reject with (fig := fig);
      [apply lookup_singleton_eq | exact Hn | exact Hi].
  - intros r idx ->. rewrite !get_fig_xy_range_positional_idx. reflexivity.
  - intros Hn Hi Hw. rewrite get_fig_xy_range_positional.
    now apply get_fig_xy_range_body_other.
Qed.

(** Axes either way; a string either way; and a figure widget made of
    the single-trace figure, by keyword and positionally. *)
Lemma get_fig_xy_range_keyword_or_positional_witness :
  get_fig_xy_range pow10_small host_padded [VAxes 0%nat] ∅ world_figures
  = get_fig_xy_range pow10_small host_padded [] {["fig" := VAxes 0%nat]} world_figures
  /\ get_fig_xy_range pow10_small host_padded [] {["fig" := VStr "fig"]} world_figures
     = (Raise TypeError, world_figures)
  /\ get_fig_xy_range pow10_small host_padded [VStr "fig"] ∅ world_figures
     = (Raise (HostError "AttributeError"), world_figures)
  /\ get_fig_xy_range pow10_small host_padded [] {["fig" := VFigureWidget 0%nat]}
       world_plotly
     = (Raise TypeError, world_plotly)
  /\ get_fig_xy_range pow10_small host_padded [VFigureWidget 0%nat; VInt 0] ∅
       world_plotly
     = (Ok (PyTuple [-0.6; 10.6]%float, PyTuple [-0.4; 5.4]%float), world_plotly).
Proof.
  destruct (get_fig_xy_range_keyword_or_positional pow10_small host_padded
              (VAxes 0%nat) world_figures) as (H1 & _).
  destruct (get_fig_xy_range_keyword_or_positional pow10_small host_padded
              (VStr "fig") world_figures) as (_ & H2 & _ & H3).
  destruct (get_fig_xy_range_keyword_or_positional pow10_small host_padded
              (VFigureWidget 0%nat) world_plotly) as (_ & H4 & H5 & _).
  split; [apply H1; reflexivity|].
  split; [apply H2; reflexivity|].
  split; [apply H3; [reflexivity | reflexivity | discriminate]|].
  split; [apply H4; reflexivity|].
  rewrite (H5 0%nat (VInt 0) eq_refl). reflexivity.
Defined.

(** X20. The trace index plays no part for a matplotlib handle, nor for a
    plotly figure that plotly can render: any two values give the same
    result, be they out of range or no integers at all. *)
Theorem get_fig_xy_range_trace_idx_unused pow10 host (w : World)
    (idx idx' : pyval) :
  (forall r f dev_fig,
      w_gofigs w !! r = Some f -> host f = Ok dev_fig ->
      get_fig_xy_range pow10 host [VGoFigure r; idx] ∅ w
      = get_fig_xy_range pow10 host [VGoFigure r; idx'] ∅ w)
  /\ (forall fig,
      isinstance_mpl fig = true ->
      get_fig_xy_range pow10 host [fig; idx] ∅ w
      = get_fig_xy_range pow10 host [fig; idx'] ∅ w).
Proof.
  split.
  - intros r f dev_fig Hf Hdev. rewrite !get_fig_xy_range_positional_idx.
    rewrite !(get_fig_xy_range_body_plotly _ _ _ _ _ f Hf).
    unfold try_rendered_ranges. rewrite Hdev.
    rewrite rendered_ranges_to_linear.
    destruct (both _ _) as [ranges|e] eqn:E; [reflexivity|].
    now rewrite (both_to_linear_raises _ _ _ _ _ _ E).
  - intros fig Hmpl. rewrite !get_fig_xy_range_positional_idx.
    destruct fig; try discriminate Hmpl; reflexivity.
Qed.

Lemma get_fig_xy_range_trace_idx_unused_witness :
  get_fig_xy_range pow10_small host_padded [VGoFigure 0%nat; VInt 0] ∅ world_plotly
  = get_fig_xy_range pow10_small host_padded [VGoFigure 0%nat; VStr "none"] ∅ world_plotly
  /\ get_fig_xy_range pow10_small host_padded [VAxes 0%nat; VInt 0] ∅ world_figures
     = get_fig_xy_range pow10_small host_padded [VAxes 0%nat; VStr "none"] ∅
         world_figures.
Proof.
  split.
  - destruct (get_fig_xy_range_trace_idx_unused pow10_small host_padded world_plotly
                (VInt 0) (VStr "none")) as (H & _).
    apply (H 0%nat fig_single
             (mkDevLayout (Some "linear") (Some "linear")
                (PyTuple [-0.6; 10.6]%float) (PyTuple [-0.4; 5.4]%float)));
      reflexivity.
  - destruct (get_fig_xy_range_trace_idx_unused pow10_small host_padded world_figures
                (VInt 0) (VStr "none")) as (_ & H).
    apply H. reflexivity.
Defined.

Lemma py_index_negative {A} (l : list A) (k : Z) :
  1 <= k <= Z.of_nat (length l) ->
  py_index l (- k) = py_index l (Z.of_nat (length l) - k).
Proof.
  intros Hk. unfold py_index. cbv zeta.
  assert (E1 : (- k <? 0) = true) by (apply Z.ltb_lt; lia).
  assert (E2 : (Z.of_nat (length l) - k <? 0) = false) by (apply Z.ltb_ge; lia).
  rewrite E1, E2.
  now replace (- k + Z.of_nat (length l)) with (Z.of_nat (length l) - k) by lia.
Qed.

(** X21. When the ranges are computed from the data, a negative trace index
    counts from the last trace: [-k] selects the same trace as the
    number of traces minus [k]. *)
Theorem get_fig_xy_range_negative_trace_idx pow10 host (r : ref) (w : World)
    (f : GoFigure) (k : Z) :
  w_gofigs w !! r = Some f ->
  1 <= k <= Z.of_nat (length (go_data f)) ->
  get_fig_xy_range pow10 host [VGoFigure r; VInt (- k)] ∅ w
  = get_fig_xy_range pow10 host
      [VGoFigure r; VInt (Z.of_nat (length (go_data f)) - k)] ∅ w.
Proof.
  intros Hf Hk. rewrite !get_fig_xy_range_positional_idx.
  rewrite !(get_fig_xy_range_body_plotly _ _ _ _ _ f Hf).
  unfold try_rendered_ranges, manual_ranges. simpl.
  now rewrite py_index_negative.
Qed.

Lemma get_fig_xy_range_negative_trace_idx_witness :
  get_fig_xy_range pow10_small host_no_kaleido [VGoFigure 1%nat; VInt (- 1)] ∅
    world_plotly
  = get_fig_xy_range pow10_small host_no_kaleido [VGoFigure 1%nat; VInt 1] ∅
      world_plotly
  /\ get_fig_xy_range pow10_small host_no_kaleido [VGoFigure 1%nat; VInt (- 1)] ∅
       world_plotly
     = (Ok (PyList [1; 2]%float, PyList [3; 4]%float), world_plotly).
Proof.
  split.
  - apply (get_fig_xy_range_negative_trace_idx pow10_small host_no_kaleido 1%nat
             world_plotly fig_low_level 1); [reflexivity | simpl; lia].
  - reflexivity.
Defined.
